(** * BetweenCountry.py: growth rates, relative years, merging and correlation

    A shallow embedding of the table pipeline of [BetweenCountry.py]
    (growth rate, relative-year normalisation, metric merging, grouped
    correlation, the interactive selection) together with the fragment of
    pandas it calls, followed by the properties of the specification.

    Python values are modelled as the program has them: a table is a pandas
    [DataFrame] with row labels (its index) and named, typed columns; metric
    values are IEEE binary64 numbers (Rocq's primitive floats, the same
    format as numpy's float64); years are integers; a dict is the list of
    its items in insertion order; an exception is a [Raise] result; the
    console is a record of the lines typed and printed.  A string is kept
    as the bytes of its UTF-8 encoding.  The Pearson kernel of
    [DataFrame.corr] and the formatting of floats and matrices are
    parameters of the functions that use them; [nancorr] is the kernel
    pandas supplies. *)

From Stdlib Require Import String Ascii.
From Stdlib Require Import ZArith List Bool Lia Floats Sorted Permutation.
Import ListNotations.
Open Scope string_scope.
Open Scope list_scope.
Open Scope Z_scope.

(** ** Python: exceptions, scalars, strings *)

Module Py.

Inductive exn : Type :=
| KeyError (key : string)
| ValueError (msg : string)
| IndexError (msg : string)
| EOFError.

Inductive result (A : Type) : Type :=
| Ok (a : A)
| Raise (e : exn).
Arguments Ok {A} a.
Arguments Raise {A} e.

Definition bind {A B} (r : result A) (k : A -> result B) : result B :=
  match r with
  | Ok a => k a
  | Raise e => Raise e
  end.

(** A value read from or stored in a table cell, or an element of a Python
    list of numbers: a Python/numpy integer or a float64. *)
Inductive scalar : Type :=
| SInt (z : Z)
| SFloat (f : float).

(** Conversion of an integer to float64, rounding to nearest even. *)
Definition Z2F (z : Z) : float :=
  SF2Prim (binary_normalize prec emax z 0 false).

Definition to_float (s : scalar) : float :=
  match s with
  | SInt z => Z2F z
  | SFloat f => f
  end.

(** numpy's int64 arithmetic wraps around. *)
Definition int64_wrap (z : Z) : Z :=
  (z + 2 ^ 63) mod 2 ^ 64 - 2 ^ 63.

(** [range(start, stop)] *)
Definition py_range (start stop : nat) : list nat :=
  seq start (stop - start).

(** A string from the bytes of its UTF-8 encoding. *)
Definition utf8 (bytes : list nat) : string :=
  fold_right (fun n s => String (ascii_of_nat n) s) EmptyString bytes.

(** The characters [str.strip()] removes, each as its UTF-8 bytes: the
    ASCII characters 9 .. 13, 28 .. 31 and 32, then U+0085, U+00A0,
    U+1680, U+2000 .. U+200A, U+2028, U+2029, U+202F, U+205F and
    U+3000. *)
Definition whitespace : list string :=
  map utf8
      (map (fun n => [n]) (seq 9 5 ++ seq 28 5)
       ++ [[194; 133]; [194; 160]; [225; 154; 128]]
       ++ map (fun n => [226; 128; n]) (seq 128 11)
       ++ [[226; 128; 168]; [226; 128; 169]; [226; 128; 175];
           [226; 129; 159]; [227; 128; 128]])%nat.

(** [s] without the prefix [w], when it starts with [w]. *)
Fixpoint drop_prefix (w s : string) : option string :=
  match w, s with
  | EmptyString, _ => Some s
  | String a w', String b s' =>
      if Ascii.eqb a b then drop_prefix w' s' else None
  | String _ _, EmptyString => None
  end.

(** [s] without the first of [spaces] it starts with. *)
Definition drop_space (spaces : list string) (s : string) : option string :=
  fold_right (fun w r => match drop_prefix w s with
                         | Some t => Some t
                         | None => r
                         end) None spaces.

(** Leading [spaces] removed, at most [n] of them. *)
Fixpoint drop_spaces (spaces : list string) (n : nat) (s : string) : string :=
  match n with
  | O => s
  | S n => match drop_space spaces s with
           | Some t => drop_spaces spaces n t
           | None => s
           end
  end.

Fixpoint string_rev (s : string) : string :=
  match s with
  | EmptyString => EmptyString
  | String a t => string_rev t ++ String a EmptyString
  end.

Definition lstrip (s : string) : string :=
  drop_spaces whitespace (String.length s) s.

Definition rstrip (s : string) : string :=
  string_rev (drop_spaces (map string_rev whitespace) (String.length s)
                          (string_rev s)).

(** [str.strip()] *)
Definition strip (s : string) : string := rstrip (lstrip s).

(** Whether a string holds ASCII characters only. *)
Fixpoint is_ascii (s : string) : bool :=
  match s with
  | EmptyString => true
  | String a t => (nat_of_ascii a <? 128)%nat && is_ascii t
  end.

(** [str.upper()] on the letters a .. z.  Python maps other lower-case
    letters through the Unicode tables, which are not part of this
    development: [upper] is [str.upper()] on the strings [is_ascii]
    accepts. *)
Definition upper_ascii (a : ascii) : ascii :=
  let n := nat_of_ascii a in
  if ((97 <=? n) && (n <=? 122))%nat then ascii_of_nat (n - 32) else a.

Fixpoint upper (s : string) : string :=
  match s with
  | EmptyString => EmptyString
  | String a t => String (upper_ascii a) (upper t)
  end.

(** [d[key]] on a dict, kept as the list of its items in insertion order;
    [None] when the key is absent. *)
Fixpoint dict_get {V} (d : list (string * V)) (key : string) : option V :=
  match d with
  | [] => None
  | (k, v) :: t => if String.eqb k key then Some v else dict_get t key
  end.

(** [d[key] = v]: overwrite in place, or append a new item. *)
Fixpoint dict_set {V} (d : list (string * V)) (key : string) (v : V)
  : list (string * V) :=
  match d with
  | [] => [(key, v)]
  | (k, w) :: t =>
      if String.eqb k key then (k, v) :: t else (k, w) :: dict_set t key v
  end.

End Py.
Import Py.

Notation "x <- c1 ;; c2" := (Py.bind c1 (fun x => c2))
  (at level 61, c1 at next level, right associativity).

(** ** pandas: the DataFrame operations the program uses *)

Module Pandas.

(** A column has one dtype: int64 or float64.  A missing value is the
    float NaN, as in pandas. *)
Inductive column : Type :=
| IntCol (l : list Z)
| FloatCol (l : list float).

Definition col_len (c : column) : nat :=
  match c with
  | IntCol l => length l
  | FloatCol l => length l
  end.

Definition col_nth (c : column) (p : nat) : option scalar :=
  match c with
  | IntCol l => option_map SInt (nth_error l p)
  | FloatCol l => option_map SFloat (nth_error l p)
  end.

Definition col_floats (c : column) : list float :=
  match c with
  | IntCol l => map Z2F l
  | FloatCol l => l
  end.

Record DataFrame : Type := mkDataFrame {
  index : list Z;                       (* row labels *)
  index_name : option string;
  columns : list (string * column)      (* in column order *)
}.

(** [len(df)] *)
Definition len (df : DataFrame) : nat := length (index df).

(** Every column is as long as the index. *)
Definition wf (df : DataFrame) : Prop :=
  Forall (fun kc => col_len (snd kc) = len df) (columns df).

(** The default index [RangeIndex(n)]: labels 0 .. n-1. *)
Definition RangeIndex (n : nat) : list Z := map Z.of_nat (seq 0 n).

Definition column_names (df : DataFrame) : list string :=
  map fst (columns df).

(** [name in df.columns] *)
Definition has_column (df : DataFrame) (name : string) : bool :=
  existsb (String.eqb name) (column_names df).

Definition find_columns (df : DataFrame) (name : string) : list column :=
  map snd (filter (fun kc => String.eqb (fst kc) name) (columns df)).

(** [df[name]] where one column (a Series) is needed: [KeyError] when no
    column has the name; with a repeated name pandas hands back a frame,
    on which the scalar uses below raise. *)
Definition get_column (df : DataFrame) (name : string) : result column :=
  match find_columns df name with
  | [] => Raise (KeyError name)
  | [c] => Ok c
  | _ => Raise (ValueError "The truth value of a Series is ambiguous")
  end.

(** Positions of the rows carrying a label. *)
Definition positions (lbl : Z) (idx : list Z) : list nat :=
  map fst (filter (fun pl => Z.eqb (snd pl) lbl)
                  (combine (seq 0 (length idx)) idx)).

(** [df.loc[lbl, name]]: lookup by row LABEL, not by position.  On an
    index that repeats a label pandas looks the row up before the column
    and hands back a Series for a repeated label; the loop of
    [calculate_growth_rate] raises on such an index all the same (a label
    of 0 .. n-1 is then missing, or the Series is tested for truth), but
    the exception may be another than the one given here. *)
Definition loc (df : DataFrame) (lbl : Z) (name : string) : result scalar :=
  c <- get_column df name ;;
  match positions lbl (index df) with
  | [] => Raise (KeyError "row label")
  | [p] =>
      match col_nth c p with
      | Some s => Ok s
      | None => Raise (IndexError "column shorter than index")
      end
  | _ => Raise (ValueError "The truth value of a Series is ambiguous")
  end.

(** dtype of a column built from a Python list of numbers: int64 when all
    are ints, float64 as soon as one is a float. *)
Definition is_int (s : scalar) : bool :=
  match s with SInt _ => true | SFloat _ => false end.

Definition int_of (s : scalar) : Z :=
  match s with SInt z => z | SFloat _ => 0 end.

Definition column_of_list (vals : list scalar) : column :=
  if forallb is_int vals then IntCol (map int_of vals)
  else FloatCol (map to_float vals).

(** Store a column under a name: replace where the name exists, else
    append as the last column. *)
Definition set_column (name : string) (c : column)
           (cols : list (string * column)) : list (string * column) :=
  if existsb (fun kc => String.eqb (fst kc) name) cols
  then map (fun kc => if String.eqb (fst kc) name then (fst kc, c) else kc) cols
  else cols ++ [(name, c)].

Definition na_column (n : nat) : column := FloatCol (repeat nan n).

(** [df[name] = vals] with a Python list.  On a frame whose index is empty
    pandas first takes the index of the values ([_ensure_valid_index]):
    the frame gets the rows 0 .. len(vals)-1 and its other columns are
    filled with NaN.  Otherwise the lengths must agree. *)
Definition setitem_list (df : DataFrame) (name : string)
           (vals : list scalar) : result DataFrame :=
  if ((len df =? 0) && (0 <? length vals))%nat then
    Ok (mkDataFrame
          (RangeIndex (length vals)) (index_name df)
          (set_column name (column_of_list vals)
             (map (fun kc => (fst kc, na_column (length vals))) (columns df))))
  else if (length vals =? len df)%nat then
    Ok (mkDataFrame (index df) (index_name df)
          (set_column name (column_of_list vals) (columns df)))
  else Raise (ValueError "Length of values does not match length of index").

(** [df[name] = series] where the series was computed from a column of
    [df] itself: same index, so the values land row by row. *)
Definition setitem_series (df : DataFrame) (name : string) (c : column)
  : DataFrame :=
  mkDataFrame (index df) (index_name df) (set_column name c (columns df)).

(** [df.reset_index(inplace=True)]: the old labels become the first
    column, named after the index, or ["index"], or ["level_0"] when a
    column ["index"] exists; the frame gets the default index. *)
Definition reset_index (df : DataFrame) : result DataFrame :=
  let name :=
    match index_name df with
    | Some s => s
    | None => if has_column df "index" then "level_0" else "index"
    end in
  if has_column df name
  then Raise (ValueError "cannot insert, already exists")
  else Ok (mkDataFrame (RangeIndex (len df)) None
             ((name, IntCol (index df)) :: columns df)).

(** [df.columns = f(df.columns)] for a function on names. *)
Definition map_columns (f : string -> string) (df : DataFrame) : DataFrame :=
  mkDataFrame (index df) (index_name df)
              (map (fun kc => (f (fst kc), snd kc)) (columns df)).

(** [df.rename(columns=d, inplace=True)] *)
Definition rename_key (d : list (string * string)) (k : string) : string :=
  match dict_get d k with
  | Some k' => k'
  | None => k
  end.

(** [series.iloc[0]] and [series.iloc[-1]] *)
Definition iloc_first (c : column) : result scalar :=
  match col_nth c 0 with
  | Some s => Ok s
  | None => Raise (IndexError "single positional indexer is out-of-bounds")
  end.

Definition iloc_last (c : column) : result scalar :=
  match col_nth c (col_len c - 1) with
  | Some s => Ok s
  | None => Raise (IndexError "single positional indexer is out-of-bounds")
  end.

(** [a > b] on two cells. *)
Definition scalar_gtb (a b : scalar) : bool :=
  match a, b with
  | SInt x, SInt y => y <? x
  | _, _ => PrimFloat.ltb (to_float b) (to_float a)
  end.

(** Row order of [sort_values]: ascending, NaN last.  Rows with equal keys
    stay in their original order here; pandas' default sort promises no
    order among them, and no property below depends on it. *)
Fixpoint insert_by {K} (le : K -> K -> bool) (x : K * nat)
         (l : list (K * nat)) : list (K * nat) :=
  match l with
  | [] => [x]
  | y :: t => if le (fst x) (fst y) then x :: l else y :: insert_by le x t
  end.

Definition sort_perm {K} (le : K -> K -> bool) (keys : list K) : list nat :=
  map snd (fold_right (insert_by le) []
                      (combine keys (seq 0 (length keys)))).

Definition float_le_nan_last (a b : float) : bool :=
  if negb (PrimFloat.eqb b b) then true
  else if negb (PrimFloat.eqb a a) then false
  else PrimFloat.leb a b.

Definition argsort (c : column) : list nat :=
  match c with
  | IntCol l => sort_perm Z.leb l
  | FloatCol l => sort_perm float_le_nan_last l
  end.

(** Rows picked by position. *)
Definition col_take (perm : list nat) (c : column) : column :=
  match c with
  | IntCol l => IntCol (map (fun p => nth p l 0) perm)
  | FloatCol l => FloatCol (map (fun p => nth p l nan) perm)
  end.

Definition take_rows (perm : list nat) (df : DataFrame) : DataFrame :=
  mkDataFrame (map (fun p => nth p (index df) 0) perm) (index_name df)
              (map (fun kc => (fst kc, col_take perm (snd kc))) (columns df)).

(** [df.sort_values(by=..., inplace=True)] on the key column: the rows
    move, each keeping its label.  pandas sorts with numpy's quicksort,
    which does not fix the order of rows with equal keys; [argsort] keeps
    them in the order they had. *)
Definition sort_values (df : DataFrame) (key : column) : DataFrame :=
  take_rows (argsort key) df.

(** [series - k] for a Python int [k] in the int64 range, as a host year
    is; outside it the subtraction from an int64 column raises
    [OverflowError]. *)
Definition series_sub (c : column) (k : Z) : column :=
  match c with
  | IntCol l => IntCol (map (fun y => int64_wrap (y - k)) l)
  | FloatCol l => FloatCol (map (fun y => (y - Z2F k)%float) l)
  end.

(** [pd.DataFrame()] and [df.empty] *)
Definition empty_frame : DataFrame := mkDataFrame [] None [].

Definition empty (df : DataFrame) : bool :=
  ((len df =? 0)%nat || match columns df with [] => true | _ => false end).

(** [df[names]] with a list of names: the columns carrying each name, in
    the order asked; [KeyError] for a name no column carries. *)
Fixpoint select_columns (cols : list (string * column)) (names : list string)
  : result (list (string * column)) :=
  match names with
  | [] => Ok []
  | name :: rest =>
      match filter (fun kc => String.eqb (fst kc) name) cols with
      | [] => Raise (KeyError name)
      | found => tl <- select_columns cols rest ;; Ok (found ++ tl)
      end
  end.

Definition getitem_list (df : DataFrame) (names : list string)
  : result DataFrame :=
  cols <- select_columns (columns df) names ;;
  Ok (mkDataFrame (index df) (index_name df) cols).

Definition col_cells (c : column) : list scalar :=
  match c with
  | IntCol l => map SInt l
  | FloatCol l => map SFloat l
  end.

(** Equality of two join keys; two missing keys match each other. *)
Definition key_eqb (a b : scalar) : bool :=
  match a, b with
  | SInt x, SInt y => x =? y
  | _, _ =>
      let x := to_float a in
      let y := to_float b in
      PrimFloat.eqb x y || (negb (PrimFloat.eqb x x) && negb (PrimFloat.eqb y y))
  end.

(** Positions of the entries of [keys] equal to [k]. *)
Definition matches (k : scalar) (keys : list scalar) : list nat :=
  map fst (filter (fun pk => key_eqb k (snd pk))
                  (combine (seq 0 (length keys)) keys)).

(** The rows of a left join: every left row in order, once per matching
    right row (in the right order), or once with no partner. *)
Definition join_rows (lk rk : list scalar) : list (nat * option nat) :=
  flat_map
    (fun ik : nat * scalar =>
       match matches (snd ik) rk with
       | [] => [(fst ik, None)]
       | js => map (fun j => (fst ik, Some j)) js
       end)
    (combine (seq 0 (length lk)) lk).

Definition is_some {A} (o : option A) : bool :=
  match o with Some _ => true | None => false end.

(** Rows picked by optional position; a row without partner holds NaN,
    which turns an int64 column into float64. *)
Definition col_take_opt (idx : list (option nat)) (c : column) : column :=
  match c with
  | FloatCol l =>
      FloatCol (map (fun o => match o with
                              | Some j => nth j l nan
                              | None => nan
                              end) idx)
  | IntCol l =>
      if forallb is_some idx
      then IntCol (map (fun o => match o with
                                 | Some j => nth j l 0
                                 | None => 0
                                 end) idx)
      else FloatCol (map (fun o => match o with
                                   | Some j => Z2F (nth j l 0)
                                   | None => nan
                                   end) idx)
  end.

(** [left.merge(right, on=on, how="left")].  The key column stays where it
    is in [left]; the other columns of [right] follow those of [left]; a
    name that both sides carry outside the key gets the suffix [_x] on the
    left and [_y] on the right.  The result has the default index. *)
Definition merge_left (left right : DataFrame) (on : string)
  : result DataFrame :=
  lk <- get_column left on ;;
  rk <- get_column right on ;;
  let rows := join_rows (col_cells lk) (col_cells rk) in
  let overlaps (other : DataFrame) (k : string) :=
    negb (String.eqb k on) && has_column other k in
  let lcols :=
    map (fun kc => (if overlaps right (fst kc) then (fst kc ++ "_x")%string
                    else fst kc,
                    col_take (map fst rows) (snd kc)))
        (columns left) in
  let rcols :=
    map (fun kc => (if overlaps left (fst kc) then (fst kc ++ "_y")%string
                    else fst kc,
                    col_take_opt (map snd rows) (snd kc)))
        (filter (fun kc => negb (String.eqb (fst kc) on)) (columns right)) in
  Ok (mkDataFrame (RangeIndex (length rows)) None (lcols ++ rcols)).

(** [series.between(lo, hi)]: both bounds included. *)
Definition between (c : column) (lo hi : Z) : list bool :=
  match c with
  | IntCol l => map (fun y => (lo <=? y) && (y <=? hi)) l
  | FloatCol l =>
      map (fun y => PrimFloat.leb (Z2F lo) y && PrimFloat.leb y (Z2F hi)) l
  end.

(** [df[mask]] with a boolean mask: the rows where the mask holds. *)
Definition keep {A} (mask : list bool) (l : list A) : list A :=
  map snd (filter fst (combine mask l)).

Definition col_keep (mask : list bool) (c : column) : column :=
  match c with
  | IntCol l => IntCol (keep mask l)
  | FloatCol l => FloatCol (keep mask l)
  end.

Definition filter_rows (mask : list bool) (df : DataFrame) : DataFrame :=
  mkDataFrame (keep mask (index df)) (index_name df)
              (map (fun kc => (fst kc, col_keep mask (snd kc))) (columns df)).

(** A correlation matrix: a square frame whose row labels and column names
    are the same list; [mvalues] holds its rows. *)
Record Matrix : Type := mkMatrix {
  mlabels : list string;
  mvalues : list (list float)
}.

(** [matrix.iloc[0, 1]] *)
Definition iloc_0_1 (m : Matrix) : result float :=
  match nth_error (mvalues m) 0 with
  | Some row =>
      match nth_error row 1 with
      | Some v => Ok v
      | None => Raise (IndexError "index 1 is out of bounds")
      end
  | None => Raise (IndexError "index 0 is out of bounds")
  end.

(** *** The Pearson kernel

    [DataFrame.corr()] hands the selected columns, as float64, to
    [nancorr], which runs Welford's method for every pair of columns over
    the rows where both values are finite.  [clip] tells whether the
    quotient is brought back into [-1, 1] at the end, as later versions of
    pandas do. *)
Record welford : Type := mkWelford {
  nobs : nat;
  meanx : float;
  meany : float;
  ssqdm_x : float;
  ssqdm_y : float;
  covxy : float
}.

Definition welford_start : welford := mkWelford 0 0 0 0 0 0.

(** One row [(vx, vy)] of the pair of columns. *)
Definition welford_step (st : welford) (v : float * float) : welford :=
  let vx := fst v in
  let vy := snd v in
  if is_finite vx && is_finite vy then
    let n := S (nobs st) in
    let dx := (vx - meanx st)%float in
    let dy := (vy - meany st)%float in
    let mx := (meanx st + 1 / Z2F (Z.of_nat n) * dx)%float in
    let my := (meany st + 1 / Z2F (Z.of_nat n) * dy)%float in
    mkWelford n mx my
              (ssqdm_x st + (vx - mx) * dx)%float
              (ssqdm_y st + (vy - my) * dy)%float
              (covxy st + (vx - mx) * dy)%float
  else st.

(** The value [nancorr] stores for the columns [x] and [y]; [min_periods]
    is 1, the default of [corr]. *)
Definition nancorr (clip : bool) (x y : list float) : float :=
  let st := fold_left welford_step (combine x y) welford_start in
  if (nobs st <? 1)%nat then nan
  else
    let divisor := sqrt (ssqdm_x st * ssqdm_y st) in
    if negb (PrimFloat.eqb divisor 0) then
      let val := (covxy st / divisor)%float in
      if clip then
        if PrimFloat.ltb 1 val then 1%float
        else if PrimFloat.ltb val (-1) then (-1)%float
        else val
      else val
    else nan.

End Pandas.
Import Pandas.

(** ** BetweenCountry.py *)

(** The body of the loop of [calculate_growth_rate] after both cells are
    read: [0] when the previous value compares equal to 0, else
    [((current - previous) / previous) * 100].  An int64 column subtracts
    with wrap-around and divides as float64. *)
Definition growth_step (previous_year current_year : scalar) : scalar :=
  match previous_year, current_year with
  | SInt p, SInt c =>
      if p =? 0 then SInt 0
      else SFloat ((Z2F (int64_wrap (c - p)) / Z2F p) * 100)%float
  | _, _ =>
      let p := to_float previous_year in
      let c := to_float current_year in
      if PrimFloat.eqb p 0 then SInt 0
      else SFloat (((c - p) / p) * 100)%float
  end.

(** [growth_rates] as it stands when the loop ends. *)
Definition growth_rates_of (df : DataFrame) (metric_column : string)
  : result (list scalar) :=
  fold_left
    (fun acc i =>
       growth_rates <- acc ;;
       previous_year <- loc df (Z.of_nat i - 1) metric_column ;;
       current_year <- loc df (Z.of_nat i) metric_column ;;
       Ok (growth_rates ++ [growth_step previous_year current_year]))
    (py_range 1 (len df))
    (Ok [SInt 0]).

Definition calculate_growth_rate (df : DataFrame) (metric_column : string)
  : result DataFrame :=
  growth_rates <- growth_rates_of df metric_column ;;
  setitem_list df "Growth Rate (%)" growth_rates.

(** [if rename_dict: df.rename(columns=rename_dict, inplace=True)]: [None]
    and the empty dict are both false. *)
Definition rename_name (rename_dict : option (list (string * string)))
           (k : string) : string :=
  match rename_dict with
  | Some ((_ :: _) as d) => rename_key d k
  | _ => k
  end.

(** The name of a column after the strip and the rename. *)
Definition final_name (rename_dict : option (list (string * string)))
           (k : string) : string :=
  rename_name rename_dict (strip k).

(** [host_year] and [metric_column] are given by every caller; their
    default [None] is not modelled. *)
Definition index_rename_and_calculate_growth_rate
           (df : DataFrame) (rename_dict : option (list (string * string)))
           (host_year : Z) (metric_column : string) : result DataFrame :=
  df <- reset_index df ;;
  let df := map_columns strip df in
  let df := map_columns (rename_name rename_dict) df in
  year <- get_column df "Year" ;;
  first <- iloc_first year ;;
  last <- iloc_last year ;;
  let df := if scalar_gtb first last then sort_values df year else df in
  df <- calculate_growth_rate df metric_column ;;
  year <- get_column df "Year" ;;
  Ok (setitem_series df "Relative Year" (series_sub year host_year)).

(** The value of a metric in [cleaned_data_dict]: the tables under the
    keys "AUS" and "CHI". *)
Record country_data : Type := mkCountryData {
  AUS : DataFrame;
  CHI : DataFrame
}.

(** [data[["Relative Year", metric_name]].rename(columns={metric_name:
    f"{metric_name}{tag}"})] *)
Definition select_and_rename (data : DataFrame) (metric_name tag : string)
  : result DataFrame :=
  picked <- getitem_list data ["Relative Year"; metric_name] ;;
  Ok (map_columns (rename_key [(metric_name, (metric_name ++ tag)%string)])
                  picked).

(** Body of the loop of [load_and_merge_data]: one metric. *)
Definition merge_metric (merged_data : DataFrame)
           (item : string * country_data) : result DataFrame :=
  let metric_name := fst item in
  aus_data <- select_and_rename (AUS (snd item)) metric_name "_AUS" ;;
  chi_data <- select_and_rename (CHI (snd item)) metric_name "_CHI" ;;
  if empty merged_data then
    merge_left aus_data chi_data "Relative Year"
  else
    merged_data <- merge_left merged_data aus_data "Relative Year" ;;
    merge_left merged_data chi_data "Relative Year".

Definition load_and_merge_data
           (cleaned_data_dict : list (string * country_data))
  : result DataFrame :=
  fold_left
    (fun acc item => merged_data <- acc ;; merge_metric merged_data item)
    cleaned_data_dict
    (Ok empty_frame).

(** *** Correlation

    The float64 kernel of [DataFrame.corr] (the Pearson coefficient of two
    columns over the rows where both are present) and the text pandas and
    Python give a matrix and a float are numeric library code outside the
    program; the program's functions are defined over them. *)

Definition nl : string := String (ascii_of_nat 10) EmptyString.

Definition metric_groups : list (string * list string) :=
  [("Economic", ["GDP_per_capita"; "FDI"; "Gov_Consumption"]);
   ("Social", ["Num_Arrivals"; "Obesity_rate"; "Underweight_rate";
               "Unemployment_Rate(%)"]);
   ("Environmental", ["MtCO2e"])].

Definition country_suffix : list (string * string) :=
  [("Australia", "_AUS"); ("China", "_CHI")].

(** [predefined_combinations]: key, description, the two metrics. *)
Definition predefined_combinations : list (string * (string * (string * string))) :=
  [("1", ("Do GDP and FDI correlated?", ("GDP_per_capita", "FDI")));
   ("2", ("How does fiscal policy impact government consumption?",
          ("GDP_per_capita", "Gov_Consumption")));
   ("3", ("Does tourism impact economic growth?",
          ("Num_Arrivals", "GDP_per_capita")));
   ("4", ("Health trade-offs", ("Obesity_rate", "Underweight_rate")));
   ("5", ("Environmental cost of economic growth",
          ("GDP_per_capita", "MtCO2e")));
   ("6", ("Does increasing tourism lead to higher GHG emission?",
          ("Num_Arrivals", "MtCO2e")));
   ("7", ("Economic growth's effect on employment",
          ("Unemployment_Rate(%)", "GDP_per_capita")))].

(** The console and the figures shown: the lines still to be typed, the
    text written so far (one entry per [print] or prompt) and the titles of
    the figures passed to [plt.show]. *)
Record world : Type := mkWorld {
  stdin : list string;
  stdout : list string;
  figures : list string
}.

Definition print (w : world) (line : string) : world :=
  mkWorld (stdin w) (stdout w ++ [line]) (figures w).

Definition show (w : world) (title : string) : world :=
  mkWorld (stdin w) (stdout w) (figures w ++ [title]).

(** [input(prompt)] *)
Definition input (w : world) (prompt : string) : result (string * world) :=
  match stdin w with
  | [] => Raise EOFError
  | line :: rest => Ok (line, mkWorld rest (stdout w ++ [prompt]) (figures w))
  end.

Section Correlation.

Variable pearson : list float -> list float -> float.
Variable repr_matrix : Matrix -> string.
Variable format_2f : float -> string.

(** [frame.corr()]: pandas runs the kernel once for every pair of columns
    [yi <= xi] and stores the value at both [xi, yi] and [yi, xi]. *)
Definition corr_values (values : list (list float)) : list (list float) :=
  map (fun xi =>
         map (fun yi => pearson (nth (Nat.max xi yi) values [])
                                (nth (Nat.min xi yi) values []))
             (seq 0 (length values)))
      (seq 0 (length values)).

Definition corr (cols : list (string * column)) : Matrix :=
  mkMatrix (map fst cols)
           (corr_values (map (fun kc => col_floats (snd kc)) cols)).

Definition calculate_correlation (df : DataFrame) (metrics : list string)
           (time_period : option (Z * Z)) : result Matrix :=
  df <- match time_period with
        | Some (start, stop) =>
            relative_year <- get_column df "Relative Year" ;;
            Ok (filter_rows (between relative_year start stop) df)
        | None => Ok df
        end ;;
  selected <- getitem_list df metrics ;;
  Ok (corr (columns selected)).

(** [correlation_matrices[country][group] = group_corr] *)
Definition set_matrix (correlation_matrices : list (string * list (string * Matrix)))
           (country group : string) (group_corr : Matrix)
  : list (string * list (string * Matrix)) :=
  match dict_get correlation_matrices country with
  | Some groups =>
      dict_set correlation_matrices country (dict_set groups group group_corr)
  | None => correlation_matrices
  end.

Definition group_columns_of (merged_data : DataFrame) (metrics : list string)
           (suffix : string) : list string :=
  filter (has_column merged_data)
         (map (fun metric => (metric ++ suffix)%string) metrics).

(** The matrices found so far and the text printed so far. *)
Definition matrices_state : Type :=
  (list (string * list (string * Matrix)) * list string)%type.

(** Body of the inner loop: one metric group of one country. *)
Definition correlate_group (merged_data : DataFrame) (country suffix : string)
           (st : matrices_state) (gm : string * list string)
  : result matrices_state :=
  let group := fst gm in
  let metrics := snd gm in
  let group_columns := group_columns_of merged_data metrics suffix in
  if (1 <? length group_columns)%nat then
    group_corr <- calculate_correlation merged_data group_columns
                                        (Some (-5, 5)) ;;
    Ok (set_matrix (fst st) country group group_corr,
        snd st ++
        [(nl ++ group ++ " Correlation Matrix for " ++ country ++ ":")%string;
         repr_matrix group_corr])
  else
    Ok (fst st,
        snd st ++
        [("Not enough data for " ++ group ++ " metrics in "
          ++ country ++ ".")%string]).

(** Body of the outer loop: one country. *)
Definition correlate_country (merged_data : DataFrame)
           (metric_groups : list (string * list string))
           (st : matrices_state) (cs : string * string)
  : result matrices_state :=
  let country := fst cs in
  let suffix := snd cs in
  fold_left
    (fun acc gm => st <- acc ;; correlate_group merged_data country suffix st gm)
    metric_groups
    (Ok (fst st,
         snd st ++
         [(nl ++ "Computing correlation matrices for " ++ country ++ ":")%string])).

(** [out] is the text on the console before the call. *)
Definition compute_country_correlation_matrices
           (merged_data : DataFrame)
           (metric_groups : list (string * list string))
           (country_suffix : list (string * string))
           (out : list string)
  : result matrices_state :=
  let correlation_matrices :=
    fold_left (fun d cs => dict_set d (fst cs) []) country_suffix [] in
  fold_left
    (fun acc cs => st <- acc ;; correlate_country merged_data metric_groups st cs)
    country_suffix
    (Ok (correlation_matrices, out)).

(** [correlation_matrices[country][group]], if present. *)
Definition matrix_of (correlation_matrices : list (string * list (string * Matrix)))
           (country group : string) : option Matrix :=
  match dict_get correlation_matrices country with
  | Some groups => dict_get groups group
  | None => None
  end.

(** [predefined_correlation_analysis(merged_data)]: the table after the
    call and the console after the call.  Of the plotting calls only
    [plt.show] leaves a trace, the title of the figure; [time.sleep] does
    nothing here. *)
Definition predefined_correlation_analysis (merged_data : DataFrame) (w : world)
  : result (DataFrame * world) :=
  let w := print w (nl ++ "Available Metric Combinations:")%string in
  let w := fold_left
             (fun w kc => print w (fst kc ++ ": " ++ fst (snd kc))%string)
             predefined_combinations w in
  r <- input w (nl ++ "Choose a combination number (e.g., 1): ")%string ;;
  let selected_key := strip (fst r) in
  let w := snd r in
  match dict_get predefined_combinations selected_key with
  | None => Ok (merged_data, print w "Invalid selection!")
  | Some combination =>
      let metric1 := fst (snd combination) in
      let metric2 := snd (snd combination) in
      let w := print w (nl ++ "Selected combination: " ++ fst combination)%string in
      r <- input w "Select a country suffix (AUS or CHI): " ;;
      let country := upper (strip (fst r)) in
      let w := snd r in
      if negb (existsb (String.eqb country) ["AUS"; "CHI"]) then
        Ok (merged_data, print w "Invalid country suffix!")
      else
        let suffix := ("_" ++ country)%string in
        let w := print w (nl ++ "Selected country suffix: " ++ country)%string in
        let metric1_col := (metric1 ++ suffix)%string in
        let metric2_col := (metric2 ++ suffix)%string in
        let w := print w ("Checking columns: " ++ metric1_col ++ " and "
                          ++ metric2_col)%string in
        if negb (has_column merged_data metric1_col)
           || negb (has_column merged_data metric2_col) then
          Ok (merged_data,
              print w ("Missing: " ++ metric1_col ++ " or " ++ metric2_col
                       ++ " in " ++ country
                       ++ ". Cannot calculate correlation.")%string)
        else
          selected <- getitem_list merged_data [metric1_col; metric2_col] ;;
          correlation_value <- iloc_0_1 (corr (columns selected)) ;;
          let w := print w (nl ++ "Correlation between " ++ metric1 ++ " and "
                            ++ metric2 ++ " in " ++ country ++ ": "
                            ++ format_2f correlation_value)%string in
          Ok (merged_data,
              show w ("Correlation between " ++ metric1 ++ " and " ++ metric2
                      ++ " in " ++ country)%string)
  end.

End Correlation.

(** *** Heat maps *)

(** [correlation_matrix.empty] *)
Definition matrix_empty (correlation_matrix : Matrix) : bool :=
  match mlabels correlation_matrix with
  | [] => true
  | _ => false
  end.

(** [plot_correlation_heatmap(correlation_matrix, title)], [None] standing
    for Python's [None].  As above, of the plotting calls only [plt.show]
    leaves a trace. *)
Definition plot_correlation_heatmap (correlation_matrix : option Matrix)
           (title : string) (w : world) : world :=
  match correlation_matrix with
  | Some m =>
      if negb (matrix_empty m) then show w title
      else print w ("No data available to plot heatmap: " ++ title)%string
  | None => print w ("No data available to plot heatmap: " ++ title)%string
  end.

(** [plot_all_heatmaps(correlation_matrices, metric_groups)]; the second
    argument is not used by the function. *)
Definition plot_all_heatmaps
           (correlation_matrices : list (string * list (string * option Matrix)))
           (w : world) : world :=
  fold_left
    (fun w cg =>
       let country := fst cg in
       let w := print w ("Generating heatmaps for " ++ country ++ ":")%string in
       fold_left
         (fun w gc =>
            let group := fst gc in
            match snd gc with
            | Some group_corr =>
                plot_correlation_heatmap
                  (Some group_corr)
                  (group ++ " Metric Correlation (" ++ country ++ ")")%string w
            | None =>
                print w ("Not enough data for " ++ group ++ " metrics in "
                         ++ country ++ ".")%string
            end)
         (snd cg) w)
    correlation_matrices w.

(** The dictionary [compute_country_correlation_matrices] returns, as
    [plot_all_heatmaps] receives it: every value is a matrix. *)
Definition as_heatmap_input
           (correlation_matrices : list (string * list (string * Matrix)))
  : list (string * list (string * option Matrix)) :=
  map (fun cg => (fst cg, map (fun gc => (fst gc, Some (snd gc))) (snd cg)))
      correlation_matrices.

(** The titles of the heat maps of a dictionary, in its order. *)
Definition heatmap_titles
           (correlation_matrices : list (string * list (string * Matrix)))
  : list string :=
  flat_map
    (fun cg =>
       map (fun gc => (fst gc ++ " Metric Correlation (" ++ fst cg ++ ")")%string)
           (snd cg))
    correlation_matrices.

(** *** Bar chart of the predefined combinations *)

(** One record of [correlations]. *)
Record bar_entry : Type := mkBarEntry {
  Combination : string;
  Country : string;
  Correlation : float
}.

(** [s.replace("_", "")] *)
Fixpoint remove_underscores (s : string) : string :=
  match s with
  | EmptyString => EmptyString
  | String a t =>
      if Ascii.eqb a "_" then remove_underscores t
      else String a (remove_underscores t)
  end.

(** [correlations] and the text printed so far. *)
Definition bar_state : Type := (list bar_entry * list string)%type.

Section BarChart.

Variable pearson : list float -> list float -> float.

(** Body of the inner loop of [plot_predefined_combinations_bar]: one pair
    of metrics for one country suffix. *)
Definition correlate_pair (merged_data : DataFrame) (metric1 metric2 : string)
           (st : bar_state) (country_suffix : string) : result bar_state :=
  let metric1_col := (metric1 ++ country_suffix)%string in
  let metric2_col := (metric2 ++ country_suffix)%string in
  if has_column merged_data metric1_col && has_column merged_data metric2_col
  then
    selected <- getitem_list merged_data [metric1_col; metric2_col] ;;
    corr_value <- iloc_0_1 (corr pearson (columns selected)) ;;
    Ok (fst st ++
        [mkBarEntry (metric1 ++ " vs " ++ metric2)%string
                    (if String.eqb country_suffix "_AUS" then "Australia"
                     else "China")
                    corr_value],
        snd st)
  else
    Ok (fst st,
        snd st ++
        [("Missing: " ++ metric1_col ++ " or " ++ metric2_col ++ " in "
          ++ remove_underscores country_suffix)%string]).

(** The loops of [plot_predefined_combinations_bar]: [correlations] as it
    stands when they end, and the text printed; [out] is the text on the
    console before the call.  The bar plot drawn from [correlations]
    afterwards is library code and is not modelled. *)
Definition correlations_of
           (predefined_combinations : list (string * (string * (string * string))))
           (merged_data : DataFrame) (out : list string) : result bar_state :=
  fold_left
    (fun acc kc =>
       st <- acc ;;
       let metric1 := fst (snd (snd kc)) in
       let metric2 := snd (snd (snd kc)) in
       fold_left
         (fun acc country_suffix =>
            st <- acc ;;
            correlate_pair merged_data metric1 metric2 st country_suffix)
         ["_AUS"; "_CHI"]
         (Ok st))
    predefined_combinations
    (Ok ([], out)).

End BarChart.

(** *** Sample tables *)

(** A frame with the default index built from its columns, as
    [pd.DataFrame(dict)] builds it. *)
Definition frame_of (cols : list (string * column)) : DataFrame :=
  mkDataFrame (RangeIndex (match cols with [] => 0%nat | kc :: _ => col_len (snd kc) end))
              None cols.

Definition spec_example : DataFrame :=
  frame_of [("Year", IntCol [2000; 2001; 2002; 2003]);
            ("GDP", FloatCol [100; 150; 0; 50]%float)].

Definition descending_example : DataFrame :=
  frame_of [("Year", IntCol [2002; 2001; 2000]);
            ("GDP", FloatCol [400; 200; 100]%float)].

Definition ascending_example : DataFrame :=
  frame_of [("Year", IntCol [2000; 2001; 2002]);
            ("GDP", FloatCol [100; 200; 400]%float)].

Definition empty_example : DataFrame :=
  frame_of [("Year", IntCol []); ("GDP", FloatCol [])].

(** A table whose index holds the years, as a transposed source table
    has, with the rename the normaliser is then called with. *)
Definition year_indexed_example : DataFrame :=
  mkDataFrame [2001; 2000] None [("GDP", FloatCol [200; 100]%float)].

Definition index_to_year : option (list (string * string)) :=
  Some [("index", "Year")].

(** A table that kept the labels of an earlier [reset_index] as a column. *)
Definition with_index_column : DataFrame :=
  frame_of [("index", IntCol [7; 8]);
            ("Year", IntCol [2000; 2001]);
            ("GDP", FloatCol [100; 200]%float)].

Definition metric_table (metric_name : string) (ry : list Z) (v : list float)
  : DataFrame :=
  frame_of [("Relative Year", IntCol ry); (metric_name, FloatCol v)].

(** GDP anchors the merge on the years -1, 0, 1; the FDI tables cover only
    part of them. *)
Definition cleaned_example : list (string * country_data) :=
  [("GDP", mkCountryData (metric_table "GDP" [-1; 0; 1] [1; 2; 3]%float)
                         (metric_table "GDP" [0; 1; 2] [10; 20; 30]%float));
   ("FDI", mkCountryData (metric_table "FDI" [0; 5] [7; 8]%float)
                         (metric_table "FDI" [-1; 0] [4; 5]%float))].

(** The same metrics, the first AUS table having columns but no rows. *)
Definition cleaned_empty_anchor : list (string * country_data) :=
  [("GDP", mkCountryData (metric_table "GDP" [] [])
                         (metric_table "GDP" [0; 1; 2] [10; 20; 30]%float));
   ("FDI", mkCountryData (metric_table "FDI" [0; 5] [7; 8]%float)
                         (metric_table "FDI" [-1; 0] [4; 5]%float))].

Definition merged_example : DataFrame :=
  frame_of [("Relative Year", IntCol [-6; -5; 0; 5; 6]);
            ("GDP_per_capita_AUS", FloatCol [1; 2; 3; 4; 5]%float);
            ("FDI_AUS", FloatCol [2; 4; 5; 4; 2]%float);
            ("MtCO2e_AUS", FloatCol [9; 8; 7; 6; 5]%float)].

(** The scenario of the specification: one group, one country, and a
    merged table holding only [GDP_AUS]. *)
Definition scenario_table : DataFrame :=
  frame_of [("GDP_AUS", FloatCol [1; 2; 3]%float)].

(** *** Notions used in the statements *)

(** The cell of a column at a position, [SInt 0] past its end. *)
Definition cell (c : column) (i : nat) : scalar :=
  match col_nth c i with
  | Some s => s
  | None => SInt 0
  end.

(** Order of two (key, position) pairs during the sort. *)
Definition key_le (a b : Z * nat) : Prop := fst a <= fst b.

(** The keys of a normalised table. *)
Definition relative_years (df : DataFrame) : list Z :=
  match find_columns df "Relative Year" with
  | [IntCol ry] => ry
  | _ => []
  end.

(** A table normalised for a metric: one integer "Relative Year" column
    with at least one row (the normaliser raises on a table without rows)
    and one column of the metric. *)
Definition normalized (metric_name : string) (df : DataFrame) : Prop :=
  (exists ry, find_columns df "Relative Year" = [IntCol ry] /\ ry <> []) /\
  (exists c, find_columns df metric_name = [c]) /\
  metric_name <> "Relative Year".

(** The frame a left join on "Relative Year" returns when the left frame
    has the integer keys [lk] and the right frame holds the keys [rk] and
    one more column [name], absent on the left. *)
Definition joined (L : DataFrame) (lk rk : list Z) (name : string) (c : column)
  : DataFrame :=
  let rows := join_rows (map SInt lk) (map SInt rk) in
  mkDataFrame (RangeIndex (length rows)) None
    (map (fun kc => (fst kc, col_take (map fst rows) (snd kc))) (columns L)
     ++ [(name, col_take_opt (map snd rows) c)]).

(** In column [name] the rows whose key is not among [keys] hold NaN. *)
Definition missing_outside (M : DataFrame) (name : string) (keys : list Z)
  : Prop :=
  exists ym c,
    find_columns M "Relative Year" = [IntCol ym] /\
    find_columns M name = [c] /\
    forall k y, nth_error ym k = Some y -> ~ In y keys ->
                col_nth c k = Some (SFloat nan).

(** The two column names a metric contributes. *)
Definition metric_columns (item : string * country_data) : list string :=
  [(fst item ++ "_AUS")%string; (fst item ++ "_CHI")%string].

(** What holds of the merged table after the metrics [done], of which
    [later] came after the first: its keys are those of the anchor [ya], it
    has the key column and the two columns of every metric, and the columns
    of a later metric hold NaN outside that metric's own keys. *)
Definition merged_inv (ya : list Z) (M : DataFrame)
           (done later : list (string * country_data)) : Prop :=
  (exists ym, find_columns M "Relative Year" = [IntCol ym] /\
              forall y, In y ym <-> In y ya) /\
  len M <> 0%nat /\
  column_names M = "Relative Year" :: flat_map metric_columns done /\
  forall item, In item later ->
    missing_outside M (fst item ++ "_AUS") (relative_years (AUS (snd item))) /\
    missing_outside M (fst item ++ "_CHI") (relative_years (CHI (snd item))).

(** The message of a skipped group. *)
Definition not_enough (group country : string) : string :=
  ("Not enough data for " ++ group ++ " metrics in " ++ country ++ ".")%string.

(** The outcome the loops of [compute_country_correlation_matrices] must
    reach for one country and one group, from the state [st0] to [st]: a
    stored matrix when two columns or more resolve, else no new entry and
    the message. *)
Definition group_outcome (pearson : list float -> list float -> float)
           (merged_data : DataFrame) (st0 st : matrices_state)
           (country suffix group : string) (metrics : list string) : Prop :=
  if (1 <? length (group_columns_of merged_data metrics suffix))%nat then
    exists M,
      calculate_correlation pearson merged_data
        (group_columns_of merged_data metrics suffix) (Some (-5, 5)) = Ok M /\
      matrix_of (fst st) country group = Some M
  else
    matrix_of (fst st) country group = matrix_of (fst st0) country group /\
    In (not_enough group country) (snd st).

(** What [predefined_correlation_analysis] prints before its first prompt. *)
Definition menu : list string :=
  (nl ++ "Available Metric Combinations:")%string
  :: map (fun kc => (fst kc ++ ": " ++ fst (snd kc))%string)
         predefined_combinations.

(** The frame of the normaliser after [reset_index], the strip and the
    rename, before the test of the year order. *)
Definition renamed (rename_dict : option (list (string * string)))
           (d0 : DataFrame) : DataFrame :=
  map_columns (rename_name rename_dict) (map_columns strip d0).

(** The row order the normaliser leaves: the sort order of the years when
    the first year is greater than the last, else the order as given. *)
Definition row_order (year : column) (first last : scalar) : list nat :=
  if scalar_gtb first last then argsort year else seq 0 (col_len year).

(** A table with one row and no metric column, and one with two rows. *)
Definition one_row_example : DataFrame :=
  frame_of [("Year", IntCol [2000])].

Definition two_rows_no_metric : DataFrame :=
  frame_of [("Year", IntCol [2000; 2001])].

(** The sample metrics, the FDI table of CHI lacking its FDI column. *)
Definition cleaned_missing_column : list (string * country_data) :=
  [("GDP", mkCountryData (metric_table "GDP" [-1; 0; 1] [1; 2; 3]%float)
                         (metric_table "GDP" [0; 1; 2] [10; 20; 30]%float));
   ("FDI", mkCountryData (metric_table "FDI" [0; 5] [7; 8]%float)
                         (metric_table "Inflow" [-1; 0] [4; 5]%float))].

(** The column a table carries under a name that one column has. *)
Definition the_column (df : DataFrame) (name : string) : column :=
  match find_columns df name with
  | [c] => c
  | _ => IntCol []
  end.

(** The first position of the key [y] among the keys [rk]. *)
Fixpoint key_position (y : Z) (rk : list Z) : option nat :=
  match rk with
  | [] => None
  | k :: rk => if y =? k then Some 0%nat
               else option_map S (key_position y rk)
  end.

(** The column a table [data] of a metric contributes to a merged table
    with the keys [ra]: under each key the value [data] holds at that key,
    NaN when [data] has no such key. *)
Definition looked_up (ra : list Z) (data : DataFrame)
           (metric_name tag : string) : string * column :=
  ((metric_name ++ tag)%string,
   col_take_opt (map (fun y => key_position y (relative_years data)) ra)
                (the_column data metric_name)).

(** The merged table written as lookups: the rows of the first metric's AUS
    table as they are, and beside them one looked-up column for every other
    table. *)
Definition merged_by_lookup (first : string * country_data)
           (rest : list (string * country_data)) : DataFrame :=
  let ra := relative_years (AUS (snd first)) in
  mkDataFrame (RangeIndex (length ra)) None
    (("Relative Year", IntCol ra)
     :: ((fst first ++ "_AUS")%string, the_column (AUS (snd first)) (fst first))
     :: looked_up ra (CHI (snd first)) (fst first) "_CHI"
     :: flat_map (fun item => [looked_up ra (AUS (snd item)) (fst item) "_AUS";
                               looked_up ra (CHI (snd item)) (fst item) "_CHI"])
                 rest).

(** A merged table that lost its key column. *)
Definition merged_without_key : DataFrame :=
  frame_of [("GDP_per_capita_AUS", FloatCol [1; 2; 3]%float);
            ("FDI_AUS", FloatCol [2; 4; 5]%float)].

(** The record the bar chart holds for a pair of metrics and a suffix. *)
Definition pair_entry (pearson : list float -> list float -> float)
           (merged_data : DataFrame) (metric1 metric2 country_suffix : string)
  : bar_entry :=
  mkBarEntry (metric1 ++ " vs " ++ metric2)%string
             (if String.eqb country_suffix "_AUS" then "Australia" else "China")
             (pearson (col_floats (the_column merged_data
                                               (metric2 ++ country_suffix)))
                      (col_floats (the_column merged_data
                                               (metric1 ++ country_suffix)))).

(** What one pair of metrics and one suffix add to [correlations] and to
    the console: a record when both columns are in the table, else a
    line. *)
Definition pair_outcome (pearson : list float -> list float -> float)
           (merged_data : DataFrame) (metric1 metric2 country_suffix : string)
  : list bar_entry * list string :=
  if has_column merged_data (metric1 ++ country_suffix)
     && has_column merged_data (metric2 ++ country_suffix)
  then ([pair_entry pearson merged_data metric1 metric2 country_suffix], [])
  else ([],
        [("Missing: " ++ (metric1 ++ country_suffix) ++ " or "
          ++ (metric2 ++ country_suffix) ++ " in "
          ++ remove_underscores country_suffix)%string]).

(** The outcomes of every combination, for "_AUS" then "_CHI". *)
Definition pair_outcomes (pearson : list float -> list float -> float)
           (merged_data : DataFrame)
           (combinations : list (string * (string * (string * string))))
  : list (list bar_entry * list string) :=
  flat_map
    (fun kc =>
       map (pair_outcome pearson merged_data
                         (fst (snd (snd kc))) (snd (snd (snd kc))))
           ["_AUS"; "_CHI"])
    combinations.

(** A two-row table whose rows carry the labels 1 and 0. *)
Definition relabelled_example : DataFrame :=
  mkDataFrame [1; 0] None [("Year", IntCol [2000; 2001]);
                           ("GDP", FloatCol [100; 200]%float)].

(** Two identical columns and a constant one. *)
Definition identical_example : DataFrame :=
  frame_of [("A", FloatCol [1; 2; 4]%float);
            ("B", FloatCol [1; 2; 4]%float);
            ("C", FloatCol [5; 5; 5]%float)].

(** Two identical columns holding 2^300 and -2^300. *)
Definition large_example : DataFrame :=
  frame_of [("A", FloatCol [0x1p+300; -0x1p+300]%float);
            ("B", FloatCol [0x1p+300; -0x1p+300]%float)].

(** Rows labelled 2, 1, 0: what a sort by year leaves of a table that
    came with the years descending. *)
Definition permuted_example : DataFrame :=
  mkDataFrame [2; 1; 0] None [("GDP", FloatCol [100; 200; 400]%float)].

(** [matrix.iloc[i, j]], NaN outside the matrix. *)
Definition entry (m : Matrix) (i j : nat) : float :=
  nth j (nth i (mvalues m) []) nan.

(** The values of a column on the rows [calculate_correlation] keeps. *)
Definition rows_in_window (time_period : option (Z * Z))
           (relative_year : column) (c : column) : list float :=
  match time_period with
  | Some (lower, upper) =>
      keep (between relative_year lower upper) (col_floats c)
  | None => col_floats c
  end.

(** Welford's method on a column paired with itself, and the sum of
    squared deviations it leaves. *)
Definition welford_of (x : list float) : welford :=
  fold_left welford_step (combine x x) welford_start.

Definition sum_sq_dev (x : list float) : float := ssqdm_x (welford_of x).

(** What [nancorr] makes of a sum of squared deviations [s] that stands
    for both columns and for their covariance. *)
Definition self_correlation (clip : bool) (x : list float) : float :=
  if (nobs (welford_of x) <? 1)%nat then nan
  else
    let s := sum_sq_dev x in
    let divisor := sqrt (s * s) in
    if negb (PrimFloat.eqb divisor 0) then
      let val := (s / divisor)%float in
      if clip then
        if PrimFloat.ltb 1 val then 1%float
        else if PrimFloat.ltb val (-1) then (-1)%float
        else val
      else val
    else nan.

(** * Properties *)

(** Distinctness of a list of string literals. *)
Ltac distinct_strings :=
  repeat (constructor;
          [ let H := fresh in
            simpl; intros H;
            repeat (destruct H as [H|H]; [discriminate H|]); exact H | ]);
  constructor.

(** ** Label lookup on the default index *)

Lemma positions_seq_below (n s i : nat) :
  (i < s)%nat ->
  filter (fun pl : nat * Z => snd pl =? Z.of_nat i)
         (combine (seq s n) (map Z.of_nat (seq s n))) = [].
Proof.
  revert s; induction n as [|n IH]; intros s Hi; simpl; [reflexivity|].
  destruct (Z.eqb_spec (Z.of_nat s) (Z.of_nat i)) as [E|_]; [lia|].
  apply IH; lia.
Qed.

Lemma positions_seq (n s i : nat) :
  (s <= i < s + n)%nat ->
  filter (fun pl : nat * Z => snd pl =? Z.of_nat i)
         (combine (seq s n) (map Z.of_nat (seq s n))) = [(i, Z.of_nat i)].
Proof.
  revert s; induction n as [|n IH]; intros s Hi; simpl; [lia|].
  destruct (Z.eqb_spec (Z.of_nat s) (Z.of_nat i)) as [E|NE].
  - assert (s = i) by lia; subst s.
    rewrite positions_seq_below by lia. reflexivity.
  - apply IH; lia.
Qed.

Lemma RangeIndex_length (n : nat) : length (RangeIndex n) = n.
Proof. unfold RangeIndex. now rewrite length_map, length_seq. Qed.

Lemma positions_RangeIndex (n i : nat) :
  (i < n)%nat -> positions (Z.of_nat i) (RangeIndex n) = [i].
Proof.
  intros Hi. unfold positions. rewrite RangeIndex_length.
  unfold RangeIndex. rewrite positions_seq by lia. reflexivity.
Qed.

Lemma loc_RangeIndex (df : DataFrame) (name : string) (c : column)
      (i : nat) (s : scalar) :
  index df = RangeIndex (len df) ->
  get_column df name = Ok c ->
  col_nth c i = Some s ->
  (i < len df)%nat ->
  loc df (Z.of_nat i) name = Ok s.
Proof.
  intros Hidx Hc Hs Hi. unfold loc. rewrite Hc. simpl.
  rewrite Hidx, positions_RangeIndex by assumption. now rewrite Hs.
Qed.

Lemma col_nth_cell (c : column) (i : nat) :
  (i < col_len c)%nat -> col_nth c i = Some (cell c i).
Proof.
  intros Hi. unfold cell.
  destruct c as [l|l]; simpl in *;
    destruct (nth_error l i) eqn:E; try reflexivity;
    apply nth_error_None in E; lia.
Qed.

(** The loop of [calculate_growth_rate] over any list of in-range indices. *)
Lemma growth_loop_default_index (df : DataFrame) (m : string) (c : column)
      (l : list nat) (acc : list scalar) :
  index df = RangeIndex (len df) ->
  get_column df m = Ok c ->
  col_len c = len df ->
  Forall (fun i => (1 <= i < len df)%nat) l ->
  fold_left
    (fun acc i =>
       growth_rates <- acc ;;
       previous_year <- loc df (Z.of_nat i - 1) m ;;
       current_year <- loc df (Z.of_nat i) m ;;
       Ok (growth_rates ++ [growth_step previous_year current_year]))
    l (Ok acc)
  = Ok (acc ++ map (fun i => growth_step (cell c (i - 1)) (cell c i)) l).
Proof.
  intros Hidx Hc Hlen. revert acc.
  induction l as [|i l IH]; intros acc Hall; simpl.
  - now rewrite app_nil_r.
  - inversion Hall as [|? ? Hi Hall']; subst.
    replace (Z.of_nat i - 1) with (Z.of_nat (i - 1)) by lia.
    rewrite (loc_RangeIndex df m c (i - 1) (cell c (i - 1))); try assumption;
      [| apply col_nth_cell; lia | lia].
    rewrite (loc_RangeIndex df m c i (cell c i)); try assumption;
      [| apply col_nth_cell; lia | lia].
    simpl. rewrite IH by assumption. now rewrite <- app_assoc.
Qed.

Lemma growth_rates_of_default_index (df : DataFrame) (m : string) (c : column) :
  index df = RangeIndex (len df) ->
  get_column df m = Ok c ->
  col_len c = len df ->
  growth_rates_of df m
  = Ok (SInt 0 :: map (fun i => growth_step (cell c (i - 1)) (cell c i))
                      (py_range 1 (len df))).
Proof.
  intros Hidx Hc Hlen. unfold growth_rates_of.
  rewrite (growth_loop_default_index df m c); try assumption; [reflexivity|].
  apply Forall_forall. intros i Hi. unfold py_range in Hi.
  apply in_seq in Hi. lia.
Qed.

Lemma growth_rates_length (df : DataFrame) (m : string) (c : column) :
  index df = RangeIndex (len df) ->
  get_column df m = Ok c ->
  col_len c = len df ->
  exists g, growth_rates_of df m = Ok g /\ length g = Nat.max 1 (len df).
Proof.
  intros Hidx Hc Hlen. eexists. split.
  - apply (growth_rates_of_default_index df m c); assumption.
  - cbn [length]. rewrite length_map. unfold py_range. rewrite length_seq.
    destruct (len df); simpl; lia.
Qed.

Lemma cell_float (v : list float) (i : nat) :
  (i < length v)%nat -> cell (FloatCol v) i = SFloat (nth i v nan).
Proof.
  intros Hi. unfold cell. simpl.
  now rewrite (nth_error_nth' v nan Hi).
Qed.

Lemma nth_error_growth (f : nat -> scalar) (n i : nat) :
  (0 < i < n)%nat ->
  nth_error (SInt 0 :: map f (py_range 1 n)) i = Some (f i).
Proof.
  intros Hi. destruct i as [|i]; [lia|]. simpl.
  unfold py_range. rewrite nth_error_map.
  rewrite (nth_error_nth' _ 0%nat) by (rewrite length_seq; lia).
  rewrite seq_nth by lia. reflexivity.
Qed.

(** The growth list of a table with at most one row is [[0]], whatever its
    columns. *)
Lemma growth_rates_of_empty (df : DataFrame) (m : string) :
  (len df <= 1)%nat -> growth_rates_of df m = Ok [SInt 0].
Proof.
  intros H. unfold growth_rates_of, py_range.
  replace (len df - 1)%nat with 0%nat by lia. reflexivity.
Qed.

(** ** C1 *)

(** C1 as stated fails on a table whose rows do not carry the labels
    0 .. n-1 in their order: on the rows GDP = [100, 200, 400] labelled
    2, 1, 0 the loop reads label 0 first, that is the values 400, 200, 100,
    and the list is [0, -50, -50], where the claim gives
    (200 - 100) / 100 * 100 = 100 for element 1. *)
Lemma calculate_growth_rate_reads_by_label :
  get_column permuted_example "GDP" = Ok (FloatCol [100; 200; 400]%float) /\
  (1 <= len permuted_example)%nat /\
  growth_rates_of permuted_example "GDP"
  = Ok [SInt 0; SFloat (-50); SFloat (-50)] /\
  calculate_growth_rate permuted_example "GDP"
  = Ok (mkDataFrame [2; 1; 0] None
          [("GDP", FloatCol [100; 200; 400]%float);
           ("Growth Rate (%)", FloatCol [0; -50; -50]%float)]) /\
  PrimFloat.eqb (-50) (((200 - 100) / 100) * 100) = false.
Proof. repeat split; try reflexivity. vm_compute. lia. Qed.

(** C1, amended. On a table of n >= 1 rows (rows labelled 0 .. n-1, the default
    index) with a float metric column, [calculate_growth_rate] returns the
    table with the column "Growth Rate (%)" built from a growth list of n
    elements: element 0 is the integer 0; for 0 < i < n element i is 0 when
    the metric at row i-1 compares equal to 0 and
    [(value[i] - value[i-1]) / value[i-1] * 100] otherwise.  For the values
    [100, 150, 0, 50] the list is [0, 50.0, -100.0, 0]. *)
Theorem calculate_growth_rate_sequence
        (df : DataFrame) (metric_column : string) (value : list float) :
  index df = RangeIndex (len df) ->
  get_column df metric_column = Ok (FloatCol value) ->
  length value = len df ->
  (1 <= len df)%nat ->
  (exists growth_rates,
      growth_rates_of df metric_column = Ok growth_rates /\
      calculate_growth_rate df metric_column
      = Ok (mkDataFrame (index df) (index_name df)
              (set_column "Growth Rate (%)" (column_of_list growth_rates)
                          (columns df))) /\
      length growth_rates = len df /\
      nth_error growth_rates 0 = Some (SInt 0) /\
      forall i, (0 < i < len df)%nat ->
        let previous := nth (i - 1) value nan in
        let current := nth i value nan in
        nth_error growth_rates i
        = Some (if PrimFloat.eqb previous 0 then SInt 0
                else SFloat (((current - previous) / previous) * 100)%float))
  /\ growth_rates_of spec_example "GDP"
     = Ok [SInt 0; SFloat 50; SFloat (-100); SInt 0].
Proof.
  intros Hidx Hcol Hlen Hn. split; [| reflexivity].
  pose proof (growth_rates_of_default_index df metric_column (FloatCol value)
                Hidx Hcol Hlen) as Hg.
  destruct (growth_rates_length df metric_column (FloatCol value)
              Hidx Hcol Hlen) as (g & Hg' & Hgl).
  rewrite Hg in Hg'. injection Hg' as <-.
  eexists. split; [exact Hg|].
  assert (Hl : length (SInt 0 :: map (fun i => growth_step
                 (cell (FloatCol value) (i - 1)) (cell (FloatCol value) i))
                 (py_range 1 (len df))) = len df) by lia.
  repeat split.
  - unfold calculate_growth_rate. rewrite Hg. cbn [bind].
    unfold setitem_list. rewrite Hl.
    destruct (len df) as [|k] eqn:E; [lia|].
    cbn [Nat.eqb andb]. now rewrite Nat.eqb_refl.
  - exact Hl.
  - intros i Hi previous current.
    rewrite nth_error_growth by assumption.
    rewrite !cell_float by lia. reflexivity.
Qed.

(** The hypotheses of C1 hold of the four-row sample table. *)
Lemma calculate_growth_rate_sequence_witness :
  (exists growth_rates,
      growth_rates_of spec_example "GDP" = Ok growth_rates /\
      calculate_growth_rate spec_example "GDP"
      = Ok (mkDataFrame (index spec_example) (index_name spec_example)
              (set_column "Growth Rate (%)" (column_of_list growth_rates)
                          (columns spec_example))) /\
      length growth_rates = len spec_example /\
      nth_error growth_rates 0 = Some (SInt 0) /\
      forall i, (0 < i < len spec_example)%nat ->
        let previous := nth (i - 1) [100; 150; 0; 50]%float nan in
        let current := nth i [100; 150; 0; 50]%float nan in
        nth_error growth_rates i
        = Some (if PrimFloat.eqb previous 0 then SInt 0
                else SFloat (((current - previous) / previous) * 100)%float))
  /\ growth_rates_of spec_example "GDP"
     = Ok [SInt 0; SFloat 50; SFloat (-100); SInt 0].
Proof.
  apply (calculate_growth_rate_sequence spec_example "GDP"
           [100; 150; 0; 50]%float).
  - reflexivity.
  - reflexivity.
  - reflexivity.
  - vm_compute. lia.
Defined.

(** ** C2 *)

(** C2 on the table Year = [2002, 2001, 2000], GDP = [400, 200, 100]: the
    rows are sorted ascending by Year, each keeping its label, and the
    growth rates are then read by label, that is in the order the rows had
    before sorting.  The column attached is [0, -50, -50]; the growth rates
    of the values in ascending-Year order are [0, 100, 100]. *)
Theorem descending_table_growth_rate :
  index_rename_and_calculate_growth_rate descending_example None 2000 "GDP"
  = Ok (mkDataFrame [2; 1; 0] None
          [("index", IntCol [2; 1; 0]);
           ("Year", IntCol [2000; 2001; 2002]);
           ("GDP", FloatCol [100; 200; 400]%float);
           ("Growth Rate (%)", FloatCol [0; -50; -50]%float);
           ("Relative Year", IntCol [0; 1; 2])]) /\
  growth_rates_of ascending_example "GDP"
  = Ok [SInt 0; SFloat 100; SFloat 100] /\
  column_of_list [SInt 0; SFloat 100; SFloat 100]
  <> FloatCol [0; -50; -50]%float.
Proof.
  split; [reflexivity|]. split; [reflexivity|].
  intros H.
  assert (E : PrimFloat.eqb
                (nth 1 (col_floats
                          (column_of_list [SInt 0; SFloat 100; SFloat 100])) nan)
                (-50) = true) by (rewrite H; reflexivity).
  vm_compute in E. discriminate E.
Qed.

(** ** Row filters and column selection *)

Lemma keep_map {A B} (f : A -> B) (mask : list bool) (l : list A) :
  keep mask (map f l) = map f (keep mask l).
Proof.
  unfold keep. revert l.
  induction mask as [|b mask IH]; intros [|x l]; simpl; try reflexivity.
  destruct b; simpl; now rewrite IH.
Qed.

Lemma keep_filter {A B} (P : A -> bool) (keys : list A) (l : list B) :
  keep (map P keys) l
  = map snd (filter (fun kv => P (fst kv)) (combine keys l)).
Proof.
  unfold keep. revert l.
  induction keys as [|k keys IH]; intros [|x l]; simpl; try reflexivity.
  destruct (P k); simpl; now rewrite IH.
Qed.

Lemma col_floats_keep (mask : list bool) (c : column) :
  col_floats (col_keep mask c) = keep mask (col_floats c).
Proof. destruct c as [l|l]; simpl; [now rewrite keep_map | reflexivity]. Qed.

Lemma filter_name_map (g : column -> column) (name : string)
      (cols : list (string * column)) :
  filter (fun kc => String.eqb (fst kc) name)
         (map (fun kc => (fst kc, g (snd kc))) cols)
  = map (fun kc => (fst kc, g (snd kc)))
        (filter (fun kc => String.eqb (fst kc) name) cols).
Proof.
  induction cols as [|[k c] cols IH]; simpl; [reflexivity|].
  destruct (String.eqb k name); simpl; now rewrite IH.
Qed.

Lemma filter_name_unique (cols : list (string * column)) (name : string)
      (c : column) :
  map snd (filter (fun kc => String.eqb (fst kc) name) cols) = [c] ->
  filter (fun kc => String.eqb (fst kc) name) cols = [(name, c)].
Proof.
  intros H.
  destruct (filter _ cols) as [|[k c'] [|? ?]] eqn:E; try discriminate H.
  simpl in H. injection H as ->.
  assert (Hin : In (k, c) (filter (fun kc => String.eqb (fst kc) name) cols))
    by (rewrite E; now left).
  apply filter_In in Hin. destruct Hin as [_ Hk]. simpl in Hk.
  apply String.eqb_eq in Hk. now subst.
Qed.

Lemma select_columns_unique (g : column -> column)
      (cols : list (string * column)) (names : list string)
      (cs : list column) :
  Forall2 (fun name c =>
             map snd (filter (fun kc => String.eqb (fst kc) name) cols) = [c])
          names cs ->
  select_columns (map (fun kc => (fst kc, g (snd kc))) cols) names
  = Ok (combine names (map g cs)).
Proof.
  induction 1 as [|name c names cs Hc _ IH]; simpl; [reflexivity|].
  rewrite filter_name_map, (filter_name_unique _ _ _ Hc). simpl.
  now rewrite IH.
Qed.

Lemma has_column_filter (df : DataFrame) (name : string) :
  has_column df name = true ->
  filter (fun kc => String.eqb (fst kc) name) (columns df) <> [].
Proof.
  unfold has_column, column_names. intros H.
  apply existsb_exists in H. destruct H as (k & Hin & Hk).
  apply String.eqb_eq in Hk. subst k.
  apply in_map_iff in Hin. destruct Hin as ([k c] & Hk & Hin). simpl in Hk.
  subst k. intros E.
  assert (Hf : In (name, c) (filter (fun kc => String.eqb (fst kc) name)
                                    (columns df))).
  { apply filter_In. split; [assumption|]. simpl. apply String.eqb_refl. }
  rewrite E in Hf. contradiction.
Qed.

Lemma select_columns_present (g : column -> column)
      (cols : list (string * column)) (names : list string) :
  Forall (fun name =>
            filter (fun kc => String.eqb (fst kc) name) cols <> []) names ->
  exists r, select_columns (map (fun kc => (fst kc, g (snd kc))) cols) names
            = Ok r.
Proof.
  induction 1 as [|name names Hn _ IH]; simpl; [now eexists|].
  rewrite filter_name_map. destruct IH as (r & ->).
  destruct (filter _ cols) as [|kc l]; [contradiction|].
  simpl. now eexists.
Qed.

(** ** Column names built with a suffix *)

Lemma string_length_append (a b : string) :
  String.length (a ++ b) = (String.length a + String.length b)%nat.
Proof. induction a as [|c a IH]; simpl; [reflexivity | now rewrite IH]. Qed.

Lemma append_suffix_same_length (a b s t : string) :
  String.length s = String.length t ->
  (a ++ s)%string = (b ++ t)%string -> a = b /\ s = t.
Proof.
  intros Hlen. revert b.
  induction a as [|c a IH]; intros [|d b] H; simpl in H.
  - now split.
  - exfalso. apply (f_equal String.length) in H. simpl in H.
    rewrite string_length_append in H. lia.
  - exfalso. apply (f_equal String.length) in H. simpl in H.
    rewrite string_length_append in H. lia.
  - injection H as -> H. destruct (IH b H) as [-> ->]. now split.
Qed.

Lemma suffixed_name_inj (m m' tag : string) :
  (m ++ tag)%string = (m' ++ tag)%string -> m = m'.
Proof.
  intros H. now destruct (append_suffix_same_length m m' tag tag eq_refl H).
Qed.

Lemma AUS_name_not_CHI_name (m m' : string) :
  (m ++ "_AUS")%string <> (m' ++ "_CHI")%string.
Proof.
  intros H.
  destruct (append_suffix_same_length m m' "_AUS" "_CHI" eq_refl H) as [_ E].
  discriminate E.
Qed.

Lemma AUS_name_not_key (m : string) : (m ++ "_AUS")%string <> "Relative Year".
Proof.
  intros H.
  destruct (append_suffix_same_length m "Relative " "_AUS" "Year" eq_refl H)
    as [_ E].
  discriminate E.
Qed.

Lemma CHI_name_not_key (m : string) : (m ++ "_CHI")%string <> "Relative Year".
Proof.
  intros H.
  destruct (append_suffix_same_length m "Relative " "_CHI" "Year" eq_refl H)
    as [_ E].
  discriminate E.
Qed.

(** ** The rows of a left join on integer keys *)

Lemma in_combine_seq {A} (l : list A) (s i : nat) (x : A) :
  In (i, x) (combine (seq s (length l)) l) ->
  (s <= i)%nat /\ nth_error l (i - s) = Some x.
Proof.
  revert s. induction l as [|y l IH]; intros s H; simpl in H; [contradiction|].
  destruct H as [H|H].
  - injection H as <- <-. split; [lia|]. now rewrite Nat.sub_diag.
  - destruct (IH _ H) as [Hle Hn]. split; [lia|].
    replace (i - s)%nat with (S (i - S s)) by lia. exact Hn.
Qed.

Lemma combine_seq_in {A} (l : list A) (s i : nat) (x : A) :
  nth_error l i = Some x -> In ((s + i)%nat, x) (combine (seq s (length l)) l).
Proof.
  revert s i. induction l as [|y l IH]; intros s [|i] H; simpl in *;
    try discriminate.
  - injection H as ->. left. now rewrite Nat.add_0_r.
  - right. replace (s + S i)%nat with (S s + i)%nat by lia. now apply IH.
Qed.

Lemma matches_int_nil (y : Z) (rk : list Z) :
  matches (SInt y) (map SInt rk) = [] -> ~ In y rk.
Proof.
  unfold matches. intros H Hin.
  apply In_nth_error in Hin. destruct Hin as (j & Hj).
  assert (Hc : In (j, SInt y)
                  (filter (fun pk => key_eqb (SInt y) (snd pk))
                          (combine (seq 0 (length (map SInt rk))) (map SInt rk)))).
  { apply filter_In. split.
    - apply (combine_seq_in (map SInt rk) 0 j).
      rewrite nth_error_map, Hj. reflexivity.
    - simpl. apply Z.eqb_refl. }
  apply (in_map fst) in Hc. rewrite H in Hc. contradiction.
Qed.

Lemma matches_int_in (y : Z) (rk : list Z) (j : nat) :
  In j (matches (SInt y) (map SInt rk)) -> nth_error rk j = Some y.
Proof.
  unfold matches. intros H. apply in_map_iff in H.
  destruct H as ([j' k] & Hj & Hin). simpl in Hj. subst j'.
  apply filter_In in Hin. destruct Hin as [Hin Hk].
  apply in_combine_seq in Hin. destruct Hin as [_ Hn].
  rewrite Nat.sub_0_r, nth_error_map in Hn.
  destruct (nth_error rk j) as [z|]; [|discriminate].
  simpl in Hn. injection Hn as <-. simpl in Hk.
  apply Z.eqb_eq in Hk. now subst.
Qed.

(** Every row of the join comes from a left row; a row without partner has
    a key the right side lacks, a row with a partner has the partner's key. *)
Lemma join_rows_sound (lk rk : list Z) (p : nat) (o : option nat) :
  In (p, o) (join_rows (map SInt lk) (map SInt rk)) ->
  exists y, nth_error lk p = Some y /\
            match o with
            | None => ~ In y rk
            | Some j => nth_error rk j = Some y
            end.
Proof.
  unfold join_rows. intros H. apply in_flat_map in H.
  destruct H as ([i k] & Hik & Hin). cbn [fst snd] in Hin.
  apply in_combine_seq in Hik. destruct Hik as [_ Hn].
  rewrite Nat.sub_0_r, nth_error_map in Hn.
  destruct (nth_error lk i) as [y|] eqn:Ey; [|discriminate].
  simpl in Hn. injection Hn as <-.
  destruct (matches (SInt y) (map SInt rk)) as [|j0 js] eqn:Em.
  - destruct Hin as [Hin|[]]. injection Hin as <- <-.
    exists y. split; [assumption|]. now apply matches_int_nil.
  - apply in_map_iff in Hin. destruct Hin as (j & Hj & Hjin).
    injection Hj as <- <-. exists y. split; [assumption|].
    apply matches_int_in. now rewrite Em.
Qed.

(** Every left row appears in the join. *)
Lemma join_rows_complete (lk rk : list Z) (p : nat) :
  (p < length lk)%nat ->
  exists o, In (p, o) (join_rows (map SInt lk) (map SInt rk)).
Proof.
  intros Hp. unfold join_rows.
  destruct (nth_error lk p) as [y|] eqn:Ey;
    [| apply nth_error_None in Ey; lia].
  assert (Hin : In (p, SInt y)
                   (combine (seq 0 (length (map SInt lk))) (map SInt lk))).
  { apply (combine_seq_in (map SInt lk) 0 p).
    rewrite nth_error_map, Ey. reflexivity. }
  destruct (matches (SInt y) (map SInt rk)) as [|j0 js] eqn:Em.
  - exists None. apply in_flat_map. exists (p, SInt y). split; [exact Hin|].
    cbn [fst snd]. rewrite Em. now left.
  - exists (Some j0). apply in_flat_map. exists (p, SInt y).
    split; [exact Hin|]. cbn [fst snd]. rewrite Em. now left.
Qed.

(** ** Left joins of normalised tables *)

Lemma select_and_rename_normalized (df : DataFrame) (m tag : string)
      (ry : list Z) (c : column) :
  find_columns df "Relative Year" = [IntCol ry] ->
  find_columns df m = [c] ->
  m <> "Relative Year" ->
  select_and_rename df m tag
  = Ok (mkDataFrame (index df) (index_name df)
          [("Relative Year", IntCol ry); ((m ++ tag)%string, c)]).
Proof.
  intros Hry Hc Hne. unfold select_and_rename, getitem_list.
  cbn [select_columns].
  rewrite (filter_name_unique _ _ _ Hry), (filter_name_unique _ _ _ Hc).
  cbn [bind app]. unfold map_columns, rename_key.
  cbn [columns map fst snd dict_get index index_name].
  rewrite String.eqb_refl.
  destruct (String.eqb_spec m "Relative Year"); [contradiction | reflexivity].
Qed.

Lemma has_column_false (df : DataFrame) (name : string) :
  has_column df name = false <-> ~ In name (column_names df).
Proof.
  unfold has_column. split.
  - intros H Hin. assert (E : existsb (String.eqb name) (column_names df) = true).
    { apply existsb_exists. exists name. split; [assumption | apply String.eqb_refl]. }
    congruence.
  - intros H. destruct (existsb _ _) eqn:E; [|reflexivity].
    apply existsb_exists in E. destruct E as (k & Hin & Hk).
    apply String.eqb_eq in Hk. subst. contradiction.
Qed.

Lemma find_columns_absent (df : DataFrame) (name : string) :
  has_column df name = false -> find_columns df name = [].
Proof.
  intros H. unfold find_columns.
  destruct (filter _ (columns df)) as [|kc l] eqn:E; [reflexivity|].
  exfalso. apply has_column_false in H. apply H.
  assert (Hin : In kc (filter (fun kc => String.eqb (fst kc) name) (columns df)))
    by (rewrite E; now left).
  apply filter_In in Hin. destruct Hin as [Hin Hk].
  apply String.eqb_eq in Hk. subst name.
  unfold column_names. now apply in_map.
Qed.

Lemma merge_left_joined (L : DataFrame) (lk rk : list Z) (name : string)
      (c : column) (idx : list Z) (iname : option string) :
  find_columns L "Relative Year" = [IntCol lk] ->
  name <> "Relative Year" ->
  has_column L name = false ->
  merge_left L (mkDataFrame idx iname
                  [("Relative Year", IntCol rk); (name, c)]) "Relative Year"
  = Ok (joined L lk rk name c).
Proof.
  intros Hlk Hne Habs. unfold merge_left, get_column.
  rewrite Hlk. cbn [bind]. unfold find_columns at 1.
  cbn [columns filter fst snd map]. rewrite String.eqb_refl.
  destruct (String.eqb_spec name "Relative Year") as [|_]; [contradiction|].
  cbn [map snd bind negb filter fst col_cells]. rewrite Habs.
  rewrite andb_false_r. unfold joined. f_equal. f_equal. f_equal.
  apply map_ext_in. intros [k col] Hin. cbn [fst snd].
  replace (has_column _ k) with (String.eqb k "Relative Year").
  - now rewrite andb_negb_l.
  - unfold has_column, column_names. cbn [columns map fst existsb].
    rewrite orb_false_r.
    assert (Hk : String.eqb k name = false).
    { apply String.eqb_neq. intros ->. apply has_column_false in Habs.
      apply Habs. unfold column_names. now apply (in_map fst) in Hin. }
    rewrite Hk, orb_false_r. reflexivity.
Qed.

Lemma find_columns_joined_other (L : DataFrame) (lk rk : list Z)
      (name : string) (c : column) (name' : string) :
  name' <> name ->
  find_columns (joined L lk rk name c) name'
  = map (col_take (map fst (join_rows (map SInt lk) (map SInt rk))))
        (find_columns L name').
Proof.
  intros Hne. unfold find_columns, joined. cbn [columns].
  rewrite filter_app, filter_name_map. cbn [filter fst].
  destruct (String.eqb_spec name name'); [congruence|].
  rewrite app_nil_r, !map_map. reflexivity.
Qed.

Lemma find_columns_joined_new (L : DataFrame) (lk rk : list Z)
      (name : string) (c : column) :
  has_column L name = false ->
  find_columns (joined L lk rk name c) name
  = [col_take_opt (map snd (join_rows (map SInt lk) (map SInt rk))) c].
Proof.
  intros Habs. unfold find_columns, joined. cbn [columns].
  rewrite filter_app, filter_name_map.
  pose proof (find_columns_absent L name Habs) as E. unfold find_columns in E.
  apply map_eq_nil in E. rewrite E. cbn [map app filter fst].
  now rewrite String.eqb_refl.
Qed.

Lemma column_names_joined (L : DataFrame) (lk rk : list Z)
      (name : string) (c : column) :
  column_names (joined L lk rk name c) = column_names L ++ [name].
Proof.
  unfold column_names, joined. cbn [columns].
  now rewrite map_app, map_map.
Qed.

Lemma len_joined (L : DataFrame) (lk rk : list Z) (name : string) (c : column) :
  lk <> [] -> len (joined L lk rk name c) <> 0%nat.
Proof.
  intros Hlk. unfold len, joined. cbn [index]. rewrite RangeIndex_length.
  destruct lk as [|y lk]; [contradiction|].
  destruct (join_rows_complete (y :: lk) rk 0) as (o & Hin); [simpl; lia|].
  destruct (join_rows _ _); [contradiction | discriminate].
Qed.

(** The keys of the join are the keys of its left side. *)
Lemma joined_keys (lk rk : list Z) (y : Z) :
  In y (map (fun p => nth p lk 0)
            (map fst (join_rows (map SInt lk) (map SInt rk))))
  <-> In y lk.
Proof.
  split.
  - intros H. apply in_map_iff in H. destruct H as (p & Hy & Hp).
    apply in_map_iff in Hp. destruct Hp as ([p' o] & Hp' & Hin).
    simpl in Hp'. subst p'.
    destruct (join_rows_sound lk rk p o Hin) as (y' & Hy' & _).
    rewrite (nth_error_nth _ _ 0 Hy') in Hy. subst y'.
    eapply nth_error_In; eassumption.
  - intros H. apply In_nth_error in H. destruct H as (p & Hp).
    destruct (join_rows_complete lk rk p) as (o & Hin).
    { apply nth_error_Some. congruence. }
    apply in_map_iff. exists p. split; [now apply nth_error_nth|].
    apply in_map_iff. now exists (p, o).
Qed.

Lemma joined_row (lk rk : list Z) (k : nat) (y : Z) :
  nth_error (map (fun p => nth p lk 0)
                 (map fst (join_rows (map SInt lk) (map SInt rk)))) k = Some y ->
  exists p o,
    nth_error (join_rows (map SInt lk) (map SInt rk)) k = Some (p, o) /\
    nth_error lk p = Some y /\
    match o with
    | None => ~ In y rk
    | Some j => nth_error rk j = Some y
    end.
Proof.
  rewrite map_map, nth_error_map. intros H.
  destruct (nth_error (join_rows _ _) k) as [[p o]|] eqn:E; [|discriminate].
  simpl in H. injection H as H.
  destruct (join_rows_sound lk rk p o (nth_error_In _ _ E)) as (y' & Hy' & Ho).
  rewrite (nth_error_nth _ _ 0 Hy') in H. subst y'.
  now exists p, o.
Qed.

Lemma missing_outside_joined_new (L : DataFrame) (lk rk : list Z)
      (name : string) (c : column) :
  find_columns L "Relative Year" = [IntCol lk] ->
  name <> "Relative Year" ->
  has_column L name = false ->
  missing_outside (joined L lk rk name c) name rk.
Proof.
  intros Hlk Hne Habs. unfold missing_outside.
  eexists. eexists. split; [|split].
  - rewrite find_columns_joined_other by congruence. rewrite Hlk. reflexivity.
  - now apply find_columns_joined_new.
  - intros k y Hk Hy.
    destruct (joined_row lk rk k y Hk) as (p & o & Hrow & _ & Ho).
    destruct o as [j|]; [exfalso; apply Hy; eapply nth_error_In; eassumption|].
    assert (Hsnd : nth_error (map snd (join_rows (map SInt lk) (map SInt rk))) k
                   = Some None) by (now rewrite nth_error_map, Hrow).
    destruct c as [l|l]; unfold col_take_opt.
    + assert (Hall : forallb is_some
                       (map snd (join_rows (map SInt lk) (map SInt rk))) = false).
      { destruct (forallb _ _) eqn:E; [|reflexivity].
        rewrite forallb_forall in E.
        specialize (E None (nth_error_In _ _ Hsnd)). discriminate E. }
      rewrite Hall. cbn [col_nth]. now rewrite nth_error_map, Hsnd.
    + cbn [col_nth]. now rewrite nth_error_map, Hsnd.
Qed.

Lemma missing_outside_joined_old (L : DataFrame) (lk rk : list Z)
      (name : string) (c : column) (name0 : string) (keys : list Z) :
  find_columns L "Relative Year" = [IntCol lk] ->
  name <> "Relative Year" ->
  name0 <> name ->
  missing_outside L name0 keys ->
  missing_outside (joined L lk rk name c) name0 keys.
Proof.
  intros Hlk Hne Hne0 (ym & c0 & Hym & Hc0 & Hnan).
  rewrite Hlk in Hym. injection Hym as <-.
  unfold missing_outside. eexists. eexists. split; [|split].
  - rewrite find_columns_joined_other by congruence. rewrite Hlk. reflexivity.
  - rewrite find_columns_joined_other by assumption. rewrite Hc0. reflexivity.
  - intros k y Hk Hy.
    destruct (joined_row lk rk k y Hk) as (p & o & Hrow & Hp & _).
    specialize (Hnan p y Hp Hy).
    destruct c0 as [l|l]; cbn [col_nth] in Hnan.
    + destruct (nth_error l p); discriminate Hnan.
    + cbn [col_take col_nth]. rewrite map_map, nth_error_map, Hrow.
      cbn [option_map fst].
      destruct (nth_error l p) as [v|] eqn:Ev; [|discriminate Hnan].
      rewrite (nth_error_nth _ _ nan Ev). exact Hnan.
Qed.

(** ** The merge loop *)

Lemma get_column_unique (df : DataFrame) (name : string) (c : column) :
  find_columns df name = [c] -> get_column df name = Ok c.
Proof. intros H. unfold get_column. now rewrite H. Qed.

Lemma has_column_present (df : DataFrame) (name : string) :
  In name (column_names df) -> has_column df name = true.
Proof.
  intros H. unfold has_column. apply existsb_exists.
  exists name. split; [assumption | apply String.eqb_refl].
Qed.

Lemma metric_name_fresh (done : list (string * country_data))
      (m tag : string) :
  tag = "_AUS" \/ tag = "_CHI" ->
  ~ In m (map fst done) ->
  ~ In (m ++ tag)%string ("Relative Year" :: flat_map metric_columns done).
Proof.
  intros Htag Hm [H|H].
  - destruct Htag as [-> | ->]; symmetry in H;
      [now apply AUS_name_not_key in H | now apply CHI_name_not_key in H].
  - apply in_flat_map in H. destruct H as (item & Hin & Hname).
    apply Hm. apply in_map_iff. exists item. split; [|assumption].
    unfold metric_columns in Hname.
    destruct Hname as [H|[H|[]]]; destruct Htag as [-> | ->].
    + now apply suffixed_name_inj in H.
    + now apply AUS_name_not_CHI_name in H.
    + symmetry in H. now apply AUS_name_not_CHI_name in H.
    + now apply suffixed_name_inj in H.
Qed.

Lemma missing_outside_present (M : DataFrame) (name : string) (keys : list Z) :
  missing_outside M name keys -> has_column M name = true.
Proof.
  intros (ym & c & _ & Hc & _).
  destruct (has_column M name) eqn:E; [reflexivity|].
  rewrite (find_columns_absent M name E) in Hc. discriminate Hc.
Qed.

Section MergeLoop.

Variable ya : list Z.
Hypothesis anchor_has_rows : ya <> [].

Lemma merged_keys_nonempty (ym : list Z) :
  (forall y, In y ym <-> In y ya) -> ym <> [].
Proof.
  intros H ->. destruct ya as [|y l]; [now apply anchor_has_rows|].
  apply (H y). now left.
Qed.

Lemma merge_metric_step (M : DataFrame)
      (done later : list (string * country_data))
      (item : string * country_data) :
  merged_inv ya M done later ->
  ~ In (fst item) (map fst done) ->
  normalized (fst item) (AUS (snd item)) ->
  normalized (fst item) (CHI (snd item)) ->
  exists M',
    merge_metric M item = Ok M' /\
    merged_inv ya M' (done ++ [item]) (later ++ [item]).
Proof.
  intros ((ym & Hym & Hset) & Hlen & Hnames & Hmiss) Hfresh
         ((ra & Hra & _) & (ca & Hca) & Hne) ((rc & Hrc & _) & (cc & Hcc) & _).
  set (m := fst item) in *.
  assert (Hym_ne : ym <> []) by (now apply merged_keys_nonempty).
  assert (HabsA : has_column M (m ++ "_AUS") = false).
  { apply has_column_false. rewrite Hnames.
    apply metric_name_fresh; [now left | assumption]. }
  assert (HabsC : ~ In (m ++ "_CHI")%string (column_names M)).
  { rewrite Hnames. apply metric_name_fresh; [now right | assumption]. }
  set (M1 := joined M ym ra (m ++ "_AUS") ca).
  set (ym1 := map (fun p => nth p ym 0)
                  (map fst (join_rows (map SInt ym) (map SInt ra)))).
  assert (Hym1 : find_columns M1 "Relative Year" = [IntCol ym1]).
  { unfold M1. rewrite find_columns_joined_other.
    - now rewrite Hym.
    - intros E. symmetry in E. now apply AUS_name_not_key in E. }
  assert (HabsC1 : has_column M1 (m ++ "_CHI") = false).
  { apply has_column_false. unfold M1. rewrite column_names_joined.
    intros Hin. apply in_app_or in Hin. destruct Hin as [Hin|[Hin|[]]].
    - now apply HabsC.
    - now apply AUS_name_not_CHI_name in Hin. }
  assert (Hset1 : forall y, In y ym1 <-> In y ya).
  { intros y. unfold ym1. rewrite joined_keys. apply Hset. }
  assert (Hym1_ne : ym1 <> []) by (now apply merged_keys_nonempty).
  set (M2 := joined M1 ym1 rc (m ++ "_CHI") cc).
  exists M2. split.
  - unfold merge_metric. fold m.
    rewrite (select_and_rename_normalized _ m "_AUS" ra ca Hra Hca Hne).
    rewrite (select_and_rename_normalized _ m "_CHI" rc cc Hrc Hcc Hne).
    cbn [bind].
    assert (Hempty : empty M = false).
    { unfold empty. apply Nat.eqb_neq in Hlen. rewrite Hlen.
      unfold column_names in Hnames.
      destruct (columns M); [discriminate Hnames | reflexivity]. }
    rewrite Hempty.
    rewrite (merge_left_joined M ym ra (m ++ "_AUS") ca); try assumption;
      [| apply AUS_name_not_key].
    cbn [bind]. fold M1.
    rewrite (merge_left_joined M1 ym1 rc (m ++ "_CHI") cc); try assumption;
      [reflexivity | apply CHI_name_not_key].
  - unfold merged_inv. split; [|split; [|split]].
    + exists (map (fun p => nth p ym1 0)
                  (map fst (join_rows (map SInt ym1) (map SInt rc)))).
      split.
      * unfold M2. rewrite find_columns_joined_other.
        -- now rewrite Hym1.
        -- intros E. symmetry in E. now apply CHI_name_not_key in E.
      * intros y. rewrite joined_keys. apply Hset1.
    + now apply len_joined.
    + unfold M2, M1. rewrite !column_names_joined, Hnames.
      rewrite flat_map_app. cbn [flat_map metric_columns app]. fold m.
      rewrite <- app_assoc. reflexivity.
    + assert (HnewA : missing_outside M2 (m ++ "_AUS") ra).
      { apply missing_outside_joined_old; try assumption.
        - apply CHI_name_not_key.
        - apply AUS_name_not_CHI_name.
        - apply missing_outside_joined_new; try assumption.
          apply AUS_name_not_key. }
      assert (HnewC : missing_outside M2 (m ++ "_CHI") rc).
      { apply missing_outside_joined_new; try assumption.
        apply CHI_name_not_key. }
      assert (Hold : forall name keys,
                 missing_outside M name keys -> missing_outside M2 name keys).
      { intros name keys Hm.
        pose proof (missing_outside_present _ _ _ Hm) as Hp.
        assert (Hm1 : missing_outside M1 name keys).
        { apply missing_outside_joined_old; try assumption.
          - apply AUS_name_not_key.
          - intros ->. congruence. }
        pose proof (missing_outside_present _ _ _ Hm1) as Hp1.
        apply missing_outside_joined_old; try assumption.
        - apply CHI_name_not_key.
        - intros ->. congruence. }
      intros item' Hin. apply in_app_or in Hin.
      destruct Hin as [Hin|[<-|[]]].
      * destruct (Hmiss item' Hin) as [HA HC]. split; now apply Hold.
      * unfold relative_years. fold m. rewrite Hra, Hrc. now split.
Qed.

Lemma merge_metrics_spec (rest : list (string * country_data)) :
  forall (M : DataFrame) (done later : list (string * country_data)),
    merged_inv ya M done later ->
    NoDup (map fst (done ++ rest)) ->
    (forall item, In item rest ->
                  normalized (fst item) (AUS (snd item)) /\
                  normalized (fst item) (CHI (snd item))) ->
    exists M',
      fold_left (fun acc item => merged_data <- acc ;; merge_metric merged_data item)
                rest (Ok M) = Ok M' /\
      merged_inv ya M' (done ++ rest) (later ++ rest).
Proof.
  induction rest as [|item rest IH]; intros M done later Hinv Hnd Hnorm.
  - exists M. rewrite !app_nil_r. now split.
  - destruct (merge_metric_step M done later item Hinv) as (M1 & E1 & Hinv1).
    + rewrite map_app in Hnd. apply NoDup_remove_2 in Hnd.
      intros Hin. apply Hnd. apply in_or_app. now left.
    + apply Hnorm. now left.
    + apply Hnorm. now left.
    + destruct (IH M1 (done ++ [item]) (later ++ [item]) Hinv1)
        as (M' & E & Hinv').
      * now rewrite <- app_assoc.
      * intros item' Hin. apply Hnorm. now right.
      * exists M'. cbn [fold_left bind]. rewrite E1.
        rewrite <- !app_assoc in Hinv'. now split.
Qed.

End MergeLoop.

(** The first metric starts the merged table with the join of its two
    tables. *)
Lemma merge_metric_first (item : string * country_data)
      (ra rc : list Z) (ca cc : column) :
  find_columns (AUS (snd item)) "Relative Year" = [IntCol ra] ->
  ra <> [] ->
  find_columns (AUS (snd item)) (fst item) = [ca] ->
  find_columns (CHI (snd item)) "Relative Year" = [IntCol rc] ->
  find_columns (CHI (snd item)) (fst item) = [cc] ->
  fst item <> "Relative Year" ->
  let aus_data :=
    mkDataFrame (index (AUS (snd item))) (index_name (AUS (snd item)))
                [("Relative Year", IntCol ra); ((fst item ++ "_AUS")%string, ca)] in
  let anchor := joined aus_data ra rc (fst item ++ "_CHI") cc in
  let ya := map (fun p => nth p ra 0)
                (map fst (join_rows (map SInt ra) (map SInt rc))) in
  merge_left aus_data
             (mkDataFrame (index (CHI (snd item))) (index_name (CHI (snd item)))
                [("Relative Year", IntCol rc); ((fst item ++ "_CHI")%string, cc)])
             "Relative Year" = Ok anchor /\
  merge_metric empty_frame item = Ok anchor /\
  find_columns anchor "Relative Year" = [IntCol ya] /\
  ya <> [] /\
  merged_inv ya anchor [item] [].
Proof.
  intros Hra Hra_ne Hca Hrc Hcc Hne aus_data anchor ya.
  assert (HRY : find_columns aus_data "Relative Year" = [IntCol ra]).
  { unfold find_columns, aus_data. cbn [columns filter fst].
    rewrite String.eqb_refl.
    destruct (String.eqb_spec (fst item ++ "_AUS") "Relative Year") as [E|_];
      [now apply AUS_name_not_key in E | reflexivity]. }
  assert (Habs : has_column aus_data (fst item ++ "_CHI") = false).
  { apply has_column_false. unfold column_names, aus_data. cbn [columns map fst].
    intros [H|[H|[]]].
    - symmetry in H. now apply CHI_name_not_key in H.
    - now apply AUS_name_not_CHI_name in H. }
  assert (Hmerge : merge_left aus_data
             (mkDataFrame (index (CHI (snd item))) (index_name (CHI (snd item)))
                [("Relative Year", IntCol rc); ((fst item ++ "_CHI")%string, cc)])
             "Relative Year" = Ok anchor).
  { apply merge_left_joined; try assumption. apply CHI_name_not_key. }
  assert (Hya : find_columns anchor "Relative Year" = [IntCol ya]).
  { unfold anchor. rewrite find_columns_joined_other.
    - now rewrite HRY.
    - intros E. symmetry in E. now apply CHI_name_not_key in E. }
  assert (Hya_ne : ya <> []).
  { intros E. destruct ra as [|y ra]; [now apply Hra_ne|].
    assert (Hin : In y ya) by (apply joined_keys; now left).
    rewrite E in Hin. contradiction. }
  split; [exact Hmerge|]. split; [|split; [exact Hya|split; [exact Hya_ne|]]].
  - unfold merge_metric.
    rewrite (select_and_rename_normalized _ _ "_AUS" ra ca Hra Hca Hne).
    rewrite (select_and_rename_normalized _ _ "_CHI" rc cc Hrc Hcc Hne).
    cbn [bind]. exact Hmerge.
  - unfold merged_inv. split; [|split; [|split]].
    + exists ya. split; [exact Hya | tauto].
    + now apply len_joined.
    + unfold anchor. rewrite column_names_joined. reflexivity.
    + intros item' [].
Qed.

(** ** C3 *)

(** C3. For a non-empty dictionary of metrics with normalised AUS and CHI
    tables, [load_and_merge_data] returns a merged table (nothing is
    raised) whose set of Relative Years is that of the left join of the
    first metric's AUS and CHI tables (the anchor); the table has the
    columns [metric_AUS] and [metric_CHI] of every metric; and in the
    columns of a later metric every row whose Relative Year that metric's
    table does not cover holds NaN. *)
Theorem load_and_merge_data_anchor
        (first : string * country_data)
        (rest : list (string * country_data)) :
  NoDup (map fst (first :: rest)) ->
  (forall item, In item (first :: rest) ->
                normalized (fst item) (AUS (snd item)) /\
                normalized (fst item) (CHI (snd item))) ->
  exists aus_data chi_data anchor merged_data anchor_years merged_years,
    select_and_rename (AUS (snd first)) (fst first) "_AUS" = Ok aus_data /\
    select_and_rename (CHI (snd first)) (fst first) "_CHI" = Ok chi_data /\
    merge_left aus_data chi_data "Relative Year" = Ok anchor /\
    load_and_merge_data (first :: rest) = Ok merged_data /\
    get_column anchor "Relative Year" = Ok (IntCol anchor_years) /\
    get_column merged_data "Relative Year" = Ok (IntCol merged_years) /\
    (forall y, In y merged_years <-> In y anchor_years) /\
    (forall item, In item (first :: rest) ->
       has_column merged_data (fst item ++ "_AUS") = true /\
       has_column merged_data (fst item ++ "_CHI") = true) /\
    (forall item, In item rest ->
       forall k y, nth_error merged_years k = Some y ->
         (~ In y (relative_years (AUS (snd item))) ->
          exists c, get_column merged_data (fst item ++ "_AUS") = Ok c /\
                    col_nth c k = Some (SFloat nan)) /\
         (~ In y (relative_years (CHI (snd item))) ->
          exists c, get_column merged_data (fst item ++ "_CHI") = Ok c /\
                    col_nth c k = Some (SFloat nan))).
Proof.
  intros Hnd Hnorm.
  destruct (Hnorm first (or_introl eq_refl))
    as (((ra & Hra & Hra_ne) & (ca & Hca) & Hne) & ((rc & Hrc & _) & (cc & Hcc) & _)).
  destruct (merge_metric_first first ra rc ca cc Hra Hra_ne Hca Hrc Hcc Hne)
    as (Hmerge & Hfirst & Hya & Hya_ne & Hinv).
  set (ya := map (fun p => nth p ra 0)
                 (map fst (join_rows (map SInt ra) (map SInt rc)))) in *.
  destruct (merge_metrics_spec ya Hya_ne rest _ [first] [] Hinv Hnd)
    as (M & HM & (ym & Hym & Hset) & _ & Hnames & Hmiss).
  { intros item Hin. apply Hnorm. now right. }
  eexists. eexists. eexists. exists M, ya, ym.
  split; [apply (select_and_rename_normalized _ _ "_AUS" ra ca Hra Hca Hne)|].
  split; [apply (select_and_rename_normalized _ _ "_CHI" rc cc Hrc Hcc Hne)|].
  split; [exact Hmerge|].
  split; [unfold load_and_merge_data; cbn [fold_left bind]; now rewrite Hfirst|].
  split; [now apply get_column_unique|].
  split; [now apply get_column_unique|].
  split; [exact Hset|]. split.
  - intros item Hin.
    assert (Hcols : forall name, In name (metric_columns item) ->
                                 has_column M name = true).
    { intros name Hname. apply has_column_present. rewrite Hnames. right.
      apply in_flat_map. now exists item. }
    split; apply Hcols; unfold metric_columns; [now left | right; now left].
  - intros item Hin k y Hk.
    destruct (Hmiss item Hin)
      as [(ym1 & c1 & Hym1 & Hc1 & Hnan1) (ym2 & c2 & Hym2 & Hc2 & Hnan2)].
    rewrite Hym in Hym1, Hym2. injection Hym1 as <-. injection Hym2 as <-.
    split; intros Hy.
    + exists c1. split; [now apply get_column_unique | now apply Hnan1 with y].
    + exists c2. split; [now apply get_column_unique | now apply Hnan2 with y].
Qed.

(** On the sample dictionary the anchor years are -1, 0, 1; FDI covers
    only 0 for AUS, so FDI_AUS is missing at the year 1 (row 2). *)
Lemma load_and_merge_data_anchor_witness :
  exists merged_data merged_years c,
    load_and_merge_data cleaned_example = Ok merged_data /\
    get_column merged_data "Relative Year" = Ok (IntCol merged_years) /\
    (forall y, In y merged_years <-> In y [-1; 0; 1]) /\
    has_column merged_data "FDI_CHI" = true /\
    get_column merged_data "FDI_AUS" = Ok c /\
    col_nth c 2 = Some (SFloat nan).
Proof.
  destruct (load_and_merge_data_anchor
              ("GDP", mkCountryData (metric_table "GDP" [-1; 0; 1] [1; 2; 3]%float)
                                    (metric_table "GDP" [0; 1; 2] [10; 20; 30]%float))
              [("FDI", mkCountryData (metric_table "FDI" [0; 5] [7; 8]%float)
                                     (metric_table "FDI" [-1; 0] [4; 5]%float))])
    as (aus & chi & anchor & M & ya & ym & Ha & Hc & Hanchor & HM & Hya & Hym
        & Hset & Hcols & Hmiss).
  - distinct_strings.
  - intros item [<-|[<-|[]]];
      (split;
       (split; [ eexists; split; [reflexivity | discriminate]
               | split; [eexists; reflexivity | discriminate] ])).
  - assert (Eya : ya = [-1; 0; 1]).
    { vm_compute in Ha. injection Ha as <-. vm_compute in Hc. injection Hc as <-.
      vm_compute in Hanchor. injection Hanchor as <-.
      vm_compute in Hya. now injection Hya as <-. }
    assert (Eym : ym = [-1; 0; 1]).
    { assert (E : load_and_merge_data cleaned_example = Ok M) by exact HM.
      vm_compute in E. injection E as <-.
      vm_compute in Hym. now injection Hym as <-. }
    destruct (Hmiss ("FDI", mkCountryData (metric_table "FDI" [0; 5] [7; 8]%float)
                                          (metric_table "FDI" [-1; 0] [4; 5]%float))
                    (or_introl eq_refl) 2%nat 1) as [HA _].
    { rewrite Eym. reflexivity. }
    destruct HA as (c & Hget & Hnan).
    { vm_compute. intros [H|[H|[]]]; discriminate H. }
    exists M, ym, c. split; [exact HM|]. split; [exact Hym|].
    split; [now rewrite <- Eya|].
    split; [|split; [exact Hget | exact Hnan]].
    apply (Hcols ("FDI", mkCountryData (metric_table "FDI" [0; 5] [7; 8]%float)
                                       (metric_table "FDI" [-1; 0] [4; 5]%float))).
    right. now left.
Defined.

(** When the first metric's AUS table has no rows, the join that starts
    the merged table is empty, the [empty] test holds again at the second
    metric, and the second metric starts the table anew: the columns of
    the first metric are gone. *)
Lemma empty_anchor_is_replaced :
  load_and_merge_data cleaned_empty_anchor
  = Ok (mkDataFrame [0; 1] None
          [("Relative Year", IntCol [0; 5]);
           ("FDI_AUS", FloatCol [7; 8]%float);
           ("FDI_CHI", FloatCol [5; nan]%float)]).
Proof. reflexivity. Qed.

(** ** Dictionaries *)

Lemma dict_get_set_same {V} (d : list (string * V)) (k : string) (v : V) :
  dict_get (dict_set d k v) k = Some v.
Proof.
  induction d as [|[k' w] d IH]; simpl.
  - now rewrite String.eqb_refl.
  - destruct (String.eqb_spec k' k) as [->|NE]; simpl.
    + now rewrite String.eqb_refl.
    + destruct (String.eqb_spec k' k); [contradiction | exact IH].
Qed.

Lemma dict_get_set_other {V} (d : list (string * V)) (k k' : string) (v : V) :
  k <> k' -> dict_get (dict_set d k v) k' = dict_get d k'.
Proof.
  intros NE. induction d as [|[k0 w] d IH]; simpl.
  - destruct (String.eqb_spec k k'); [contradiction | reflexivity].
  - destruct (String.eqb_spec k0 k) as [->|NE0]; simpl.
    + destruct (String.eqb_spec k k'); [contradiction | reflexivity].
    + destruct (String.eqb_spec k0 k'); [reflexivity | exact IH].
Qed.

Lemma matrix_of_set_same cm (country group : string) (M : Matrix) :
  dict_get cm country <> None ->
  matrix_of (set_matrix cm country group M) country group = Some M.
Proof.
  intros H. unfold matrix_of, set_matrix.
  destruct (dict_get cm country) as [g|] eqn:E; [|contradiction].
  now rewrite !dict_get_set_same.
Qed.

Lemma matrix_of_set_other cm (country group c' g' : string) (M : Matrix) :
  c' <> country \/ g' <> group ->
  matrix_of (set_matrix cm country group M) c' g' = matrix_of cm c' g'.
Proof.
  intros H. unfold matrix_of, set_matrix.
  destruct (dict_get cm country) as [g|] eqn:E; [|reflexivity].
  destruct (String.eqb_spec country c') as [<-|NE].
  - rewrite dict_get_set_same, E.
    destruct H as [H|H]; [contradiction|].
    apply dict_get_set_other. congruence.
  - now rewrite dict_get_set_other.
Qed.

Lemma set_matrix_keeps_country cm (country group c' : string) (M : Matrix) :
  dict_get cm c' <> None ->
  dict_get (set_matrix cm country group M) c' <> None.
Proof.
  intros H. unfold set_matrix.
  destruct (dict_get cm country) as [g|] eqn:E; [|assumption].
  destruct (String.eqb_spec country c') as [<-|NE].
  - rewrite dict_get_set_same. discriminate.
  - now rewrite dict_get_set_other.
Qed.

Lemma initial_matrices_empty (cl : list (string * string))
      (d : list (string * list (string * Matrix))) :
  (forall c, dict_get d c = None \/ dict_get d c = Some []) ->
  forall c,
    dict_get (fold_left (fun d cs => dict_set d (fst cs) []) cl d) c = None \/
    dict_get (fold_left (fun d cs => dict_set d (fst cs) []) cl d) c = Some [].
Proof.
  revert d. induction cl as [|cs cl IH]; intros d Hd c; simpl; [apply Hd|].
  apply IH. intros c'.
  destruct (String.eqb_spec (fst cs) c') as [<-|NE].
  - right. apply dict_get_set_same.
  - rewrite dict_get_set_other by assumption. apply Hd.
Qed.

Lemma initial_matrices_countries (cl : list (string * string))
      (d : list (string * list (string * Matrix))) (c : string) :
  In c (map fst cl) \/ dict_get d c <> None ->
  dict_get (fold_left (fun d cs => dict_set d (fst cs) []) cl d) c <> None.
Proof.
  revert d. induction cl as [|cs cl IH]; intros d H; simpl.
  - destruct H as [[]|H]; assumption.
  - apply IH. destruct (String.eqb_spec (fst cs) c) as [<-|NE].
    + right. rewrite dict_get_set_same. discriminate.
    + destruct H as [[H|H]|H]; [contradiction | now left |].
      right. now rewrite dict_get_set_other.
Qed.

(** ** Grouped correlation matrices *)

Section CorrelationProperties.

Variable pearson : list float -> list float -> float.
Variable repr_matrix : Matrix -> string.

Variable merged_data : DataFrame.
Variable relative_year : column.
Hypothesis merged_has_relative_year :
  get_column merged_data "Relative Year" = Ok relative_year.

Lemma calculate_correlation_present (names : list string) (lo hi : Z) :
  Forall (fun name => has_column merged_data name = true) names ->
  exists M, calculate_correlation pearson merged_data names (Some (lo, hi))
            = Ok M.
Proof.
  intros H. unfold calculate_correlation.
  rewrite merged_has_relative_year. cbn [bind].
  unfold getitem_list, filter_rows. cbn [columns].
  destruct (select_columns_present
              (col_keep (between relative_year lo hi))
              (columns merged_data) names) as (r & ->).
  - eapply Forall_impl; [|exact H]. intros name. apply has_column_filter.
  - cbn [bind]. now eexists.
Qed.

Lemma group_columns_present (metrics : list string) (suffix : string) :
  Forall (fun name => has_column merged_data name = true)
         (group_columns_of merged_data metrics suffix).
Proof.
  apply Forall_forall. intros name Hin. unfold group_columns_of in Hin.
  apply filter_In in Hin. tauto.
Qed.

Lemma correlate_group_spec (country suffix : string) (st : matrices_state)
      (gm : string * list string) :
  dict_get (fst st) country <> None ->
  exists st',
    correlate_group pearson repr_matrix merged_data country suffix st gm
    = Ok st' /\
    (forall c, dict_get (fst st) c <> None -> dict_get (fst st') c <> None) /\
    (forall x, In x (snd st) -> In x (snd st')) /\
    (forall c g, c <> country \/ g <> fst gm ->
                 matrix_of (fst st') c g = matrix_of (fst st) c g) /\
    group_outcome pearson merged_data st st' country suffix (fst gm) (snd gm).
Proof.
  intros Hc. unfold correlate_group, group_outcome.
  destruct (1 <? length (group_columns_of merged_data (snd gm) suffix))%nat.
  - destruct (calculate_correlation_present
                (group_columns_of merged_data (snd gm) suffix) (-5) 5
                (group_columns_present (snd gm) suffix)) as (M & HM).
    rewrite HM. cbn [bind]. eexists. split; [reflexivity|].
    cbn [fst snd]. repeat split.
    + intros c. apply set_matrix_keeps_country.
    + intros x Hx. apply in_or_app. now left.
    + intros c g Hcg. now apply matrix_of_set_other.
    + exists M. split; [reflexivity|]. now apply matrix_of_set_same.
  - eexists. split; [reflexivity|]. cbn [fst snd]. repeat split; auto.
    + intros x Hx. apply in_or_app. now left.
    + apply in_or_app. right. now left.
Qed.

Lemma group_outcome_stable (st0 st st' : matrices_state)
      (country suffix group : string) (metrics : list string) :
  matrix_of (fst st') country group = matrix_of (fst st) country group ->
  (forall x, In x (snd st) -> In x (snd st')) ->
  group_outcome pearson merged_data st0 st country suffix group metrics ->
  group_outcome pearson merged_data st0 st' country suffix group metrics.
Proof.
  unfold group_outcome. intros Hm Hout.
  destruct (1 <? _)%nat.
  - intros (M & HM & Hget). exists M. split; [assumption | congruence].
  - intros [Hget Hin]. split; [congruence | auto].
Qed.

Lemma group_outcome_start (st0 st1 st : matrices_state)
      (country suffix group : string) (metrics : list string) :
  matrix_of (fst st1) country group = matrix_of (fst st0) country group ->
  group_outcome pearson merged_data st1 st country suffix group metrics ->
  group_outcome pearson merged_data st0 st country suffix group metrics.
Proof.
  unfold group_outcome. intros Hm. destruct (1 <? _)%nat; [tauto|].
  intros [Hget Hin]. split; [congruence | assumption].
Qed.

Lemma correlate_groups_spec (country suffix : string)
      (groups : list (string * list string)) :
  NoDup (map fst groups) ->
  forall st, dict_get (fst st) country <> None ->
  exists st',
    fold_left
      (fun acc gm =>
         st <- acc ;;
         correlate_group pearson repr_matrix merged_data country suffix st gm)
      groups (Ok st) = Ok st' /\
    (forall c, dict_get (fst st) c <> None -> dict_get (fst st') c <> None) /\
    (forall x, In x (snd st) -> In x (snd st')) /\
    (forall c g, c <> country \/ ~ In g (map fst groups) ->
                 matrix_of (fst st') c g = matrix_of (fst st) c g) /\
    (forall gm, In gm groups ->
                group_outcome pearson merged_data st st' country suffix (fst gm) (snd gm)).
Proof.
  induction groups as [|gm groups IH]; intros Hnd st Hc.
  - exists st. simpl. repeat split; auto. intros gm [].
  - inversion Hnd as [|? ? Hnotin Hnd']; subst.
    destruct (correlate_group_spec country suffix st gm Hc)
      as (st1 & E1 & K1 & O1 & M1 & G1).
    destruct (IH Hnd' st1 (K1 _ Hc)) as (st' & E & K & O & M & G).
    exists st'. simpl. rewrite E1. cbn [bind]. split; [exact E|].
    repeat split.
    + intros c H. auto.
    + intros x H. auto.
    + intros c g H. rewrite M, M1; [reflexivity| |].
      * destruct H as [H|H]; [now left|]. right. intros ->. apply H. now left.
      * destruct H as [H|H]; [now left|]. right. intros Hin. apply H. now right.
    + intros gm' [<-|Hin].
      * apply (group_outcome_stable st st1 st'); auto.
      * apply (group_outcome_start st st1 st'); [|auto].
        apply M1. right. intros Heq. apply Hnotin. rewrite <- Heq.
        now apply in_map.
Qed.

Lemma correlate_country_spec (groups : list (string * list string))
      (st : matrices_state) (cs : string * string) :
  NoDup (map fst groups) ->
  dict_get (fst st) (fst cs) <> None ->
  exists st',
    correlate_country pearson repr_matrix merged_data groups st cs = Ok st' /\
    (forall c, dict_get (fst st) c <> None -> dict_get (fst st') c <> None) /\
    (forall x, In x (snd st) -> In x (snd st')) /\
    (forall c g, c <> fst cs -> matrix_of (fst st') c g = matrix_of (fst st) c g) /\
    (forall gm, In gm groups ->
                group_outcome pearson merged_data st st' (fst cs) (snd cs) (fst gm) (snd gm)).
Proof.
  intros Hnd Hc. unfold correlate_country.
  destruct (correlate_groups_spec (fst cs) (snd cs) groups Hnd
              (fst st,
               snd st ++ [(nl ++ "Computing correlation matrices for "
                           ++ fst cs ++ ":")%string]) Hc)
    as (st' & E & K & O & M & G).
  exists st'. split; [exact E|]. cbn [fst snd] in *. repeat split; auto.
  intros x Hx. apply O. apply in_or_app. now left.
Qed.

Lemma correlate_countries_spec (groups : list (string * list string))
      (countries : list (string * string)) :
  NoDup (map fst groups) ->
  NoDup (map fst countries) ->
  forall st,
    (forall cs, In cs countries -> dict_get (fst st) (fst cs) <> None) ->
    exists st',
      fold_left
        (fun acc cs =>
           st <- acc ;;
           correlate_country pearson repr_matrix merged_data groups st cs)
        countries (Ok st) = Ok st' /\
      (forall c, dict_get (fst st) c <> None -> dict_get (fst st') c <> None) /\
      (forall x, In x (snd st) -> In x (snd st')) /\
      (forall c g, ~ In c (map fst countries) ->
                   matrix_of (fst st') c g = matrix_of (fst st) c g) /\
      (forall cs gm, In cs countries -> In gm groups ->
                     group_outcome pearson merged_data st st' (fst cs) (snd cs) (fst gm) (snd gm)).
Proof.
  intros Hg. induction countries as [|cs countries IH]; intros Hnd st Hc.
  - exists st. simpl. repeat split; auto. intros cs gm [].
  - inversion Hnd as [|? ? Hnotin Hnd']; subst.
    destruct (correlate_country_spec groups st cs Hg (Hc cs (or_introl eq_refl)))
      as (st1 & E1 & K1 & O1 & M1 & G1).
    destruct (IH Hnd' st1) as (st' & E & K & O & M & G).
    { intros cs' Hin. apply K1, Hc. now right. }
    exists st'. simpl. rewrite E1. cbn [bind]. split; [exact E|].
    repeat split.
    + intros c H. auto.
    + intros x H. auto.
    + intros c g H. rewrite M, M1; [reflexivity| |].
      * intros ->. apply H. now left.
      * intros Hin. apply H. now right.
    + intros cs' gm [<-|Hin] Hgm.
      * apply (group_outcome_stable st st1 st'); auto.
      * apply (group_outcome_start st st1 st'); [|auto].
        apply M1. intros Heq. apply Hnotin. rewrite <- Heq. now apply in_map.
Qed.

Lemma compute_country_correlation_matrices_spec
      (metric_groups : list (string * list string))
      (country_suffix : list (string * string)) (out : list string) :
  NoDup (map fst metric_groups) ->
  NoDup (map fst country_suffix) ->
  exists st,
    compute_country_correlation_matrices
      pearson repr_matrix merged_data metric_groups country_suffix out = Ok st /\
    (forall x, In x out -> In x (snd st)) /\
    forall country suffix group metrics,
      In (country, suffix) country_suffix ->
      In (group, metrics) metric_groups ->
      if (1 <? length (group_columns_of merged_data metrics suffix))%nat then
        exists M,
          calculate_correlation pearson merged_data
            (group_columns_of merged_data metrics suffix) (Some (-5, 5)) = Ok M /\
          matrix_of (fst st) country group = Some M
      else
        matrix_of (fst st) country group = None /\
        In (not_enough group country) (snd st).
Proof.
  intros Hg Hc. unfold compute_country_correlation_matrices.
  set (init := fold_left (fun d cs => dict_set d (fst cs) []) country_suffix []).
  destruct (correlate_countries_spec metric_groups country_suffix Hg Hc
              (init, out)) as (st & E & _ & O & _ & G).
  { intros cs Hin. cbn [fst]. apply initial_matrices_countries.
    left. now apply in_map. }
  exists st. split; [exact E|]. split; [exact O|].
  intros country suffix group metrics Hcs Hgm.
  specialize (G (country, suffix) (group, metrics) Hcs Hgm).
  unfold group_outcome in G. cbn [fst snd] in G.
  destruct (1 <? _)%nat; [exact G|].
  destruct G as [Hget Hin]. split; [|exact Hin].
  rewrite Hget. unfold matrix_of. cbn [fst]. subst init.
  destruct (initial_matrices_empty country_suffix [] (fun _ => or_introl eq_refl)
              country) as [-> | ->]; reflexivity.
Qed.

End CorrelationProperties.

Lemma map_fst_combine {A B} (l : list A) (l' : list B) :
  length l = length l' -> map fst (combine l l') = l.
Proof.
  revert l'. induction l as [|x l IH]; intros [|y l'] H; simpl in *;
    try discriminate; [reflexivity|]. f_equal. apply IH. lia.
Qed.

Lemma map_snd_combine {A B} (l : list A) (l' : list B) :
  length l = length l' -> map snd (combine l l') = l'.
Proof.
  revert l'. induction l as [|x l IH]; intros [|y l'] H; simpl in *;
    try discriminate; [reflexivity|]. f_equal. apply IH. lia.
Qed.

Lemma nth_map_seq {A} (f : nat -> A) (n i : nat) (d : A) :
  (i < n)%nat -> nth i (map f (seq 0 n)) d = f i.
Proof.
  intros Hi. rewrite (nth_indep _ d (f 0%nat)) by (now rewrite length_map, length_seq).
  rewrite (map_nth f (seq 0 n) 0%nat i), seq_nth by assumption. reflexivity.
Qed.

(** The matrix [corr] builds is symmetric whatever the kernel computes: each
    value is stored at both places. *)
Lemma corr_values_symmetric (pearson : list float -> list float -> float)
      (values : list (list float)) (xi yi : nat) :
  (xi < length values)%nat -> (yi < length values)%nat ->
  nth yi (nth xi (corr_values pearson values) []) nan
  = nth xi (nth yi (corr_values pearson values) []) nan.
Proof.
  intros Hx Hy. unfold corr_values.
  rewrite !(nth_map_seq _ (length values)) by assumption.
  now rewrite Nat.max_comm, Nat.min_comm.
Qed.

(** ** C4 *)

(** C4. For a merged table (it has its Relative Year column) and any
    metric groups and country suffixes, [compute_country_correlation_matrices]
    returns without raising.  For a country and a group of which fewer than
    two metrics resolve to a column [metric ++ suffix] of the table, the
    result holds no matrix and the skip is printed; for every other pair
    the result holds a matrix.  In the scenario of the specification
    (group Economic = [GDP, FDI], country AUS, table with [GDP_AUS] only)
    the result is the empty dictionary for AUS and the skip message. *)
Theorem unresolved_groups_are_skipped
        (pearson : list float -> list float -> float)
        (repr_matrix : Matrix -> string)
        (merged_data : DataFrame) (relative_year : column)
        (metric_groups : list (string * list string))
        (country_suffix : list (string * string)) (out : list string) :
  get_column merged_data "Relative Year" = Ok relative_year ->
  NoDup (map fst metric_groups) ->
  NoDup (map fst country_suffix) ->
  (exists correlation_matrices printed,
      compute_country_correlation_matrices
        pearson repr_matrix merged_data metric_groups country_suffix out
      = Ok (correlation_matrices, printed) /\
      forall country suffix group metrics,
        In (country, suffix) country_suffix ->
        In (group, metrics) metric_groups ->
        ((length (group_columns_of merged_data metrics suffix) < 2)%nat ->
         matrix_of correlation_matrices country group = None /\
         In ("Not enough data for " ++ group ++ " metrics in "
             ++ country ++ ".")%string printed) /\
        ((2 <= length (group_columns_of merged_data metrics suffix))%nat ->
         exists M, matrix_of correlation_matrices country group = Some M))
  /\ compute_country_correlation_matrices
       pearson repr_matrix scenario_table
       [("Economic", ["GDP"; "FDI"])] [("AUS", "_AUS")] []
     = Ok ([("AUS", [])],
           [(nl ++ "Computing correlation matrices for AUS:")%string;
            "Not enough data for Economic metrics in AUS."]).
Proof.
  intros Hry Hg Hc. split; [|reflexivity].
  destruct (compute_country_correlation_matrices_spec
              pearson repr_matrix merged_data relative_year Hry
              metric_groups country_suffix out Hg Hc) as ([cm printed] & E & _ & G).
  exists cm, printed. split; [exact E|].
  intros country suffix group metrics Hcs Hgm.
  specialize (G country suffix group metrics Hcs Hgm). cbn [fst snd] in G.
  destruct (Nat.ltb_spec 1 (length (group_columns_of merged_data metrics suffix)))
    as [Hlt|Hge].
  - split; [lia|]. intros _. destruct G as (M & _ & HM). now exists M.
  - split; [|lia]. intros _. exact G.
Qed.

(** ** C5 *)

(** C5. With a window (lower, upper), [calculate_correlation] computes on
    exactly the rows whose Relative Year y satisfies lower <= y <= upper:
    the result is the matrix labelled by the given metric columns whose
    entries are the pairwise Pearson coefficients ([corr_values]) of the
    values these columns have on those rows.  Every matrix [compute_country_correlation_matrices]
    stores is the result of that call with the window (-5, 5). *)
Theorem calculate_correlation_window
        (pearson : list float -> list float -> float)
        (repr_matrix : Matrix -> string)
        (df : DataFrame) (metrics : list string) (cs : list column)
        (ry : list Z) (lower upper : Z)
        (merged_data : DataFrame) (relative_year : column)
        (metric_groups : list (string * list string))
        (country_suffix : list (string * string)) (out : list string) :
  get_column df "Relative Year" = Ok (IntCol ry) ->
  Forall2 (fun name c => find_columns df name = [c]) metrics cs ->
  get_column merged_data "Relative Year" = Ok relative_year ->
  NoDup (map fst metric_groups) ->
  NoDup (map fst country_suffix) ->
  let window (c : column) : list float :=
    map snd (filter (fun yv => (lower <=? fst yv) && (fst yv <=? upper))
                    (combine ry (col_floats c))) in
  calculate_correlation pearson df metrics (Some (lower, upper))
  = Ok (mkMatrix metrics (corr_values pearson (map window cs)))
  /\
  exists correlation_matrices printed,
    compute_country_correlation_matrices
      pearson repr_matrix merged_data metric_groups country_suffix out
    = Ok (correlation_matrices, printed) /\
    forall country suffix group group_metrics,
      In (country, suffix) country_suffix ->
      In (group, group_metrics) metric_groups ->
      (2 <= length (group_columns_of merged_data group_metrics suffix))%nat ->
      exists M,
        calculate_correlation pearson merged_data
          (group_columns_of merged_data group_metrics suffix) (Some (-5, 5))
        = Ok M /\
        matrix_of correlation_matrices country group = Some M.
Proof.
  intros Hry Hcols Hmry Hg Hc window. split.
  - unfold calculate_correlation. rewrite Hry. cbn [bind between].
    unfold getitem_list, filter_rows. cbn [columns].
    rewrite (select_columns_unique _ _ metrics cs) by exact Hcols.
    cbn [bind columns]. unfold corr.
    assert (Hlen : length metrics = length (map (col_keep
              (map (fun y => (lower <=? y) && (y <=? upper)) ry)) cs)).
    { rewrite length_map. eapply Forall2_length; eassumption. }
    rewrite (map_fst_combine _ _ Hlen).
    rewrite <- (map_map snd col_floats), (map_snd_combine _ _ Hlen), map_map.
    assert (Hw : map (fun c => col_floats (col_keep
                   (map (fun y => (lower <=? y) && (y <=? upper)) ry) c)) cs
                 = map window cs).
    { apply map_ext. intros c. rewrite col_floats_keep. unfold window.
      exact (keep_filter (fun y => (lower <=? y) && (y <=? upper)) ry
                         (col_floats c)). }
    now rewrite Hw.
  - destruct (compute_country_correlation_matrices_spec
                pearson repr_matrix merged_data relative_year Hmry
                metric_groups country_suffix out Hg Hc)
      as ([cm printed] & E & _ & G).
    exists cm, printed. split; [exact E|].
    intros country suffix group metrics' Hcs Hgm Hlen.
    specialize (G country suffix group metrics' Hcs Hgm). cbn [fst snd] in G.
    destruct (Nat.ltb_spec 1 (length (group_columns_of merged_data metrics' suffix)));
      [exact G | lia].
Qed.

(** C4 on the sample merged table with the program's own groups and
    suffixes: Environmental has one column for Australia and is skipped,
    Economic has two and gets its matrix. *)
Lemma unresolved_groups_are_skipped_witness :
  exists correlation_matrices printed,
    compute_country_correlation_matrices
      (fun _ _ => 1%float) (fun _ => "matrix") merged_example
      metric_groups country_suffix []
    = Ok (correlation_matrices, printed) /\
    matrix_of correlation_matrices "Australia" "Environmental" = None /\
    In "Not enough data for Environmental metrics in Australia." printed /\
    exists M, matrix_of correlation_matrices "Australia" "Economic" = Some M.
Proof.
  destruct (unresolved_groups_are_skipped
              (fun _ _ => 1%float) (fun _ => "matrix") merged_example
              (IntCol [-6; -5; 0; 5; 6])
              metric_groups country_suffix [])
    as [(cm & printed & E & G) _].
  - reflexivity.
  - distinct_strings.
  - distinct_strings.
  - exists cm, printed. split; [exact E|].
    destruct (G "Australia" "_AUS" "Environmental" ["MtCO2e"]) as [Hskip _].
    + left. reflexivity.
    + do 2 right. left. reflexivity.
    + destruct (G "Australia" "_AUS" "Economic"
                  ["GDP_per_capita"; "FDI"; "Gov_Consumption"]) as [_ Hkeep].
      * left. reflexivity.
      * left. reflexivity.
      * destruct Hskip as [Hnone Hin]; [vm_compute; lia|].
        split; [exact Hnone|]. split; [exact Hin|].
        apply Hkeep. vm_compute. lia.
Defined.

(** C5 on the sample merged table: the window (-5, 5) keeps the three
    middle rows. *)
Lemma calculate_correlation_window_witness :
  calculate_correlation (fun a _ => nth 0 a nan) merged_example
                        ["GDP_per_capita_AUS"; "FDI_AUS"] (Some (-5, 5))
  = Ok (mkMatrix ["GDP_per_capita_AUS"; "FDI_AUS"]
                 [[2; 4]; [4; 4]]%float)
  /\
  exists correlation_matrices printed M,
    compute_country_correlation_matrices
      (fun a _ => nth 0 a nan) (fun _ => "matrix") merged_example
      metric_groups country_suffix []
    = Ok (correlation_matrices, printed) /\
    calculate_correlation (fun a _ => nth 0 a nan) merged_example
                          ["GDP_per_capita_AUS"; "FDI_AUS"] (Some (-5, 5))
    = Ok M /\
    matrix_of correlation_matrices "Australia" "Economic" = Some M.
Proof.
  destruct (calculate_correlation_window
              (fun a _ => nth 0 a nan) (fun _ => "matrix") merged_example
              ["GDP_per_capita_AUS"; "FDI_AUS"]
              [FloatCol [1; 2; 3; 4; 5]%float; FloatCol [2; 4; 5; 4; 2]%float]
              [-6; -5; 0; 5; 6] (-5) 5
              merged_example (IntCol [-6; -5; 0; 5; 6])
              metric_groups country_suffix [])
    as [Hwin (cm & printed & E & G)].
  - reflexivity.
  - repeat constructor.
  - reflexivity.
  - distinct_strings.
  - distinct_strings.
  - split; [exact Hwin|].
    destruct (G "Australia" "_AUS" "Economic"
                ["GDP_per_capita"; "FDI"; "Gov_Consumption"]) as (M & HM & Hget).
    + left. reflexivity.
    + left. reflexivity.
    + vm_compute. lia.
    + exists cm, printed, M. split; [exact E|]. split; [exact HM | exact Hget].
Defined.

(** ** C6 *)

Lemma welford_self (x : list float) (st : welford) :
  meany st = meanx st -> ssqdm_y st = ssqdm_x st -> covxy st = ssqdm_x st ->
  meany (fold_left welford_step (combine x x) st)
  = meanx (fold_left welford_step (combine x x) st) /\
  ssqdm_y (fold_left welford_step (combine x x) st)
  = ssqdm_x (fold_left welford_step (combine x x) st) /\
  covxy (fold_left welford_step (combine x x) st)
  = ssqdm_x (fold_left welford_step (combine x x) st).
Proof.
  revert st. induction x as [|v x IH]; intros st Hm Hs Hc; [now repeat split|].
  cbn [combine fold_left]. apply IH; unfold welford_step; cbn [fst snd];
    destruct (is_finite v && is_finite v);
    cbn [meanx meany ssqdm_x ssqdm_y covxy]; try assumption;
      now rewrite ?Hm, ?Hs, ?Hc.
Qed.

Lemma nancorr_self (clip : bool) (x : list float) :
  nancorr clip x x = self_correlation clip x.
Proof.
  unfold nancorr, self_correlation, sum_sq_dev, welford_of.
  destruct (welford_self x welford_start eq_refl eq_refl eq_refl)
    as (_ & Hs & Hc).
  now rewrite Hs, Hc.
Qed.

Lemma float_zero_cases (s : float) :
  PrimFloat.eqb s 0 = true -> s = zero \/ s = neg_zero.
Proof.
  rewrite eqb_spec. intros H.
  rewrite <- (SF2Prim_Prim2SF s).
  destruct (Prim2SF s) as [sg|sg| |sg m e]; cbn in H; try discriminate H.
  - destruct sg; [now right | now left].
  - destruct sg; discriminate H.
  - destruct sg; discriminate H.
Qed.

Lemma self_correlation_zero (clip : bool) (x : list float) :
  PrimFloat.eqb (sum_sq_dev x) 0 = true -> self_correlation clip x = nan.
Proof.
  intros H. unfold self_correlation.
  destruct (nobs (welford_of x) <? 1)%nat; [reflexivity|].
  destruct (float_zero_cases _ H) as [-> | ->]; reflexivity.
Qed.

Lemma entry_corr_values (pearson : list float -> list float -> float)
      (labels : list string) (values : list (list float)) (i j : nat) :
  (i < length values)%nat -> (j < length values)%nat ->
  entry (mkMatrix labels (corr_values pearson values)) i j
  = pearson (nth (Nat.max i j) values []) (nth (Nat.min i j) values []).
Proof.
  intros Hi Hj. unfold entry, corr_values. cbn [mvalues].
  now rewrite !(nth_map_seq _ (length values)) by assumption.
Qed.

Lemma select_columns_unique_same (cols : list (string * column))
      (names : list string) (cs : list column) :
  Forall2 (fun name c =>
             map snd (filter (fun kc => String.eqb (fst kc) name) cols) = [c])
          names cs ->
  select_columns cols names = Ok (combine names cs).
Proof.
  intros H.
  pose proof (select_columns_unique (fun c => c) cols names cs H) as E.
  rewrite map_id in E.
  replace (map (fun kc : string * column => (fst kc, snd kc)) cols) with cols in E;
    [exact E|].
  rewrite <- (map_id cols) at 1. apply map_ext. now intros [k c].
Qed.

(** The matrix of columns that each carry their name once. *)
Lemma calculate_correlation_unique
      (pearson : list float -> list float -> float)
      (df : DataFrame) (metrics : list string) (cs : list column)
      (time_period : option (Z * Z)) (relative_year : column) :
  Forall2 (fun name c => find_columns df name = [c]) metrics cs ->
  (time_period <> None -> get_column df "Relative Year" = Ok relative_year) ->
  calculate_correlation pearson df metrics time_period
  = Ok (mkMatrix metrics
          (corr_values pearson
             (map (rows_in_window time_period relative_year) cs))).
Proof.
  intros Hcols Hry. unfold calculate_correlation.
  pose proof (Forall2_length Hcols) as Hlen.
  destruct time_period as [[lower upper]|].
  - rewrite Hry by discriminate. cbn [bind].
    unfold getitem_list, filter_rows. cbn [columns].
    rewrite (select_columns_unique _ _ metrics cs) by exact Hcols.
    cbn [bind columns]. unfold corr.
    rewrite map_fst_combine by (now rewrite length_map).
    rewrite <- (map_map snd col_floats).
    rewrite map_snd_combine by (now rewrite length_map).
    rewrite map_map.
    assert (Hw : map (fun c => col_floats
                                 (col_keep (between relative_year lower upper) c))
                     cs
                 = map (rows_in_window (Some (lower, upper)) relative_year) cs).
    { apply map_ext. intros c. cbn [rows_in_window]. apply col_floats_keep. }
    now rewrite Hw.
  - cbn [bind]. unfold getitem_list.
    rewrite (select_columns_unique_same _ metrics cs) by exact Hcols.
    cbn [bind columns]. unfold corr.
    rewrite map_fst_combine by assumption.
    rewrite <- (map_map snd col_floats).
    now rewrite map_snd_combine by assumption.
Qed.

(** C6, amended.  Every matrix [calculate_correlation] returns is square
    and symmetric, and for columns that each carry their name once it is
    returned without an exception.  The entry of two columns that are
    identical on the rows kept, the diagonal entries among them, is the
    number [self_correlation] computes from the sum of squared deviations
    s of the column: s / sqrt (s * s) in binary64, and NaN when that sum
    is 0, as for a constant column, or when no row is finite.  It is 1.0
    only as far as the rounding of s * s allows. *)
Theorem correlation_matrix_symmetric_diagonal
        (clip : bool) (df : DataFrame) (metrics : list string)
        (time_period : option (Z * Z)) :
  (forall M,
      calculate_correlation (nancorr clip) df metrics time_period = Ok M ->
      length (mvalues M) = length (mlabels M) /\
      forall i j, (i < length (mlabels M))%nat -> (j < length (mlabels M))%nat ->
                  entry M i j = entry M j i)
  /\
  (forall (cs : list column) (relative_year : column),
      Forall2 (fun name c => find_columns df name = [c]) metrics cs ->
      (time_period <> None ->
       get_column df "Relative Year" = Ok relative_year) ->
      exists M,
        calculate_correlation (nancorr clip) df metrics time_period = Ok M /\
        mlabels M = metrics /\
        forall i j ci cj,
          nth_error cs i = Some ci -> nth_error cs j = Some cj ->
          rows_in_window time_period relative_year ci
          = rows_in_window time_period relative_year cj ->
          entry M i j
          = self_correlation clip
              (rows_in_window time_period relative_year ci) /\
          (PrimFloat.eqb
             (sum_sq_dev (rows_in_window time_period relative_year ci)) 0
           = true ->
           entry M i j = nan)).
Proof.
  split.
  - intros M HM. unfold calculate_correlation in HM.
    destruct (match time_period with
              | Some (start, stop) =>
                  relative_year <- get_column df "Relative Year" ;;
                  Ok (filter_rows (between relative_year start stop) df)
              | None => Ok df
              end) as [df'|e]; [|discriminate HM].
    cbn [bind] in HM.
    destruct (getitem_list df' metrics) as [selected|e]; [|discriminate HM].
    cbn [bind] in HM. injection HM as <-.
    unfold corr, entry. cbn [mlabels mvalues].
    assert (Hlen : length (corr_values (nancorr clip)
                             (map (fun kc => col_floats (snd kc))
                                  (columns selected)))
                   = length (map fst (columns selected))).
    { unfold corr_values. now rewrite !length_map, length_seq. }
    split; [exact Hlen|].
    intros i j Hi Hj. rewrite length_map in Hi, Hj.
    apply corr_values_symmetric; now rewrite length_map.
  - intros cs relative_year Hcols Hry.
    rewrite (calculate_correlation_unique _ df metrics cs time_period
               relative_year Hcols Hry).
    eexists. split; [reflexivity|]. split; [reflexivity|].
    intros i j ci cj Hi Hj Hsame.
    set (rows := rows_in_window time_period relative_year) in *.
    assert (Hi' : (i < length (map rows cs))%nat).
    { rewrite length_map. apply nth_error_Some. congruence. }
    assert (Hj' : (j < length (map rows cs))%nat).
    { rewrite length_map. apply nth_error_Some. congruence. }
    assert (Hni : nth i (map rows cs) [] = rows ci).
    { apply nth_error_nth. now rewrite nth_error_map, Hi. }
    assert (Hnj : nth j (map rows cs) [] = rows ci).
    { rewrite Hsame. apply nth_error_nth. now rewrite nth_error_map, Hj. }
    assert (E : entry (mkMatrix metrics (corr_values (nancorr clip) (map rows cs)))
                      i j
                = self_correlation clip (rows ci)).
    { rewrite entry_corr_values by assumption.
      destruct (Nat.max_spec i j) as [[_ ->]|[_ ->]];
        destruct (Nat.min_spec i j) as [[_ ->]|[_ ->]];
        rewrite ?Hni, ?Hnj; apply nancorr_self. }
    split; [exact E|]. intros Hzero. rewrite E.
    now apply self_correlation_zero.
Qed.

(** On the sample with A = B = [1, 2, 4] and the constant column C the
    entries of A with itself and with B are 1.0 and the diagonal entry of
    C is NaN. *)
Lemma correlation_matrix_symmetric_diagonal_witness :
  exists M,
    calculate_correlation (nancorr false) identical_example ["A"; "B"; "C"] None
    = Ok M /\
    entry M 0 1 = entry M 1 0 /\
    entry M 0 0 = 1%float /\
    entry M 0 1 = 1%float /\
    entry M 2 2 = nan.
Proof.
  destruct (correlation_matrix_symmetric_diagonal
              false identical_example ["A"; "B"; "C"] None) as [Hsym Hdiag].
  destruct (Hdiag [FloatCol [1; 2; 4]%float; FloatCol [1; 2; 4]%float;
                   FloatCol [5; 5; 5]%float] (IntCol []))
    as (M & HM & _ & Hentry).
  - repeat constructor.
  - intros H. now contradiction H.
  - exists M. split; [exact HM|].
    destruct (Hsym M HM) as [_ Hs].
    assert (Hn : length (mlabels M) = 3%nat).
    { vm_compute in HM. injection HM as <-. reflexivity. }
    split; [apply Hs; rewrite Hn; lia|].
    split; [|split].
    + apply (proj1 (Hentry 0%nat 0%nat _ _ eq_refl eq_refl eq_refl)).
    + apply (proj1 (Hentry 0%nat 1%nat _ _ eq_refl eq_refl eq_refl)).
    + apply (proj2 (Hentry 2%nat 2%nat _ _ eq_refl eq_refl eq_refl)).
      reflexivity.
Defined.

(** C6 as stated fails where the sums overflow: the identical columns
    A = B = [2^300, -2^300] have the sum of squared deviations 2^601, not
    0, its square is infinite in binary64, and both the diagonal entries
    and the entry of A with B are 0.0, with or without the clip. *)
Lemma identical_columns_overflow :
  find_columns large_example "A" = find_columns large_example "B" /\
  calculate_correlation (nancorr false) large_example ["A"; "B"] None
  = Ok (mkMatrix ["A"; "B"] [[0; 0]; [0; 0]]%float) /\
  calculate_correlation (nancorr true) large_example ["A"; "B"] None
  = Ok (mkMatrix ["A"; "B"] [[0; 0]; [0; 0]]%float) /\
  sum_sq_dev [0x1p+300; -0x1p+300]%float = 0x1p+601%float /\
  PrimFloat.eqb 0x1p+601 0 = false /\
  PrimFloat.eqb 0 1 = false.
Proof. repeat split; reflexivity. Qed.

(** ** Columns under renaming, assignment and row selection *)

Lemma map_columns_compose (f g : string -> string) (df : DataFrame) :
  map_columns g (map_columns f df) = map_columns (fun k => g (f k)) df.
Proof.
  unfold map_columns. cbn [index index_name columns].
  now rewrite map_map.
Qed.

Lemma map_columns_fixed (f : string -> string) (df : DataFrame) :
  (forall k, In k (column_names df) -> f k = k) -> map_columns f df = df.
Proof.
  intros H. destruct df as [idx iname cols]. unfold map_columns.
  cbn [index index_name columns]. f_equal.
  unfold column_names in H. cbn [columns] in H.
  induction cols as [|[k c] cols IH]; [reflexivity|].
  cbn [map fst snd]. rewrite (H k) by now left.
  f_equal. apply IH. intros k' Hin. apply H. now right.
Qed.

Lemma find_columns_cons (idx : list Z) (iname : option string)
      (k : string) (c : column) (cols : list (string * column)) (name : string) :
  k <> name ->
  find_columns (mkDataFrame idx iname ((k, c) :: cols)) name
  = find_columns (mkDataFrame idx iname cols) name.
Proof.
  intros Hne. unfold find_columns. cbn [columns filter fst].
  destruct (String.eqb_spec k name); [contradiction | reflexivity].
Qed.

Lemma filter_set_column_other (name name' : string) (c : column)
      (cols : list (string * column)) :
  name' <> name ->
  filter (fun kc => String.eqb (fst kc) name') (set_column name c cols)
  = filter (fun kc => String.eqb (fst kc) name') cols.
Proof.
  intros Hne. unfold set_column. destruct (existsb _ cols).
  - induction cols as [|[k v] cols IH]; [reflexivity|].
    cbn [map filter fst]. destruct (String.eqb_spec k name) as [->|Hk].
    + cbn [fst]. destruct (String.eqb_spec name name'); [congruence | exact IH].
    + cbn [fst]. destruct (String.eqb k name'); now rewrite IH.
  - rewrite filter_app. cbn [filter fst].
    destruct (String.eqb_spec name name'); [congruence|]. apply app_nil_r.
Qed.

Lemma filter_set_column_same (name : string) (c : column)
      (cols : list (string * column)) :
  Forall (fun kc => kc = (name, c))
         (filter (fun kc => String.eqb (fst kc) name) (set_column name c cols)) /\
  filter (fun kc => String.eqb (fst kc) name) (set_column name c cols) <> [] /\
  (length (filter (fun kc => String.eqb (fst kc) name) (set_column name c cols))
   <= Nat.max 1 (length (filter (fun kc => String.eqb (fst kc) name) cols)))%nat.
Proof.
  unfold set_column.
  destruct (existsb (fun kc => String.eqb (fst kc) name) cols) eqn:E.
  - apply existsb_exists in E. destruct E as (kc0 & Hin0 & Hk0).
    assert (Hne : filter (fun kc => String.eqb (fst kc) name) cols <> []).
    { intros Hnil.
      assert (Hf : In kc0 (filter (fun kc => String.eqb (fst kc) name) cols))
        by (apply filter_In; now split).
      rewrite Hnil in Hf. contradiction. }
    clear kc0 Hin0 Hk0.
    assert (Hshape : forall l : list (string * column),
      Forall (fun kc => kc = (name, c))
        (filter (fun kc => String.eqb (fst kc) name)
           (map (fun kc => if String.eqb (fst kc) name then (fst kc, c) else kc) l)) /\
      length (filter (fun kc => String.eqb (fst kc) name)
           (map (fun kc => if String.eqb (fst kc) name then (fst kc, c) else kc) l))
      = length (filter (fun kc => String.eqb (fst kc) name) l)).
    { induction l as [|[k v] l [IH1 IH2]]; [now split|].
      cbn [map filter fst]. destruct (String.eqb_spec k name) as [->|Hk].
      - cbn [fst]. rewrite String.eqb_refl. split.
        + now constructor.
        + cbn [length]. now rewrite IH2.
      - cbn [fst]. destruct (String.eqb_spec k name); [contradiction|].
        now split. }
    destruct (Hshape cols) as [H1 H2]. split; [exact H1|]. split.
    + intros Hnil. rewrite Hnil in H2. cbn [length] in H2.
      destruct (filter _ cols); [now apply Hne | discriminate H2].
    + rewrite H2. lia.
  - assert (Hnil : filter (fun kc => String.eqb (fst kc) name) cols = []).
    { destruct (filter _ cols) as [|kc l] eqn:Ef; [reflexivity|].
      assert (Hf : In kc (filter (fun kc => String.eqb (fst kc) name) cols))
        by (rewrite Ef; now left).
      apply filter_In in Hf.
      assert (Et : existsb (fun kc => String.eqb (fst kc) name) cols = true)
        by (apply existsb_exists; now exists kc).
      congruence. }
    rewrite filter_app, Hnil. cbn [app filter fst]. rewrite String.eqb_refl.
    split; [now repeat constructor|]. split; [discriminate | cbn; lia].
Qed.

Lemma find_columns_set_other (idx : list Z) (iname : option string)
      (name name' : string) (c : column) (cols : list (string * column)) :
  name' <> name ->
  find_columns (mkDataFrame idx iname (set_column name c cols)) name'
  = find_columns (mkDataFrame idx iname cols) name'.
Proof.
  intros Hne. unfold find_columns. cbn [columns].
  now rewrite filter_set_column_other.
Qed.

(** A name carried by one column is still carried by one column after an
    assignment; the column is the old one or the one assigned. *)
Lemma find_columns_set_unique (idx idx' : list Z) (iname iname' : option string)
      (name name' : string) (c c0 : column) (cols : list (string * column)) :
  find_columns (mkDataFrame idx iname cols) name' = [c0] ->
  exists c', find_columns (mkDataFrame idx' iname' (set_column name c cols)) name'
             = [c'] /\ (c' = c0 \/ (name' = name /\ c' = c)).
Proof.
  intros H. destruct (String.eqb_spec name' name) as [->|Hne].
  - destruct (filter_set_column_same name c cols) as (Hall & Hnil & Hlen).
    unfold find_columns in *. cbn [columns] in *.
    assert (Hone : length (filter (fun kc => String.eqb (fst kc) name) cols) = 1%nat).
    { apply (f_equal (@length _)) in H. now rewrite length_map in H. }
    rewrite Hone in Hlen.
    destruct (filter _ (set_column name c cols)) as [|kc [|kc' l]];
      [contradiction| |cbn in Hlen; lia].
    inversion Hall as [|? ? Hkc _]; subst. exists c. split; [reflexivity|].
    right. now split.
  - exists c0. split; [|now left].
    rewrite find_columns_set_other by assumption.
    unfold find_columns in *. exact H.
Qed.

Lemma find_columns_set_same_unique (idx : list Z) (iname : option string)
      (name : string) (c c0 : column) (cols : list (string * column)) :
  find_columns (mkDataFrame idx iname (set_column name c cols)) name = [c0] ->
  c0 = c.
Proof.
  intros H. destruct (filter_set_column_same name c cols) as (Hall & _ & _).
  unfold find_columns in H. cbn [columns] in H.
  destruct (filter _ (set_column name c cols)) as [|kc [|kc' l]];
    try discriminate H.
  inversion Hall as [|? ? Hkc _]; subst. cbn in H. now injection H as <-.
Qed.

Lemma find_columns_take_rows (perm : list nat) (df : DataFrame) (name : string) :
  find_columns (take_rows perm df) name
  = map (col_take perm) (find_columns df name).
Proof.
  unfold find_columns, take_rows. cbn [columns].
  now rewrite filter_name_map, !map_map.
Qed.

Lemma find_columns_indep (idx idx' : list Z) (iname iname' : option string)
      (cols : list (string * column)) (name : string) :
  find_columns (mkDataFrame idx iname cols) name
  = find_columns (mkDataFrame idx' iname' cols) name.
Proof. reflexivity. Qed.

(** ** Well-formed frames *)

Lemma col_len_take (perm : list nat) (c : column) :
  col_len (col_take perm c) = length perm.
Proof. destruct c; simpl; now rewrite length_map. Qed.

Lemma wf_take_rows (perm : list nat) (df : DataFrame) : wf (take_rows perm df).
Proof.
  unfold wf, take_rows, len. cbn [columns index].
  apply Forall_forall. intros kc Hin. apply in_map_iff in Hin.
  destruct Hin as (kc0 & <- & _). cbn [snd].
  now rewrite col_len_take, length_map.
Qed.

Lemma wf_map_columns (f : string -> string) (df : DataFrame) :
  wf df -> wf (map_columns f df).
Proof.
  unfold wf, map_columns, len. cbn [columns index]. intros H.
  apply Forall_forall. intros kc Hin. apply in_map_iff in Hin.
  destruct Hin as (kc0 & <- & Hin0). cbn [snd].
  rewrite Forall_forall in H. now apply H.
Qed.

Lemma Forall_set_column (P : string * column -> Prop) (name : string)
      (c : column) (cols : list (string * column)) :
  Forall P cols -> (forall k, P (k, c)) -> Forall P (set_column name c cols).
Proof.
  intros Hall Hc. unfold set_column. destruct (existsb _ cols).
  - apply Forall_forall. intros kc Hin. apply in_map_iff in Hin.
    destruct Hin as (kc0 & <- & Hin0).
    destruct (String.eqb (fst kc0) name); [apply Hc|].
    rewrite Forall_forall in Hall. now apply Hall.
  - apply Forall_app. split; [assumption | now repeat constructor].
Qed.

Lemma wf_reset_index (df d0 : DataFrame) :
  wf df -> reset_index df = Ok d0 ->
  wf d0 /\ len d0 = len df /\ index_name d0 = None /\
  index d0 = RangeIndex (len d0).
Proof.
  unfold reset_index. intros Hwf H.
  destruct (has_column df _); [discriminate H|]. injection H as <-.
  unfold wf, len in *. cbn [columns index index_name].
  rewrite RangeIndex_length. split; [|repeat split].
  constructor; [reflexivity | assumption].
Qed.

Lemma col_len_column_of_list (vals : list scalar) :
  col_len (column_of_list vals) = length vals.
Proof.
  unfold column_of_list. destruct (forallb _ _); simpl; now rewrite length_map.
Qed.

Lemma col_len_series_sub (c : column) (k : Z) :
  col_len (series_sub c k) = col_len c.
Proof. destruct c; simpl; now rewrite length_map. Qed.

Lemma wf_get_column (df : DataFrame) (name : string) (c : column) :
  wf df -> find_columns df name = [c] -> col_len c = len df.
Proof.
  unfold wf, find_columns. intros Hwf H. rewrite Forall_forall in Hwf.
  destruct (filter _ (columns df)) as [|kc l] eqn:E; [discriminate H|].
  assert (Hin : In kc (filter (fun kc => String.eqb (fst kc) name) (columns df)))
    by (rewrite E; now left).
  apply filter_In in Hin. destruct Hin as [Hin _].
  cbn in H. injection H as <- _. now apply Hwf.
Qed.

Lemma get_column_find (df : DataFrame) (name : string) (c : column) :
  get_column df name = Ok c <-> find_columns df name = [c].
Proof.
  unfold get_column. split.
  - destruct (find_columns df name) as [|c0 [|c1 l]]; try discriminate.
    now intros [= ->].
  - now intros ->.
Qed.

(** ** Sorting by year *)

Lemma insert_by_In (x y : Z * nat) (l : list (Z * nat)) :
  In y (insert_by Z.leb x l) <-> y = x \/ In y l.
Proof.
  induction l as [|z l IH]; simpl.
  - split; intros [H|H]; auto.
  - destruct (fst x <=? fst z); simpl.
    + split; intros [H|H]; auto.
    + rewrite IH. tauto.
Qed.

Lemma insert_by_sorted (x : Z * nat) (l : list (Z * nat)) :
  StronglySorted key_le l -> StronglySorted key_le (insert_by Z.leb x l).
Proof.
  induction 1 as [|z l Hs IH Hall]; simpl.
  - repeat constructor.
  - destruct (Z.leb_spec (fst x) (fst z)) as [Hle|Hgt].
    + constructor; [now constructor|]. constructor; [exact Hle|].
      eapply Forall_impl; [|exact Hall]. unfold key_le. intros a Ha. lia.
    + constructor; [exact IH|]. apply Forall_forall. intros y Hy.
      apply insert_by_In in Hy. destruct Hy as [->|Hy].
      * unfold key_le. lia.
      * rewrite Forall_forall in Hall. now apply Hall.
Qed.

Lemma sort_pairs_sorted (l : list (Z * nat)) :
  StronglySorted key_le (fold_right (insert_by Z.leb) [] l).
Proof.
  induction l as [|x l IH]; simpl; [constructor | now apply insert_by_sorted].
Qed.

Lemma sort_pairs_In (y : Z * nat) (l : list (Z * nat)) :
  In y (fold_right (insert_by Z.leb) [] l) <-> In y l.
Proof.
  induction l as [|x l IH]; simpl; [tauto|].
  rewrite insert_by_In, IH. split; intros [H|H]; auto.
Qed.

Lemma insert_by_length (x : Z * nat) (l : list (Z * nat)) :
  length (insert_by Z.leb x l) = S (length l).
Proof.
  induction l as [|z l IH]; simpl; [reflexivity|].
  destruct (fst x <=? fst z); simpl; [reflexivity | now rewrite IH].
Qed.

Lemma sort_pairs_length (l : list (Z * nat)) :
  length (fold_right (insert_by Z.leb) [] l) = length l.
Proof.
  induction l as [|x l IH]; simpl; [reflexivity|].
  now rewrite insert_by_length, IH.
Qed.

Lemma in_combine_keys_seq (l : list Z) (s p : nat) (k : Z) :
  In (k, p) (combine l (seq s (length l))) ->
  (s <= p)%nat /\ nth_error l (p - s) = Some k.
Proof.
  revert s. induction l as [|y l IH]; intros s H; simpl in H; [contradiction|].
  destruct H as [H|H].
  - injection H as <- <-. split; [lia|]. now rewrite Nat.sub_diag.
  - destruct (IH _ H) as [Hle Hn]. split; [lia|].
    replace (p - s)%nat with (S (p - S s)) by lia. exact Hn.
Qed.

(** The key column after the sort is the list of sorted keys. *)
Lemma sorted_keys (l : list Z) :
  map (fun p => nth p l 0) (sort_perm Z.leb l)
  = map fst (fold_right (insert_by Z.leb) [] (combine l (seq 0 (length l)))).
Proof.
  unfold sort_perm. rewrite map_map. apply map_ext_in.
  intros [k p] Hin. apply (proj1 (sort_pairs_In _ _)) in Hin.
  apply in_combine_keys_seq in Hin. destruct Hin as [_ Hn].
  rewrite Nat.sub_0_r in Hn. cbn [fst snd]. now apply nth_error_nth.
Qed.

Lemma sorted_keys_length (l : list Z) :
  length (map (fun p => nth p l 0) (sort_perm Z.leb l)) = length l.
Proof.
  rewrite sorted_keys, length_map, sort_pairs_length, length_combine, length_seq.
  lia.
Qed.

Lemma sorted_keys_sorted (l : list Z) :
  StronglySorted Z.le (map (fun p => nth p l 0) (sort_perm Z.leb l)).
Proof.
  rewrite sorted_keys.
  generalize (sort_pairs_sorted (combine l (seq 0 (length l)))).
  generalize (fold_right (insert_by Z.leb) [] (combine l (seq 0 (length l)))).
  induction 1 as [|z s Hs IH Hall]; simpl; constructor; [assumption|].
  apply Forall_forall. intros y Hy. apply in_map_iff in Hy.
  destruct Hy as (w & <- & Hw). rewrite Forall_forall in Hall. now apply Hall.
Qed.

Lemma strongly_sorted_first_last (ys : list Z) (a b : Z) :
  StronglySorted Z.le ys ->
  nth_error ys 0 = Some a ->
  nth_error ys (length ys - 1) = Some b ->
  a <= b.
Proof.
  intros Hs Ha Hb. destruct ys as [|y ys]; [discriminate Ha|].
  cbn in Ha. injection Ha as ->. cbn [length] in Hb.
  replace (S (length ys) - 1)%nat with (length ys) in Hb by lia.
  destruct ys as [|y' ys'].
  - cbn in Hb. injection Hb as ->. lia.
  - inversion Hs as [|? ? _ Hall]; subst. rewrite Forall_forall in Hall.
    apply Hall. apply (nth_error_In _ (length ys')). exact Hb.
Qed.

(** A year column is not "high to low" once it has been sorted. *)
Lemma sorted_not_descending (l : list Z) (first last : scalar) :
  iloc_first (col_take (argsort (IntCol l)) (IntCol l)) = Ok first ->
  iloc_last (col_take (argsort (IntCol l)) (IntCol l)) = Ok last ->
  scalar_gtb first last = false.
Proof.
  unfold iloc_first, iloc_last. cbn [argsort col_take col_nth col_len].
  intros Hf Hl.
  destruct (nth_error _ 0) as [a|] eqn:Ea; [|discriminate Hf].
  cbn in Hf. injection Hf as <-.
  destruct (nth_error _ (_ - 1)) as [b|] eqn:Eb; [|discriminate Hl].
  cbn in Hl. injection Hl as <-.
  cbn [scalar_gtb]. apply Z.ltb_ge.
  eapply strongly_sorted_first_last; [apply sorted_keys_sorted | exact Ea | exact Eb].
Qed.

(** ** The first run of the normaliser *)

Lemma insert_by_length_any {K} (le : K -> K -> bool) (x : K * nat)
      (l : list (K * nat)) :
  length (insert_by le x l) = S (length l).
Proof.
  induction l as [|z l IH]; simpl; [reflexivity|].
  destruct (le (fst x) (fst z)); simpl; [reflexivity | now rewrite IH].
Qed.

Lemma sort_perm_length {K} (le : K -> K -> bool) (keys : list K) :
  length (sort_perm le keys) = length keys.
Proof.
  unfold sort_perm. rewrite length_map.
  transitivity (length (combine keys (seq 0 (length keys)))).
  - generalize (combine keys (seq 0 (length keys))).
    induction l as [|x l IH]; simpl; [reflexivity|].
    now rewrite insert_by_length_any, IH.
  - rewrite length_combine, length_seq. lia.
Qed.

Lemma argsort_length (c : column) : length (argsort c) = col_len c.
Proof. destruct c; simpl; apply sort_perm_length. Qed.

Lemma len_take_rows (perm : list nat) (df : DataFrame) :
  len (take_rows perm df) = length perm.
Proof. unfold len, take_rows. cbn [index]. apply length_map. Qed.

Lemma iloc_first_rows (c : column) (s : scalar) :
  iloc_first c = Ok s -> (1 <= col_len c)%nat.
Proof.
  unfold iloc_first. destruct c as [l|l]; destruct l; simpl; try discriminate; lia.
Qed.

Lemma iloc_defined (c : column) :
  (1 <= col_len c)%nat ->
  exists first last, iloc_first c = Ok first /\ iloc_last c = Ok last.
Proof.
  intros H. unfold iloc_first, iloc_last.
  rewrite (col_nth_cell c 0) by lia.
  rewrite (col_nth_cell c (col_len c - 1)) by lia.
  now eexists; eexists.
Qed.

Lemma growth_loop_raise (df : DataFrame) (m : string) (l : list nat) (e : exn) :
  fold_left
    (fun acc i =>
       growth_rates <- acc ;;
       previous_year <- loc df (Z.of_nat i - 1) m ;;
       current_year <- loc df (Z.of_nat i) m ;;
       Ok (growth_rates ++ [growth_step previous_year current_year]))
    l (Raise e) = Raise e.
Proof. induction l as [|i l IH]; simpl; [reflexivity | exact IH]. Qed.

Lemma loc_raise (df : DataFrame) (lbl : Z) (m : string) (e : exn) :
  get_column df m = Raise e -> loc df lbl m = Raise e.
Proof. intros H. unfold loc. now rewrite H. Qed.

(** With two rows or more the loop reads the metric column. *)
Lemma growth_rates_of_reads_column (df : DataFrame) (m : string)
      (g : list scalar) :
  growth_rates_of df m = Ok g -> (2 <= len df)%nat ->
  exists c, find_columns df m = [c].
Proof.
  intros H Hlen. destruct (get_column df m) as [c|e] eqn:Ec.
  - exists c. now apply get_column_find.
  - exfalso. unfold growth_rates_of, py_range in H.
    destruct (len df - 1)%nat as [|n] eqn:E; [lia|].
    cbn [seq fold_left bind] in H.
    rewrite (loc_raise df (Z.of_nat 1 - 1) m e Ec) in H.
    cbn [bind] in H. rewrite growth_loop_raise in H. discriminate H.
Qed.

Lemma calculate_growth_rate_rows (df df' : DataFrame) (m : string) :
  (1 <= len df)%nat ->
  calculate_growth_rate df m = Ok df' ->
  exists g,
    growth_rates_of df m = Ok g /\ length g = len df /\
    df' = mkDataFrame (index df) (index_name df)
            (set_column "Growth Rate (%)" (column_of_list g) (columns df)).
Proof.
  intros Hlen H. unfold calculate_growth_rate in H.
  destruct (growth_rates_of df m) as [g|e]; [|discriminate H].
  cbn [bind] in H. unfold setitem_list in H.
  destruct (len df) as [|n] eqn:E; [lia|]. cbn [Nat.eqb andb] in H.
  destruct (Nat.eqb_spec (length g) (S n)) as [Hg|]; [|discriminate H].
  injection H as <-. now exists g.
Qed.

(** What the first run leaves: the frame [d3] it computed the growth rates
    on, its year column [y1], which does not read "high to low", and the
    growth list [g]. *)
Lemma first_run_output (df df1 : DataFrame)
      (rename_dict : option (list (string * string)))
      (host_year : Z) (metric_column : string) :
  wf df ->
  index_rename_and_calculate_growth_rate df rename_dict host_year metric_column
  = Ok df1 ->
  exists d3 y1 g,
    wf d3 /\ (1 <= len d3)%nat /\ index_name d3 = None /\
    find_columns d3 "Year" = [y1] /\
    (forall ys first last,
        y1 = IntCol ys -> iloc_first y1 = Ok first -> iloc_last y1 = Ok last ->
        scalar_gtb first last = false) /\
    growth_rates_of d3 metric_column = Ok g /\ length g = len d3 /\
    df1 = setitem_series
            (mkDataFrame (index d3) (index_name d3)
               (set_column "Growth Rate (%)" (column_of_list g) (columns d3)))
            "Relative Year" (series_sub y1 host_year).
Proof.
  intros Hwf H. unfold index_rename_and_calculate_growth_rate in H.
  destruct (reset_index df) as [d0|e] eqn:E0; [|discriminate H].
  destruct (wf_reset_index df d0 Hwf E0) as (Hwf0 & Hlen0 & Hname0 & _).
  cbn [bind] in H.
  set (d2 := map_columns (rename_name rename_dict) (map_columns strip d0)) in *.
  assert (Hwf2 : wf d2) by (unfold d2; now repeat apply wf_map_columns).
  assert (Hname2 : index_name d2 = None) by exact Hname0.
  destruct (get_column d2 "Year") as [year|e] eqn:Ey; [|discriminate H].
  apply get_column_find in Ey. cbn [bind] in H.
  destruct (iloc_first year) as [first|e] eqn:Ef; [|discriminate H].
  destruct (iloc_last year) as [last|e] eqn:El; [|discriminate H].
  cbn [bind] in H.
  pose proof (wf_get_column d2 "Year" year Hwf2 Ey) as Hly.
  pose proof (iloc_first_rows year first Ef) as Hrows.
  set (d3 := if scalar_gtb first last then sort_values d2 year else d2) in *.
  set (y1 := if scalar_gtb first last then col_take (argsort year) year else year).
  assert (Hwf3 : wf d3).
  { unfold d3. destruct (scalar_gtb first last); [apply wf_take_rows | exact Hwf2]. }
  assert (Hlen3 : (1 <= len d3)%nat).
  { unfold d3. destruct (scalar_gtb first last); [|lia].
    unfold sort_values. rewrite len_take_rows, argsort_length. lia. }
  assert (Hname3 : index_name d3 = None).
  { unfold d3. destruct (scalar_gtb first last); [exact Hname2 | exact Hname2]. }
  assert (Hy3 : find_columns d3 "Year" = [y1]).
  { unfold d3, y1. destruct (scalar_gtb first last); [|exact Ey].
    unfold sort_values. now rewrite find_columns_take_rows, Ey. }
  destruct (calculate_growth_rate d3 metric_column) as [d4|e] eqn:E4;
    [|discriminate H].
  cbn [bind] in H.
  destruct (calculate_growth_rate_rows d3 d4 metric_column Hlen3 E4)
    as (g & Hg & Hgl & ->).
  assert (Hy4 : find_columns
                  (mkDataFrame (index d3) (index_name d3)
                     (set_column "Growth Rate (%)" (column_of_list g) (columns d3)))
                  "Year" = [y1]).
  { rewrite find_columns_set_other by discriminate. exact Hy3. }
  apply get_column_unique in Hy4. rewrite Hy4 in H. cbn [bind] in H.
  injection H as <-.
  exists d3, y1, g. repeat split; try assumption.
  intros ys f l Hys Hf Hl. unfold y1 in *.
  destruct (scalar_gtb first last) eqn:Egt.
  - destruct year as [yl|yl]; [|discriminate Hys].
    eapply sorted_not_descending; eassumption.
  - congruence.
Qed.

(** ** C8 *)

(** Within the int64 range nothing wraps. *)
Lemma int64_wrap_in_range (z : Z) :
  - 2 ^ 63 <= z < 2 ^ 63 -> int64_wrap z = z.
Proof.
  intros H. unfold int64_wrap. rewrite Z.mod_small; lia.
Qed.


(** C8 as stated fails when the rename maps the column that [reset_index]
    creates: the first run turns "index" into "Year"; the second run
    creates "index" again, renames it as well, and stops on the two
    columns called "Year".  It also fails without any rename on a table
    that already has a column "index": the first run stores the old labels
    as "level_0", and the second run cannot store them again. *)
Lemma second_run_with_index_rename_raises :
  (index_rename_and_calculate_growth_rate
     year_indexed_example index_to_year 2000 "GDP"
   = Ok (mkDataFrame [1; 0] None
           [("Year", IntCol [2000; 2001]);
            ("GDP", FloatCol [100; 200]%float);
            ("Growth Rate (%)", FloatCol [0; -50]%float);
            ("Relative Year", IntCol [0; 1])]) /\
   index_rename_and_calculate_growth_rate
     (mkDataFrame [1; 0] None
        [("Year", IntCol [2000; 2001]);
         ("GDP", FloatCol [100; 200]%float);
         ("Growth Rate (%)", FloatCol [0; -50]%float);
         ("Relative Year", IntCol [0; 1])])
     index_to_year 2000 "GDP"
   = Raise (ValueError "The truth value of a Series is ambiguous")) /\
  (index_rename_and_calculate_growth_rate with_index_column None 2000 "GDP"
   = Ok (mkDataFrame [0; 1] None
           [("level_0", IntCol [0; 1]);
            ("index", IntCol [7; 8]);
            ("Year", IntCol [2000; 2001]);
            ("GDP", FloatCol [100; 200]%float);
            ("Growth Rate (%)", FloatCol [0; 100]%float);
            ("Relative Year", IntCol [0; 1])]) /\
   index_rename_and_calculate_growth_rate
     (mkDataFrame [0; 1] None
        [("level_0", IntCol [0; 1]);
         ("index", IntCol [7; 8]);
         ("Year", IntCol [2000; 2001]);
         ("GDP", FloatCol [100; 200]%float);
         ("Growth Rate (%)", FloatCol [0; 100]%float);
         ("Relative Year", IntCol [0; 1])])
     None 2000 "GDP"
   = Raise (ValueError "cannot insert, already exists")).
Proof. repeat split; reflexivity. Qed.

(** C8, amended.  Let a first run on a well-formed table return [df1],
    with the integer year column [ys].  If [df1] has no column "level_0"
    and the strip and rename of a second run (same host year) leave the
    column names of [df1] and the name of the fresh index column as they
    are, then the second run returns, and its Relative Year column is the
    one of [df1], which holds Year - host_year for every row (in int64
    arithmetic: exactly Year - host_year within the int64 range). *)
Theorem relative_year_rerun
        (df df1 : DataFrame)
        (rename_dict rename_dict' : option (list (string * string)))
        (host_year : Z) (metric_column : string)
        (ys : list Z) (relative_year : column) :
  wf df ->
  index_rename_and_calculate_growth_rate df rename_dict host_year metric_column
  = Ok df1 ->
  get_column df1 "Year" = Ok (IntCol ys) ->
  get_column df1 "Relative Year" = Ok relative_year ->
  has_column df1 "level_0" = false ->
  (forall k, In k ("index" :: "level_0" :: column_names df1) ->
             final_name rename_dict' k = k) ->
  relative_year = IntCol (map (fun y => int64_wrap (y - host_year)) ys) /\
  (Forall (fun y => - 2 ^ 63 <= y - host_year < 2 ^ 63) ys ->
   relative_year = IntCol (map (fun y => y - host_year) ys)) /\
  exists df2,
    index_rename_and_calculate_growth_rate df1 rename_dict' host_year
                                           metric_column = Ok df2 /\
    get_column df2 "Relative Year" = Ok relative_year.
Proof.
  intros Hwf Hrun Hyear Hry Hlevel Hnames.
  destruct (first_run_output df df1 rename_dict host_year metric_column Hwf Hrun)
    as (d3 & y1 & g & Hwf3 & Hlen3 & Hname3 & Hy3 & Hasc & Hg & Hgl & Hdf1).
  apply get_column_find in Hyear, Hry.
  set (cols1 := set_column "Growth Rate (%)" (column_of_list g) (columns d3)) in *.
  assert (Hcols : columns df1
                  = set_column "Relative Year" (series_sub y1 host_year) cols1)
    by (now rewrite Hdf1).
  assert (Hidx : index df1 = index d3) by (now rewrite Hdf1).
  assert (Hiname : index_name df1 = None) by (now rewrite Hdf1).
  assert (Hlen1 : len df1 = len d3) by (unfold len; now rewrite Hidx).
  (* the year column of the output *)
  assert (Hy1 : y1 = IntCol ys).
  { assert (E : find_columns df1 "Year" = [y1]).
    { rewrite Hdf1. unfold setitem_series. cbn [index index_name columns].
      rewrite find_columns_set_other by discriminate.
      unfold cols1. rewrite find_columns_set_other by discriminate.
      exact Hy3. }
    rewrite E in Hyear. now injection Hyear. }
  subst y1.
  assert (Hrel : relative_year = series_sub (IntCol ys) host_year).
  { rewrite Hdf1 in Hry. unfold setitem_series in Hry.
    cbn [index index_name columns] in Hry.
    now apply find_columns_set_same_unique in Hry. }
  split; [exact Hrel|]. split.
  { intros Hrange. rewrite Hrel. cbn [series_sub]. f_equal.
    apply map_ext_in. intros y Hy. rewrite Forall_forall in Hrange.
    now apply int64_wrap_in_range, Hrange. }
  (* the output is well formed *)
  assert (Hwf1 : wf df1).
  { unfold wf. rewrite Hcols, Hlen1. apply Forall_set_column.
    - unfold cols1. apply Forall_set_column; [exact Hwf3|].
      intros k. cbn [snd]. now rewrite col_len_column_of_list.
    - intros k. cbn [snd]. rewrite col_len_series_sub.
      now apply (wf_get_column d3 "Year"). }
  (* reset_index of the second run *)
  set (nm := if has_column df1 "index" then "level_0" else "index").
  assert (Hnm : has_column df1 nm = false).
  { unfold nm. destruct (has_column df1 "index") eqn:E; assumption. }
  assert (Hnm_in : In nm ["index"; "level_0"]).
  { unfold nm. destruct (has_column df1 "index"); simpl; auto. }
  set (r0 := mkDataFrame (RangeIndex (len df1)) None
                         ((nm, IntCol (index df1)) :: columns df1)).
  assert (Hreset : reset_index df1 = Ok r0).
  { unfold reset_index. rewrite Hiname. fold nm. now rewrite Hnm. }
  destruct (wf_reset_index df1 r0 Hwf1 Hreset) as (Hwf0 & Hlen0 & _ & Hidx0).
  assert (Hfixed : map_columns (rename_name rename_dict') (map_columns strip r0)
                   = r0).
  { rewrite map_columns_compose. apply map_columns_fixed.
    intros k Hk. apply Hnames. unfold column_names, r0 in Hk.
    cbn [columns map fst] in Hk. destruct Hk as [<-|Hk].
    - destruct Hnm_in as [<-|[<-|[]]]; simpl; auto.
    - now do 2 right. }
  assert (Hfresh : forall name c, find_columns df1 name = [c] ->
                                  find_columns r0 name = [c]).
  { intros name c Hc. unfold r0. rewrite find_columns_cons.
    - exact Hc.
    - intros ->. rewrite (find_columns_absent df1 name Hnm) in Hc.
      discriminate Hc. }
  assert (Hyear0 : find_columns r0 "Year" = [IntCol ys]) by (now apply Hfresh).
  assert (Hrows : (1 <= col_len (IntCol ys))%nat).
  { rewrite (wf_get_column d3 "Year" (IntCol ys) Hwf3 Hy3). exact Hlen3. }
  destruct (iloc_defined (IntCol ys) Hrows) as (first & last & Hf & Hl).
  pose proof (Hasc ys first last eq_refl Hf Hl) as Hgt.
  (* the growth rates of the second run *)
  assert (Hg2 : exists g2, growth_rates_of r0 metric_column = Ok g2 /\
                           length g2 = len r0).
  { destruct (Nat.le_gt_cases (len r0) 1) as [Hle|Hgt2].
    - exists [SInt 0]. split; [now apply growth_rates_of_empty|].
      cbn [length]. lia.
    - destruct (growth_rates_of_reads_column d3 metric_column g Hg) as (c3 & Hc3);
        [lia|].
      destruct (find_columns_set_unique (index d3) (index d3)
                  (index_name d3) (index_name d3)
                  "Growth Rate (%)" metric_column (column_of_list g) c3
                  (columns d3)) as (c4 & Hc4 & _).
      { destruct d3; exact Hc3. }
      fold cols1 in Hc4.
      destruct (find_columns_set_unique (index d3) (index df1)
                  (index_name d3) (index_name df1)
                  "Relative Year" metric_column
                  (series_sub (IntCol ys) host_year) c4 cols1 Hc4)
        as (c5 & Hc5 & _).
      rewrite <- Hcols in Hc5.
      assert (Hc5' : find_columns df1 metric_column = [c5])
        by (destruct df1; exact Hc5).
      pose proof (Hfresh _ _ Hc5') as Hc0.
      destruct (growth_rates_length r0 metric_column c5) as (g2 & Hg2 & Hl2).
      + exact Hidx0.
      + now apply get_column_unique.
      + now apply wf_get_column with (name := metric_column).
      + exists g2. split; [exact Hg2 | lia]. }
  destruct Hg2 as (g2 & Hg2 & Hgl2).
  set (r4 := mkDataFrame (index r0) (index_name r0)
               (set_column "Growth Rate (%)" (column_of_list g2) (columns r0))).
  assert (Hcalc : calculate_growth_rate r0 metric_column = Ok r4).
  { unfold calculate_growth_rate. rewrite Hg2. cbn [bind].
    unfold setitem_list. rewrite Hgl2.
    destruct (len r0) as [|n] eqn:E; [lia|].
    cbn [Nat.eqb andb]. now rewrite Nat.eqb_refl. }
  assert (Hyear4 : find_columns r4 "Year" = [IntCol ys]).
  { unfold r4. rewrite find_columns_set_other by discriminate.
    destruct r0; exact Hyear0. }
  eexists. split.
  - unfold index_rename_and_calculate_growth_rate.
    rewrite Hreset. cbn [bind]. rewrite Hfixed.
    rewrite (get_column_unique _ _ _ Hyear0). cbn [bind].
    rewrite Hf, Hl. cbn [bind]. rewrite Hgt, Hcalc. cbn [bind].
    rewrite (get_column_unique _ _ _ Hyear4). cbn [bind]. reflexivity.
  - apply get_column_unique. unfold setitem_series.
    assert (Hry4 : find_columns r4 "Relative Year" = [relative_year]).
    { unfold r4. rewrite find_columns_set_other by discriminate.
      pose proof (Hfresh _ _ Hry) as H0. destruct r0; exact H0. }
    destruct (find_columns_set_unique (index r4) (index r4)
                (index_name r4) (index_name r4)
                "Relative Year" "Relative Year"
                (series_sub (IntCol ys) host_year) relative_year
                (columns r4)) as (c' & Hc' & Hwhich).
    { destruct r4; exact Hry4. }
    rewrite Hc'. destruct Hwhich as [->|[_ ->]]; [reflexivity | now rewrite Hrel].
Qed.

(** The second run on the normalised descending sample: Relative Year is
    [0, 1, 2] after both runs. *)
Lemma relative_year_rerun_witness :
  exists df1 df2,
    index_rename_and_calculate_growth_rate descending_example None 2000 "GDP"
    = Ok df1 /\
    index_rename_and_calculate_growth_rate df1 None 2000 "GDP" = Ok df2 /\
    get_column df1 "Relative Year" = Ok (IntCol [0; 1; 2]) /\
    get_column df2 "Relative Year" = Ok (IntCol [0; 1; 2]).
Proof.
  set (df1 := mkDataFrame [2; 1; 0] None
          [("index", IntCol [2; 1; 0]);
           ("Year", IntCol [2000; 2001; 2002]);
           ("GDP", FloatCol [100; 200; 400]%float);
           ("Growth Rate (%)", FloatCol [0; -50; -50]%float);
           ("Relative Year", IntCol [0; 1; 2])]).
  destruct (relative_year_rerun descending_example df1 None None 2000 "GDP"
              [2000; 2001; 2002] (IntCol [0; 1; 2]))
    as (_ & _ & df2 & Hrun2 & Hry2).
  - repeat constructor.
  - reflexivity.
  - reflexivity.
  - reflexivity.
  - reflexivity.
  - intros k Hk. simpl in Hk.
    repeat (destruct Hk as [<-|Hk]; [reflexivity|]). contradiction.
  - exists df1, df2. split; [reflexivity|]. split; [exact Hrun2|].
    split; [reflexivity | exact Hry2].
Defined.

(** A table the normaliser returns has at least one row: on a table
    without rows the test of the year order raises [IndexError]. *)
Lemma normalised_table_has_rows (df df1 : DataFrame)
      (rename_dict : option (list (string * string)))
      (host_year : Z) (metric_column : string) :
  wf df ->
  index_rename_and_calculate_growth_rate df rename_dict host_year metric_column
  = Ok df1 ->
  (1 <= len df1)%nat.
Proof.
  intros Hwf Hrun.
  destruct (first_run_output df df1 rename_dict host_year metric_column Hwf Hrun)
    as (d3 & y1 & g & _ & Hlen3 & _ & _ & _ & _ & _ & ->).
  exact Hlen3.
Qed.

(** ** C9 *)

Section SelectionProperties.

Variable pearson : list float -> list float -> float.
Variable repr_matrix : Matrix -> string.
Variable format_2f : float -> string.

Lemma dict_get_None {V} (d : list (string * V)) (key : string) :
  ~ In key (map fst d) -> dict_get d key = None.
Proof.
  induction d as [|[k v] d IH]; intros H; simpl; [reflexivity|].
  destruct (String.eqb_spec k key) as [->|NE].
  - exfalso. apply H. now left.
  - apply IH. intros Hin. apply H. now right.
Qed.

Lemma dict_get_In {V} (d : list (string * V)) (key : string) :
  In key (map fst d) -> exists v, dict_get d key = Some v.
Proof.
  induction d as [|[k v] d IH]; intros H; simpl in *; [contradiction|].
  destruct (String.eqb_spec k key) as [->|NE]; [now exists v|].
  destruct H as [H|H]; [contradiction|]. now apply IH.
Qed.

(** C9, amended.  The key typed is compared after [strip()], the country
    tag after [strip().upper()].  When the stripped key is not a predefined
    key the function prints "Invalid selection!" and returns; when the key
    is valid and the stripped tag, written in ASCII, is after upper-casing
    neither AUS nor CHI it prints "Invalid country suffix!" and returns.
    In both cases nothing is raised, the merged table is unchanged, no
    correlation line is printed and no figure is shown. *)
Theorem predefined_correlation_analysis_invalid_selection
        (merged_data : DataFrame) (w : world)
        (key_line : string) (rest : list string) :
  stdin w = key_line :: rest ->
  (~ In (strip key_line) (map fst predefined_combinations) ->
   predefined_correlation_analysis pearson format_2f merged_data w
   = Ok (merged_data,
         mkWorld rest
                 (stdout w ++ menu ++
                  [(nl ++ "Choose a combination number (e.g., 1): ")%string;
                   "Invalid selection!"])
                 (figures w)))
  /\
  (forall (country_line : string) (rest' : list string),
      In (strip key_line) (map fst predefined_combinations) ->
      rest = country_line :: rest' ->
      is_ascii (strip country_line) = true ->
      ~ In (upper (strip country_line)) ["AUS"; "CHI"] ->
      exists description,
        option_map fst (dict_get predefined_combinations (strip key_line))
        = Some description /\
        predefined_correlation_analysis pearson format_2f merged_data w
        = Ok (merged_data,
              mkWorld rest'
                      (stdout w ++ menu ++
                       [(nl ++ "Choose a combination number (e.g., 1): ")%string;
                        (nl ++ "Selected combination: " ++ description)%string;
                        "Select a country suffix (AUS or CHI): ";
                        "Invalid country suffix!"])
                      (figures w))).
Proof.
  intros Hin. split.
  - intros Hkey. unfold predefined_correlation_analysis, input.
    cbn [fold_left predefined_combinations print stdin stdout figures fst snd].
    rewrite Hin. cbn [bind fst snd].
    rewrite (dict_get_None _ _ Hkey).
    unfold print, menu. cbn [stdin stdout figures map fst snd predefined_combinations].
    repeat rewrite <- app_assoc. reflexivity.
  - intros country_line rest' Hkey -> _ Hcountry.
    destruct (dict_get_In _ _ Hkey) as (combination & Hget).
    exists (fst combination). split; [now rewrite Hget|].
    unfold predefined_correlation_analysis, input.
    cbn [fold_left predefined_combinations print stdin stdout figures fst snd].
    rewrite Hin. cbn [bind fst snd].
    rewrite Hget. cbn [stdin stdout figures bind fst snd].
    assert (E : existsb (String.eqb (upper (strip country_line))) ["AUS"; "CHI"]
                = false).
    { destruct (existsb _ _) eqn:E; [|reflexivity].
      exfalso. apply Hcountry. apply existsb_exists in E.
      destruct E as (x & Hx & Heq). apply String.eqb_eq in Heq. now subst. }
    rewrite E. cbn [negb].
    unfold print, menu. cbn [stdin stdout figures map fst snd predefined_combinations].
    repeat rewrite <- app_assoc. reflexivity.
Qed.

End SelectionProperties.

(** C9 as stated fails on the tag "aus": it is not in {AUS, CHI}, yet the
    function upper-cases it, accepts it and goes on to the correlation. *)
Lemma lowercase_country_tag_is_accepted :
  ~ In "aus" ["AUS"; "CHI"] /\
  exists w',
    predefined_correlation_analysis
      (fun _ _ => 1%float) (fun _ => "1.00") merged_example
      (mkWorld ["1"; "aus"] [] [])
    = Ok (merged_example, w') /\
    ~ In "Invalid country suffix!" (stdout w') /\
    In (nl ++ "Correlation between GDP_per_capita and FDI in AUS: 1.00")%string
       (stdout w') /\
    figures w' = ["Correlation between GDP_per_capita and FDI in AUS"].
Proof.
  split.
  - intros [H|[H|[]]]; discriminate H.
  - eexists. split; [vm_compute; reflexivity|].
    cbn [stdout figures]. split; [|split; [|reflexivity]].
    + intros H. repeat (destruct H as [H|H]; [discriminate H|]). exact H.
    + do 13 right. left. reflexivity.
Qed.

Lemma predefined_correlation_analysis_invalid_selection_witness :
  predefined_correlation_analysis
    (fun _ _ => 1%float) (fun _ => "1.00") merged_example
    (mkWorld ["8"; "AUS"] [] [])
  = Ok (merged_example,
        mkWorld ["AUS"]
                ([] ++ menu ++
                 [(nl ++ "Choose a combination number (e.g., 1): ")%string;
                  "Invalid selection!"])
                [])
  /\
  exists description,
    option_map fst (dict_get predefined_combinations (strip " 1 "))
    = Some description /\
    predefined_correlation_analysis
      (fun _ _ => 1%float) (fun _ => "1.00") merged_example
      (mkWorld [" 1 "; "au"] [] [])
    = Ok (merged_example,
          mkWorld []
                  ([] ++ menu ++
                   [(nl ++ "Choose a combination number (e.g., 1): ")%string;
                    (nl ++ "Selected combination: " ++ description)%string;
                    "Select a country suffix (AUS or CHI): ";
                    "Invalid country suffix!"])
                  []).
Proof.
  split.
  - apply (proj1 (predefined_correlation_analysis_invalid_selection
                    (fun _ _ => 1%float) (fun _ => "1.00") merged_example
                    (mkWorld ["8"; "AUS"] [] []) "8" ["AUS"] eq_refl)).
    vm_compute. intros H.
    repeat (destruct H as [H|H]; [discriminate H|]). exact H.
  - apply (proj2 (predefined_correlation_analysis_invalid_selection
                    (fun _ _ => 1%float) (fun _ => "1.00") merged_example
                    (mkWorld [" 1 "; "au"] [] []) " 1 " ["au"] eq_refl)
                 "au" []).
    + vm_compute. left. reflexivity.
    + reflexivity.
    + reflexivity.
    + vm_compute. intros H.
      repeat (destruct H as [H|H]; [discriminate H|]). exact H.
Defined.

(** ** C10 *)

(** C10 as stated fails on the table without rows: the assignment of the
    one-element growth list does not raise; the frame, whose index is empty,
    takes its rows from the list and comes back with one row. *)
Lemma calculate_growth_rate_empty_table_returns :
  len empty_example = 0%nat /\
  calculate_growth_rate empty_example "GDP"
  = Ok (mkDataFrame [0] None
          [("Year", FloatCol [nan]); ("GDP", FloatCol [nan]);
           ("Growth Rate (%)", IntCol [0])]) /\
  forall msg, calculate_growth_rate empty_example "GDP" <> Raise (ValueError msg).
Proof.
  split; [reflexivity|]. split; [reflexivity|].
  intros msg H. vm_compute in H. discriminate H.
Qed.

(** C10, amended. [calculate_growth_rate] builds a growth list of
    max(1, n) elements for a table of n rows (labelled 0 .. n-1).  For
    n >= 1 the list has n elements and is attached as "Growth Rate (%)".
    For n = 0 the list is [[0]] and the assignment succeeds as well: the
    result has the single row 0, growth rate 0, and NaN in every other
    column. *)
Theorem calculate_growth_rate_list_length
        (df : DataFrame) (metric_column : string) (c : column) :
  index df = RangeIndex (len df) ->
  get_column df metric_column = Ok c ->
  col_len c = len df ->
  exists growth_rates,
    growth_rates_of df metric_column = Ok growth_rates /\
    length growth_rates = Nat.max 1 (len df) /\
    ((1 <= len df)%nat ->
     length growth_rates = len df /\
     calculate_growth_rate df metric_column
     = Ok (mkDataFrame (index df) (index_name df)
             (set_column "Growth Rate (%)" (column_of_list growth_rates)
                         (columns df)))) /\
    (len df = 0%nat ->
     growth_rates = [SInt 0] /\
     calculate_growth_rate df metric_column
     = Ok (mkDataFrame [0] (index_name df)
             (set_column "Growth Rate (%)" (IntCol [0])
                (map (fun kc => (fst kc, FloatCol [nan])) (columns df))))).
Proof.
  intros Hidx Hc Hlen.
  destruct (growth_rates_length df metric_column c Hidx Hc Hlen)
    as (g & Hg & Hgl).
  exists g. split; [exact Hg|]. split; [exact Hgl|]. split.
  - intros Hn. split; [lia|].
    unfold calculate_growth_rate. rewrite Hg. cbn [bind].
    unfold setitem_list. rewrite Hgl.
    destruct (len df) as [|k] eqn:E; [lia|].
    cbn [Nat.eqb andb Nat.max]. now rewrite Nat.eqb_refl.
  - intros Hn.
    rewrite growth_rates_of_empty in Hg by lia. injection Hg as <-.
    split; [reflexivity|].
    unfold calculate_growth_rate.
    rewrite growth_rates_of_empty by lia. cbn [bind].
    unfold setitem_list. rewrite Hn. reflexivity.
Qed.

(** C10 on the four-row sample and on the table without rows. *)
Lemma calculate_growth_rate_list_length_witness :
  (exists growth_rates,
      growth_rates_of spec_example "GDP" = Ok growth_rates /\
      length growth_rates = 4%nat /\
      calculate_growth_rate spec_example "GDP"
      = Ok (mkDataFrame (index spec_example) (index_name spec_example)
              (set_column "Growth Rate (%)" (column_of_list growth_rates)
                          (columns spec_example)))) /\
  calculate_growth_rate empty_example "GDP"
  = Ok (mkDataFrame [0] None
          (set_column "Growth Rate (%)" (IntCol [0])
             (map (fun kc => (fst kc, FloatCol [nan])) (columns empty_example)))).
Proof.
  split.
  - destruct (calculate_growth_rate_list_length spec_example "GDP"
                (FloatCol [100; 150; 0; 50]%float) eq_refl eq_refl eq_refl)
      as (g & Hg & _ & Hrows & _).
    exists g. split; [exact Hg|].
    destruct Hrows as [Hlen Hcalc]; [vm_compute; lia|].
    split; [exact Hlen | exact Hcalc].
  - destruct (calculate_growth_rate_list_length empty_example "GDP"
                (FloatCol []) eq_refl eq_refl eq_refl)
      as (g & _ & _ & _ & Hempty).
    destruct Hempty as [_ Hcalc]; [reflexivity | exact Hcalc].
Defined.

(** * Further properties of the program *)

(** ** Reading by label after the rows have moved *)

Lemma insert_by_perm {K} (le : K -> K -> bool) (x : K * nat)
      (l : list (K * nat)) :
  Permutation (insert_by le x l) (x :: l).
Proof.
  induction l as [|y l IH]; simpl; [reflexivity|].
  destruct (le (fst x) (fst y)); [reflexivity|].
  rewrite IH. apply perm_swap.
Qed.

Lemma sort_pairs_perm {K} (le : K -> K -> bool) (l : list (K * nat)) :
  Permutation (fold_right (insert_by le) [] l) l.
Proof.
  induction l as [|x l IH]; simpl; [reflexivity|].
  now rewrite insert_by_perm, IH.
Qed.

(** The row order of a sort is a rearrangement of the positions. *)
Lemma sort_perm_permutation {K} (le : K -> K -> bool) (keys : list K) :
  Permutation (sort_perm le keys) (seq 0 (length keys)).
Proof.
  unfold sort_perm. rewrite sort_pairs_perm.
  rewrite map_snd_combine by (now rewrite length_seq). reflexivity.
Qed.

Lemma argsort_permutation (c : column) :
  Permutation (argsort c) (seq 0 (col_len c)).
Proof. destruct c; simpl; apply sort_perm_permutation. Qed.

Lemma positions_absent (l : list nat) (s i : nat) :
  ~ In i l ->
  filter (fun pl : nat * Z => snd pl =? Z.of_nat i)
         (combine (seq s (length l)) (map Z.of_nat l)) = [].
Proof.
  revert s. induction l as [|x l IH]; intros s Hi; simpl; [reflexivity|].
  destruct (Z.eqb_spec (Z.of_nat x) (Z.of_nat i)) as [E|_].
  - exfalso. apply Hi. left. lia.
  - apply IH. intros H. apply Hi. now right.
Qed.

Lemma positions_unique (l : list nat) (s k i : nat) :
  NoDup l -> nth_error l k = Some i ->
  filter (fun pl : nat * Z => snd pl =? Z.of_nat i)
         (combine (seq s (length l)) (map Z.of_nat l))
  = [((s + k)%nat, Z.of_nat i)].
Proof.
  revert s k. induction l as [|x l IH]; intros s k Hnd Hk; [now destruct k|].
  inversion Hnd as [|? ? Hx Hnd']; subst. destruct k as [|k]; simpl in *.
  - injection Hk as ->. rewrite Z.eqb_refl, positions_absent by assumption.
    now rewrite Nat.add_0_r.
  - destruct (Z.eqb_spec (Z.of_nat x) (Z.of_nat i)) as [E|_].
    + exfalso. apply Hx. assert (x = i) by lia. subst.
      eapply nth_error_In; eassumption.
    + rewrite (IH (S s) k Hnd' Hk). now rewrite Nat.add_succ_r.
Qed.

Lemma index_take_rows (perm : list nat) (df : DataFrame) :
  index df = RangeIndex (len df) ->
  Permutation perm (seq 0 (len df)) ->
  index (take_rows perm df) = map Z.of_nat perm.
Proof.
  intros Hidx Hperm. unfold take_rows. cbn [index]. apply map_ext_in.
  intros p Hp. apply (Permutation_in _ Hperm) in Hp. apply in_seq in Hp.
  rewrite Hidx. unfold RangeIndex.
  rewrite (nth_indep _ 0 (Z.of_nat 0)) by (rewrite length_map, length_seq; lia).
  rewrite map_nth, seq_nth by lia. reflexivity.
Qed.

Lemma col_nth_take (perm : list nat) (c : column) (k i : nat) :
  nth_error perm k = Some i -> (i < col_len c)%nat ->
  col_nth (col_take perm c) k = col_nth c i.
Proof.
  intros Hk Hi. destruct c as [l|l]; cbn [col_take col_nth col_len] in *;
    rewrite nth_error_map, Hk; cbn [option_map].
  - now rewrite (nth_error_nth' l 0 Hi).
  - now rewrite (nth_error_nth' l nan Hi).
Qed.

(** [df.loc] finds a row by its label wherever the row has moved to. *)
Lemma loc_take_rows (perm : list nat) (df : DataFrame) (m : string) (i : nat) :
  index df = RangeIndex (len df) ->
  wf df ->
  Permutation perm (seq 0 (len df)) ->
  (i < len df)%nat ->
  loc (take_rows perm df) (Z.of_nat i) m = loc df (Z.of_nat i) m.
Proof.
  intros Hidx Hwf Hperm Hi. unfold loc, get_column.
  rewrite find_columns_take_rows.
  destruct (find_columns df m) as [|c [|c' l]] eqn:Ec; cbn [map bind];
    try reflexivity.
  pose proof (wf_get_column df m c Hwf Ec) as Hlen.
  rewrite (index_take_rows perm df Hidx Hperm).
  rewrite Hidx, positions_RangeIndex by assumption.
  assert (Hin : In i perm).
  { apply (Permutation_in _ (Permutation_sym Hperm)). apply in_seq. lia. }
  apply In_nth_error in Hin. destruct Hin as (k & Hk).
  assert (Hnd : NoDup perm).
  { apply (Permutation_NoDup (Permutation_sym Hperm)). apply seq_NoDup. }
  unfold positions. rewrite length_map.
  rewrite (positions_unique perm 0 k i Hnd Hk). cbn [map fst Nat.add].
  rewrite (col_nth_take perm c k i Hk) by lia. reflexivity.
Qed.

Lemma fold_left_ext_in {A B} (f g : A -> B -> A) (l : list B) (a : A) :
  (forall x acc, In x l -> f acc x = g acc x) ->
  fold_left f l a = fold_left g l a.
Proof.
  revert a. induction l as [|x l IH]; intros a H; simpl; [reflexivity|].
  rewrite (H x a) by now left. apply IH. intros y acc Hy. apply H. now right.
Qed.

Lemma growth_rates_of_take_rows (perm : list nat) (df : DataFrame) (m : string) :
  index df = RangeIndex (len df) ->
  wf df ->
  Permutation perm (seq 0 (len df)) ->
  growth_rates_of (take_rows perm df) m = growth_rates_of df m.
Proof.
  intros Hidx Hwf Hperm. unfold growth_rates_of.
  assert (Hlen : len (take_rows perm df) = len df).
  { rewrite len_take_rows, (Permutation_length Hperm). apply length_seq. }
  rewrite Hlen. apply fold_left_ext_in. intros i acc Hi.
  unfold py_range in Hi. apply in_seq in Hi.
  replace (Z.of_nat i - 1) with (Z.of_nat (i - 1)) by lia.
  rewrite !(loc_take_rows perm df m) by (assumption || lia). reflexivity.
Qed.

(** X1. On a table with the default row labels, sorting the rows before
    [calculate_growth_rate] changes nothing in the growth list: the loop
    reads the rows by label, and every row keeps its label through the
    sort. *)
Theorem sort_values_keeps_growth_rates
        (df : DataFrame) (key : column) (metric_column : string) :
  index df = RangeIndex (len df) ->
  wf df ->
  col_len key = len df ->
  growth_rates_of (sort_values df key) metric_column
  = growth_rates_of df metric_column.
Proof.
  intros Hidx Hwf Hkey. unfold sort_values.
  apply growth_rates_of_take_rows; try assumption.
  rewrite <- Hkey. apply argsort_permutation.
Qed.

Lemma sort_values_keeps_growth_rates_witness :
  growth_rates_of
    (sort_values descending_example (IntCol [2002; 2001; 2000])) "GDP"
  = growth_rates_of descending_example "GDP".
Proof.
  apply (sort_values_keeps_growth_rates descending_example
           (IntCol [2002; 2001; 2000]) "GDP").
  - reflexivity.
  - repeat constructor.
  - reflexivity.
Defined.

(** ** The frames of a run of the normaliser *)

Lemma col_take_seq (c : column) : col_take (seq 0 (col_len c)) c = c.
Proof.
  assert (H : forall A (l : list A) (d : A),
             map (fun p => nth p l d) (seq 0 (length l)) = l).
  { intros A l d. apply nth_ext with (d := d) (d' := d).
    - now rewrite length_map, length_seq.
    - intros n Hn. rewrite length_map, length_seq in Hn.
      rewrite (nth_indep _ d (nth 0 l d)) by (now rewrite length_map, length_seq).
      rewrite (map_nth (fun p => nth p l d) (seq 0 (length l)) 0%nat n).
      now rewrite seq_nth. }
  destruct c as [l|l]; cbn [col_take col_len]; now rewrite H.
Qed.

Lemma take_rows_seq (df : DataFrame) :
  wf df -> take_rows (seq 0 (len df)) df = df.
Proof.
  intros Hwf. destruct df as [idx iname cols]. unfold take_rows, wf, len in *.
  cbn [index index_name columns] in *. f_equal.
  - apply nth_ext with (d := 0) (d' := 0).
    + now rewrite length_map, length_seq.
    + intros n Hn. rewrite length_map, length_seq in Hn.
      rewrite (nth_indep _ 0 (nth 0 idx 0)) by (now rewrite length_map, length_seq).
      rewrite (map_nth (fun p => nth p idx 0) (seq 0 (length idx)) 0%nat n).
      now rewrite seq_nth.
  - induction cols as [|[k c] cols IH]; [reflexivity|].
    inversion Hwf as [|? ? Hc Hrest]; subst. cbn [map fst snd] in *.
    rewrite <- Hc at 1. rewrite col_take_seq. f_equal. now apply IH.
Qed.

Lemma row_order_permutation (year : column) (first last : scalar) :
  Permutation (row_order year first last) (seq 0 (col_len year)).
Proof.
  unfold row_order. destruct (scalar_gtb first last);
    [apply argsort_permutation | reflexivity].
Qed.

(** A run that returns went through these steps: [d0] after [reset_index],
    the year column [year] of the renamed frame, its two ends, the growth
    list [g] of the renamed frame, and the rows taken in [row_order]. *)
Lemma run_frames (df df1 : DataFrame)
      (rename_dict : option (list (string * string)))
      (host_year : Z) (metric_column : string) :
  wf df ->
  index_rename_and_calculate_growth_rate df rename_dict host_year metric_column
  = Ok df1 ->
  exists d0 year first last g,
    reset_index df = Ok d0 /\
    find_columns (renamed rename_dict d0) "Year" = [year] /\
    iloc_first year = Ok first /\ iloc_last year = Ok last /\
    col_len year = len df /\ (1 <= len df)%nat /\
    wf (renamed rename_dict d0) /\
    index (renamed rename_dict d0) = RangeIndex (len df) /\
    growth_rates_of (renamed rename_dict d0) metric_column = Ok g /\
    length g = len df /\
    df1 = setitem_series
            (mkDataFrame
               (index (take_rows (row_order year first last)
                                 (renamed rename_dict d0)))
               None
               (set_column "Growth Rate (%)" (column_of_list g)
                  (columns (take_rows (row_order year first last)
                                      (renamed rename_dict d0)))))
            "Relative Year"
            (series_sub (col_take (row_order year first last) year) host_year).
Proof.
  intros Hwf H. unfold index_rename_and_calculate_growth_rate in H.
  destruct (reset_index df) as [d0|e] eqn:E0; [|discriminate H].
  destruct (wf_reset_index df d0 Hwf E0) as (Hwf0 & Hlen0 & Hname0 & Hidx0).
  cbn [bind] in H. fold (renamed rename_dict d0) in H.
  set (d2 := renamed rename_dict d0) in *.
  assert (Hwf2 : wf d2) by (unfold d2, renamed; now repeat apply wf_map_columns).
  assert (Hlen2 : len d2 = len df) by exact Hlen0.
  assert (Hidx2 : index d2 = RangeIndex (len d2)) by exact Hidx0.
  assert (Hname2 : index_name d2 = None) by exact Hname0.
  destruct (get_column d2 "Year") as [year|e] eqn:Ey; [|discriminate H].
  apply get_column_find in Ey. cbn [bind] in H.
  destruct (iloc_first year) as [first|e] eqn:Ef; [|discriminate H].
  destruct (iloc_last year) as [last|e] eqn:El; [|discriminate H].
  cbn [bind] in H.
  pose proof (wf_get_column d2 "Year" year Hwf2 Ey) as Hly.
  pose proof (iloc_first_rows year first Ef) as Hrows.
  assert (Hd3 : (if scalar_gtb first last then sort_values d2 year else d2)
                = take_rows (row_order year first last) d2).
  { unfold row_order, sort_values. destruct (scalar_gtb first last);
      [reflexivity|]. rewrite Hly. symmetry. now apply take_rows_seq. }
  rewrite Hd3 in H.
  set (d3 := take_rows (row_order year first last) d2) in *.
  assert (Hperm : Permutation (row_order year first last) (seq 0 (len d2))).
  { rewrite <- Hly. apply row_order_permutation. }
  assert (Hlen3 : len d3 = len d2).
  { unfold d3. rewrite len_take_rows, (Permutation_length Hperm).
    apply length_seq. }
  destruct (calculate_growth_rate d3 metric_column) as [d4|e] eqn:E4;
    [|discriminate H].
  cbn [bind] in H.
  destruct (calculate_growth_rate_rows d3 d4 metric_column) as (g & Hg & Hgl & ->);
    [lia | exact E4 |].
  assert (Hy3 : find_columns d3 "Year"
                = [col_take (row_order year first last) year]).
  { unfold d3. now rewrite find_columns_take_rows, Ey. }
  assert (Hy4 : find_columns
                  (mkDataFrame (index d3) (index_name d3)
                     (set_column "Growth Rate (%)" (column_of_list g) (columns d3)))
                  "Year" = [col_take (row_order year first last) year]).
  { rewrite find_columns_set_other by discriminate. exact Hy3. }
  apply get_column_unique in Hy4. rewrite Hy4 in H. cbn [bind] in H.
  injection H as <-.
  assert (Hname3 : index_name d3 = None) by exact Hname2.
  exists d0, year, first, last, g.
  split; [reflexivity|]. split; [exact Ey|]. split; [exact Ef|].
  split; [exact El|]. split; [lia|]. split; [lia|]. split; [exact Hwf2|].
  split; [now rewrite <- Hlen2|]. split.
  - rewrite <- Hg. symmetry. unfold d3.
    now apply growth_rates_of_take_rows.
  - split; [lia|]. unfold setitem_series. cbn [index index_name columns].
    now rewrite Hname0.
Qed.

(** ** What the normaliser returns *)

Lemma set_column_has (name : string) (c : column)
      (cols : list (string * column)) :
  In name (map fst (set_column name c cols)).
Proof.
  unfold set_column.
  destruct (existsb (fun kc => String.eqb (fst kc) name) cols) eqn:E.
  - apply existsb_exists in E. destruct E as (kc & Hin & Hk).
    apply String.eqb_eq in Hk. apply in_map_iff.
    exists (fst kc, c). split; [exact Hk|]. apply in_map_iff.
    exists kc. split; [|exact Hin]. rewrite <- Hk. now rewrite String.eqb_refl.
  - rewrite map_app. apply in_or_app. right. now left.
Qed.

Lemma set_column_keeps (name k : string) (c : column)
      (cols : list (string * column)) :
  In k (map fst cols) -> In k (map fst (set_column name c cols)).
Proof.
  intros H. unfold set_column. destruct (existsb _ cols).
  - rewrite map_map. apply in_map_iff in H. destruct H as (kc & <- & Hin).
    apply in_map_iff. exists kc. split; [|exact Hin].
    now destruct (String.eqb (fst kc) name).
  - rewrite map_app. apply in_or_app. now left.
Qed.

Lemma find_columns_in (df : DataFrame) (name : string) (c : column) :
  find_columns df name = [c] -> In name (column_names df).
Proof.
  intros H. destruct (has_column df name) eqn:E.
  - unfold has_column in E. apply existsb_exists in E.
    destruct E as (k & Hin & Hk). apply String.eqb_eq in Hk. now subst.
  - rewrite (find_columns_absent df name E) in H. discriminate H.
Qed.

(** X2. The growth rates a run attaches are those of the rows in the order
    of the table as given: entry i is computed from rows i-1 and i of the
    renamed input, also when the run sorts the rows by year. *)
Theorem growth_rates_follow_input_order
        (df d0 df1 : DataFrame)
        (rename_dict : option (list (string * string)))
        (host_year : Z) (metric_column : string) (c growth : column) :
  wf df ->
  reset_index df = Ok d0 ->
  index_rename_and_calculate_growth_rate df rename_dict host_year metric_column
  = Ok df1 ->
  get_column (renamed rename_dict d0) metric_column = Ok c ->
  get_column df1 "Growth Rate (%)" = Ok growth ->
  growth = column_of_list
             (SInt 0 :: map (fun i => growth_step (cell c (i - 1)) (cell c i))
                            (py_range 1 (len df))).
Proof.
  intros Hwf Hreset Hrun Hc Hgrowth.
  destruct (run_frames df df1 rename_dict host_year metric_column Hwf Hrun)
    as (d0' & year & first & last & g & E0 & _ & _ & _ & _ & _ & Hwf2 & Hidx2
        & Hg & _ & Hdf1).
  rewrite Hreset in E0. injection E0 as <-.
  assert (Hlen2 : len (renamed rename_dict d0) = len df).
  { unfold len at 1. rewrite Hidx2. apply RangeIndex_length. }
  rewrite (growth_rates_of_default_index (renamed rename_dict d0)
             metric_column c) in Hg.
  - injection Hg as <-.
    apply get_column_find in Hgrowth. rewrite Hdf1 in Hgrowth.
    unfold setitem_series in Hgrowth. cbn [index index_name columns] in Hgrowth.
    rewrite find_columns_set_other in Hgrowth by discriminate.
    apply find_columns_set_same_unique in Hgrowth. now rewrite Hlen2 in Hgrowth.
  - now rewrite Hlen2.
  - exact Hc.
  - apply wf_get_column with (name := metric_column); [exact Hwf2|].
    now apply get_column_find.
Qed.

(** On the descending sample the rates attached are those of 400, 200, 100
    read downwards. *)
Lemma growth_rates_follow_input_order_witness :
  FloatCol [0; -50; -50]%float
  = column_of_list
      (SInt 0 :: map (fun i => growth_step
                                 (cell (FloatCol [400; 200; 100]%float) (i - 1))
                                 (cell (FloatCol [400; 200; 100]%float) i))
                     (py_range 1 (len descending_example))).
Proof.
  eapply (growth_rates_follow_input_order descending_example _ _ None 2000 "GDP").
  - repeat constructor.
  - reflexivity.
  - reflexivity.
  - reflexivity.
  - reflexivity.
Defined.

(** Two ascending lists with the same elements are the same list. *)
Lemma sorted_permutation_unique (l1 l2 : list Z) :
  StronglySorted Z.le l1 -> StronglySorted Z.le l2 -> Permutation l1 l2 ->
  l1 = l2.
Proof.
  intros H1. revert l2. induction H1 as [|a l1 Hs1 IH Ha]; intros l2 H2 Hp.
  - apply Permutation_nil in Hp. now subst.
  - destruct l2 as [|b l2];
      [apply Permutation_sym, Permutation_nil in Hp; discriminate Hp|].
    apply StronglySorted_inv in H2. destruct H2 as [Hs2 Hb].
    rewrite Forall_forall in Ha, Hb.
    assert (Hab : a = b).
    { assert (Hina : In a (b :: l2))
        by (apply (Permutation_in _ Hp); now left).
      assert (Hinb : In b (a :: l1))
        by (apply (Permutation_in _ (Permutation_sym Hp)); now left).
      destruct Hina as [E|Hina]; [now symmetry|].
      destruct Hinb as [E|Hinb]; [exact E|].
      specialize (Ha _ Hinb). specialize (Hb _ Hina). lia. }
    subst b. f_equal. apply IH; [exact Hs2|].
    now apply Permutation_cons_inv in Hp.
Qed.

Lemma map_injective_in {A B} (f : A -> B) (l1 l2 : list A) :
  (forall x y, In x l1 -> In y l2 -> f x = f y -> x = y) ->
  map f l1 = map f l2 -> l1 = l2.
Proof.
  revert l2. induction l1 as [|x l1 IH]; intros [|y l2] Hinj H;
    try discriminate H; [reflexivity|].
  cbn [map] in H. injection H as Hxy Hrest. f_equal.
  - apply Hinj; [now left | now left | exact Hxy].
  - apply IH; [|exact Hrest].
    intros x' y' Hx' Hy'. apply Hinj; now right.
Qed.

(** With distinct keys one order only of the rows makes the keys ascend. *)
Lemma sorting_order_unique (ys : list Z) (n : nat) (perm order : list nat) :
  NoDup ys -> length ys = n ->
  Permutation order (seq 0 n) ->
  StronglySorted Z.le (map (fun p => nth p ys 0) order) ->
  Permutation perm (seq 0 n) ->
  StronglySorted Z.le (map (fun p => nth p ys 0) perm) ->
  perm = order.
Proof.
  intros Hnd Hlen Ho Hso Hp Hsp.
  apply (map_injective_in (fun p => nth p ys 0)).
  - intros x y Hx Hy E.
    apply (Permutation_in _ Hp) in Hx. apply (Permutation_in _ Ho) in Hy.
    apply in_seq in Hx. apply in_seq in Hy.
    apply (proj1 (NoDup_nth ys 0) Hnd); [lia | lia | exact E].
  - apply sorted_permutation_unique; try assumption.
    apply Permutation_map.
    now rewrite Hp, Ho.
Qed.

(** X3. When the years are distinct integers, a run leaves the rows in
    [row_order]: the ascending order of the years when the first year is
    greater than the last, the given order otherwise.  Every row moves as
    a whole and keeps its label; after a sort the years ascend, and no
    other order of the rows makes them ascend. *)
Theorem normaliser_moves_whole_rows
        (df d0 df1 : DataFrame)
        (rename_dict : option (list (string * string)))
        (host_year : Z) (metric_column : string)
        (ys : list Z) (first last : scalar) :
  wf df ->
  reset_index df = Ok d0 ->
  index_rename_and_calculate_growth_rate df rename_dict host_year metric_column
  = Ok df1 ->
  get_column (renamed rename_dict d0) "Year" = Ok (IntCol ys) ->
  NoDup ys ->
  iloc_first (IntCol ys) = Ok first ->
  iloc_last (IntCol ys) = Ok last ->
  let order := row_order (IntCol ys) first last in
  Permutation order (seq 0 (len df)) /\
  index df1 = map Z.of_nat order /\
  (forall name c, name <> "Growth Rate (%)" -> name <> "Relative Year" ->
                  find_columns (renamed rename_dict d0) name = [c] ->
                  find_columns df1 name = [col_take order c]) /\
  (scalar_gtb first last = false -> order = seq 0 (len df)) /\
  (scalar_gtb first last = true ->
   StronglySorted Z.le (map (fun p => nth p ys 0) order) /\
   forall perm,
     Permutation perm (seq 0 (len df)) ->
     StronglySorted Z.le (map (fun p => nth p ys 0) perm) ->
     perm = order).
Proof.
  intros Hwf Hreset Hrun Hyear Hnd Hfirst Hlast order.
  destruct (run_frames df df1 rename_dict host_year metric_column Hwf Hrun)
    as (d0' & year' & first' & last' & g & E0 & Ey & Ef & El & Hly & _ & Hwf2
        & Hidx2 & _ & _ & Hdf1).
  rewrite Hreset in E0. injection E0 as <-.
  apply get_column_find in Hyear. rewrite Hyear in Ey. injection Ey as <-.
  rewrite Hfirst in Ef. injection Ef as <-.
  rewrite Hlast in El. injection El as <-.
  fold order in Hdf1.
  assert (Hlen2 : len (renamed rename_dict d0) = len df).
  { unfold len at 1. rewrite Hidx2. apply RangeIndex_length. }
  assert (Hperm : Permutation order (seq 0 (len df))).
  { rewrite <- Hly. apply row_order_permutation. }
  split; [exact Hperm|]. split; [|split; [|split]].
  - rewrite Hdf1. unfold setitem_series. cbn [index].
    apply index_take_rows; now rewrite Hlen2.
  - intros name c Hn1 Hn2 Hc. rewrite Hdf1. unfold setitem_series.
    cbn [index index_name columns].
    rewrite !find_columns_set_other by assumption.
    rewrite (find_columns_indep _ (index (take_rows order (renamed rename_dict d0)))
               _ (index_name (take_rows order (renamed rename_dict d0)))).
    change (find_columns (take_rows order (renamed rename_dict d0)) name
            = [col_take order c]).
    now rewrite find_columns_take_rows, Hc.
  - intros Hgt. unfold order, row_order. now rewrite Hgt, Hly.
  - intros Hgt.
    assert (Hsorted : StronglySorted Z.le (map (fun p => nth p ys 0) order)).
    { unfold order, row_order. rewrite Hgt. apply sorted_keys_sorted. }
    split; [exact Hsorted|]. intros perm Hp Hs.
    cbn [col_len] in Hly.
    apply (sorting_order_unique ys (len df)); assumption.
Qed.

Lemma normaliser_moves_whole_rows_witness :
  exists df1,
    index_rename_and_calculate_growth_rate descending_example None 2000 "GDP"
    = Ok df1 /\
    index df1 = [2; 1; 0] /\
    find_columns df1 "GDP" = [FloatCol [100; 200; 400]%float] /\
    StronglySorted Z.le [2000; 2001; 2002].
Proof.
  eexists. split; [reflexivity|].
  destruct (normaliser_moves_whole_rows
              descending_example
              (mkDataFrame [0; 1; 2] None
                 [("index", IntCol [0; 1; 2]);
                  ("Year", IntCol [2002; 2001; 2000]);
                  ("GDP", FloatCol [400; 200; 100]%float)])
              (mkDataFrame [2; 1; 0] None
                 [("index", IntCol [2; 1; 0]);
                  ("Year", IntCol [2000; 2001; 2002]);
                  ("GDP", FloatCol [100; 200; 400]%float);
                  ("Growth Rate (%)", FloatCol [0; -50; -50]%float);
                  ("Relative Year", IntCol [0; 1; 2])])
              None 2000 "GDP"
              [2002; 2001; 2000] (SInt 2002) (SInt 2000))
    as (_ & Hidx & Hcols & _ & Hsorted).
  - repeat constructor.
  - reflexivity.
  - reflexivity.
  - reflexivity.
  - repeat (constructor;
            [simpl; intros H;
             repeat (destruct H as [H|H]; [discriminate H|]); exact H|]).
    constructor.
  - reflexivity.
  - reflexivity.
  - split; [exact Hidx|]. split.
    + apply (Hcols "GDP" (FloatCol [400; 200; 100]%float));
        [discriminate | discriminate | reflexivity].
    + apply (proj1 (Hsorted eq_refl)).
Defined.

(** X4. A run that returns keeps the number of rows, which is at least
    one, returns a well-formed frame with an unnamed index, and the frame
    has the columns "Year", "Growth Rate (%)" and "Relative Year". *)
Theorem normaliser_output_shape
        (df df1 : DataFrame)
        (rename_dict : option (list (string * string)))
        (host_year : Z) (metric_column : string) :
  wf df ->
  index_rename_and_calculate_growth_rate df rename_dict host_year metric_column
  = Ok df1 ->
  wf df1 /\ len df1 = len df /\ (1 <= len df)%nat /\
  index_name df1 = None /\
  has_column df1 "Year" = true /\
  has_column df1 "Growth Rate (%)" = true /\
  has_column df1 "Relative Year" = true.
Proof.
  intros Hwf Hrun.
  destruct (run_frames df df1 rename_dict host_year metric_column Hwf Hrun)
    as (d0 & year & first & last & g & _ & Ey & _ & _ & Hly & Hrows & Hwf2
        & Hidx2 & _ & Hgl & Hdf1).
  set (order := row_order year first last) in *.
  set (d3 := take_rows order (renamed rename_dict d0)) in *.
  assert (Hperm : Permutation order (seq 0 (len df))).
  { rewrite <- Hly. apply row_order_permutation. }
  assert (Hlen3 : len d3 = len df).
  { unfold d3. rewrite len_take_rows, (Permutation_length Hperm).
    apply length_seq. }
  assert (Hlen1 : len df1 = len df) by (rewrite Hdf1; exact Hlen3).
  assert (Hy3 : find_columns d3 "Year" = [col_take order year]).
  { unfold d3. now rewrite find_columns_take_rows, Ey. }
  split; [|split; [exact Hlen1|split; [exact Hrows|split; [now rewrite Hdf1|]]]].
  - unfold wf. rewrite Hlen1, Hdf1. unfold setitem_series. cbn [columns].
    apply Forall_set_column.
    + apply Forall_set_column.
      * pose proof (wf_take_rows order (renamed rename_dict d0)) as H3.
        fold d3 in H3. unfold wf in H3. now rewrite Hlen3 in H3.
      * intros k. cbn [snd]. now rewrite col_len_column_of_list.
    + intros k. cbn [snd]. rewrite col_len_series_sub, col_len_take.
      rewrite (Permutation_length Hperm). apply length_seq.
  - rewrite Hdf1. unfold setitem_series.
    repeat split; apply has_column_present; unfold column_names;
      cbn [columns].
    + do 2 apply set_column_keeps. now apply (find_columns_in d3 _ _ Hy3).
    + apply set_column_keeps, set_column_has.
    + apply set_column_has.
Qed.

Lemma normaliser_output_shape_witness :
  exists df1,
    index_rename_and_calculate_growth_rate descending_example None 2000 "GDP"
    = Ok df1 /\
    wf df1 /\ len df1 = 3%nat /\ has_column df1 "Relative Year" = true.
Proof.
  eexists. split; [reflexivity|].
  destruct (normaliser_output_shape
              descending_example
              (mkDataFrame [2; 1; 0] None
                 [("index", IntCol [2; 1; 0]);
                  ("Year", IntCol [2000; 2001; 2002]);
                  ("GDP", FloatCol [100; 200; 400]%float);
                  ("Growth Rate (%)", FloatCol [0; -50; -50]%float);
                  ("Relative Year", IntCol [0; 1; 2])])
              None 2000 "GDP")
    as (Hwf & Hlen & _ & _ & _ & _ & Hry).
  - repeat constructor.
  - reflexivity.
  - split; [exact Hwf|]. split; [exact Hlen | exact Hry].
Defined.

(** ** When the metric column is read *)

Lemma fold_bind_raise {A B} (f : A -> B -> result A) (l : list B) (e : exn) :
  fold_left (fun acc x => a <- acc ;; f a x) l (Raise e) = Raise e.
Proof. induction l as [|x l IH]; simpl; [reflexivity | exact IH]. Qed.

Lemma growth_rates_of_missing_column (df : DataFrame) (m : string) :
  (2 <= len df)%nat -> find_columns df m = [] ->
  growth_rates_of df m = Raise (KeyError m).
Proof.
  intros Hlen Hm. unfold growth_rates_of, py_range.
  destruct (len df - 1)%nat as [|n] eqn:E; [lia|].
  cbn [seq fold_left bind].
  rewrite (loc_raise df (Z.of_nat 1 - 1) m (KeyError m))
    by (unfold get_column; now rewrite Hm).
  cbn [bind]. apply growth_loop_raise.
Qed.

(** X5. [calculate_growth_rate] looks the metric column up only inside its
    loop: on a one-row table it returns the growth rate 0 whatever
    [metric_column] names, and from two rows on, on a table with the
    default row labels, a name that no column carries raises [KeyError]
    for that name. *)
Theorem metric_column_read_from_two_rows
        (df : DataFrame) (metric_column : string) :
  find_columns df metric_column = [] ->
  ((len df = 1)%nat ->
   calculate_growth_rate df metric_column
   = Ok (mkDataFrame (index df) (index_name df)
           (set_column "Growth Rate (%)" (IntCol [0]) (columns df)))) /\
  ((2 <= len df)%nat ->
   index df = RangeIndex (len df) ->
   calculate_growth_rate df metric_column = Raise (KeyError metric_column)).
Proof.
  intros Hm. split; [intros Hlen | intros Hlen _]; unfold calculate_growth_rate.
  - rewrite growth_rates_of_empty by lia. cbn [bind].
    unfold setitem_list. rewrite Hlen. reflexivity.
  - now rewrite growth_rates_of_missing_column.
Qed.

Lemma metric_column_read_from_two_rows_witness :
  calculate_growth_rate one_row_example "GDP"
  = Ok (mkDataFrame [0] None
          [("Year", IntCol [2000]); ("Growth Rate (%)", IntCol [0])]) /\
  calculate_growth_rate two_rows_no_metric "GDP" = Raise (KeyError "GDP").
Proof.
  split.
  - apply (proj1 (metric_column_read_from_two_rows one_row_example "GDP"
                    eq_refl)).
    reflexivity.
  - apply (proj2 (metric_column_read_from_two_rows two_rows_no_metric "GDP"
                    eq_refl)).
    + vm_compute. lia.
    + reflexivity.
Defined.

(** ** A table that lacks a column stops the merge *)

Lemma select_and_rename_missing (df : DataFrame) (m tag : string) :
  has_column df "Relative Year" = false \/ has_column df m = false ->
  exists e, select_and_rename df m tag = Raise e.
Proof.
  intros H. unfold select_and_rename, getitem_list. cbn [select_columns].
  destruct (filter (fun kc => String.eqb (fst kc) "Relative Year") (columns df))
    as [|kc l] eqn:Ery; [now eexists|].
  destruct H as [H|H].
  - apply find_columns_absent in H. unfold find_columns in H.
    rewrite Ery in H. discriminate H.
  - apply find_columns_absent in H. unfold find_columns in H.
    apply map_eq_nil in H. rewrite H. cbn [bind]. now eexists.
Qed.

Lemma merge_metric_missing (M : DataFrame) (item : string * country_data) :
  has_column (AUS (snd item)) "Relative Year" = false \/
  has_column (AUS (snd item)) (fst item) = false \/
  has_column (CHI (snd item)) "Relative Year" = false \/
  has_column (CHI (snd item)) (fst item) = false ->
  exists e, merge_metric M item = Raise e.
Proof.
  intros H. unfold merge_metric.
  destruct (select_and_rename (AUS (snd item)) (fst item) "_AUS")
    as [aus|e] eqn:Ea; [|now exists e].
  cbn [bind].
  destruct (select_and_rename_missing (CHI (snd item)) (fst item) "_CHI")
    as (e & ->); [|now exists e].
  destruct H as [H|[H|H]]; [| |exact H].
  - destruct (select_and_rename_missing (AUS (snd item)) (fst item) "_AUS")
      as (e & He); [now left | congruence].
  - destruct (select_and_rename_missing (AUS (snd item)) (fst item) "_AUS")
      as (e & He); [now right | congruence].
Qed.

(** X6. A metric whose AUS or CHI table lacks the "Relative Year" column or
    the metric's own column is fatal to the whole merge:
    [load_and_merge_data] raises, whatever the other metrics are and
    wherever the metric stands in the dictionary. *)
Theorem load_and_merge_data_missing_column
        (cleaned_data_dict : list (string * country_data))
        (item : string * country_data) :
  In item cleaned_data_dict ->
  has_column (AUS (snd item)) "Relative Year" = false \/
  has_column (AUS (snd item)) (fst item) = false \/
  has_column (CHI (snd item)) "Relative Year" = false \/
  has_column (CHI (snd item)) (fst item) = false ->
  exists e, load_and_merge_data cleaned_data_dict = Raise e.
Proof.
  intros Hin Hmiss. unfold load_and_merge_data.
  generalize (Ok empty_frame).
  induction cleaned_data_dict as [|item' l IH]; intros acc; [contradiction|].
  cbn [fold_left]. destruct Hin as [->|Hin]; [|now apply IH].
  destruct acc as [M|e]; cbn [bind].
  - destruct (merge_metric_missing M item Hmiss) as (e & ->).
    exists e. apply (fold_bind_raise merge_metric).
  - exists e. apply (fold_bind_raise merge_metric).
Qed.

Lemma load_and_merge_data_missing_column_witness :
  exists e, load_and_merge_data cleaned_missing_column = Raise e.
Proof.
  apply (load_and_merge_data_missing_column cleaned_missing_column
           ("FDI", mkCountryData (metric_table "FDI" [0; 5] [7; 8]%float)
                                 (metric_table "Inflow" [-1; 0] [4; 5]%float))).
  - right. now left.
  - do 3 right. reflexivity.
Defined.

(** ** The merge when no joined table repeats a key *)

Lemma matches_shift (k : scalar) (keys : list scalar) (s : nat) :
  map fst (filter (fun pk : nat * scalar => key_eqb k (snd pk))
                  (combine (seq (S s) (length keys)) keys))
  = map S (map fst (filter (fun pk : nat * scalar => key_eqb k (snd pk))
                           (combine (seq s (length keys)) keys))).
Proof.
  revert s. induction keys as [|x keys IH]; intros s; [reflexivity|].
  cbn [length seq combine filter snd].
  destruct (key_eqb k x); cbn [map fst]; now rewrite IH.
Qed.

Lemma matches_cons (k x : scalar) (keys : list scalar) :
  matches k (x :: keys)
  = (if key_eqb k x then [0%nat] else []) ++ map S (matches k keys).
Proof.
  unfold matches. cbn [length seq combine filter snd].
  destruct (key_eqb k x); cbn [map fst app]; now rewrite matches_shift.
Qed.

Lemma matches_absent (y : Z) (rk : list Z) :
  ~ In y rk -> matches (SInt y) (map SInt rk) = [].
Proof.
  induction rk as [|k rk IH]; intros H; [reflexivity|].
  cbn [map]. rewrite matches_cons. cbn [key_eqb].
  destruct (Z.eqb_spec y k) as [->|_]; [exfalso; apply H; now left|].
  rewrite IH; [reflexivity|]. intros Hin. apply H. now right.
Qed.

Lemma matches_unique_keys (y : Z) (rk : list Z) :
  NoDup rk ->
  matches (SInt y) (map SInt rk)
  = match key_position y rk with Some j => [j] | None => [] end.
Proof.
  induction 1 as [|k rk Hk _ IH]; [reflexivity|].
  cbn [map key_position]. rewrite matches_cons. cbn [key_eqb].
  destruct (Z.eqb_spec y k) as [->|_].
  - now rewrite matches_absent.
  - rewrite IH. now destruct (key_position y rk).
Qed.

Lemma join_rows_unique_keys (lk rk : list Z) :
  NoDup rk ->
  join_rows (map SInt lk) (map SInt rk)
  = combine (seq 0 (length lk)) (map (fun y => key_position y rk) lk).
Proof.
  intros Hnd. unfold join_rows. rewrite length_map. generalize 0%nat.
  induction lk as [|y lk IH]; intros s; [reflexivity|].
  cbn [length seq map combine flat_map fst snd].
  rewrite IH, matches_unique_keys by assumption.
  now destruct (key_position y rk).
Qed.

Lemma col_len_take_opt (idx : list (option nat)) (c : column) :
  col_len (col_take_opt idx c) = length idx.
Proof.
  destruct c as [l|l]; unfold col_take_opt;
    [destruct (forallb is_some idx)|]; cbn [col_len]; apply length_map.
Qed.

Lemma joined_unique_keys (L : DataFrame) (lk rk : list Z) (name : string)
      (c : column) :
  NoDup rk ->
  Forall (fun kc => col_len (snd kc) = length lk) (columns L) ->
  joined L lk rk name c
  = mkDataFrame (RangeIndex (length lk)) None
      (columns L
       ++ [(name, col_take_opt (map (fun y => key_position y rk) lk) c)]).
Proof.
  intros Hnd Hlen. unfold joined. rewrite join_rows_unique_keys by assumption.
  rewrite map_fst_combine, map_snd_combine
    by (now rewrite length_seq, length_map).
  rewrite length_combine, length_seq, length_map, Nat.min_id.
  f_equal. f_equal.
  rewrite <- (map_id (columns L)) at 2. apply map_ext_in.
  intros [k col] Hin. cbn [fst snd]. f_equal.
  rewrite Forall_forall in Hlen. rewrite <- (Hlen _ Hin). apply col_take_seq.
Qed.

Lemma find_columns_app (idx : list Z) (iname : option string)
      (cols cols' : list (string * column)) (name : string) :
  find_columns (mkDataFrame idx iname (cols ++ cols')) name
  = find_columns (mkDataFrame idx iname cols) name
    ++ find_columns (mkDataFrame idx iname cols') name.
Proof.
  unfold find_columns. cbn [columns]. now rewrite filter_app, map_app.
Qed.

Lemma find_columns_single_other (idx : list Z) (iname : option string)
      (k name : string) (c : column) :
  k <> name -> find_columns (mkDataFrame idx iname [(k, c)]) name = [].
Proof.
  intros H. unfold find_columns. cbn [columns filter fst].
  now destruct (String.eqb_spec k name).
Qed.

(** One metric joined to a merged table with the keys [ra], when neither
    of its tables repeats a key. *)
Lemma merge_metric_unique_keys (ra : list Z) (cols : list (string * column))
      (item : string * country_data) :
  let M := mkDataFrame (RangeIndex (length ra)) None cols in
  ra <> [] ->
  find_columns M "Relative Year" = [IntCol ra] ->
  Forall (fun kc => col_len (snd kc) = length ra) cols ->
  ~ In (fst item ++ "_AUS")%string (map fst cols) ->
  ~ In (fst item ++ "_CHI")%string (map fst cols) ->
  normalized (fst item) (AUS (snd item)) ->
  normalized (fst item) (CHI (snd item)) ->
  NoDup (relative_years (AUS (snd item))) ->
  NoDup (relative_years (CHI (snd item))) ->
  merge_metric M item
  = Ok (mkDataFrame (RangeIndex (length ra)) None
          (cols ++ [looked_up ra (AUS (snd item)) (fst item) "_AUS";
                    looked_up ra (CHI (snd item)) (fst item) "_CHI"])).
Proof.
  intros M Hne Hry Hlen HabsA HabsC
         ((ka & Hka & _) & (ca & Hca) & Hm) ((kc & Hkc & _) & (cc & Hcc) & _)
         HndA HndC.
  unfold looked_up, relative_years, the_column in *.
  rewrite Hka in HndA. rewrite Hkc in HndC. rewrite Hka, Hca, Hkc, Hcc.
  set (m := fst item) in *.
  set (colA := col_take_opt (map (fun y => key_position y ka) ra) ca).
  set (colC := col_take_opt (map (fun y => key_position y kc) ra) cc).
  unfold merge_metric. fold m.
  rewrite (select_and_rename_normalized _ m "_AUS" ka ca Hka Hca Hm).
  rewrite (select_and_rename_normalized _ m "_CHI" kc cc Hkc Hcc Hm).
  cbn [bind].
  assert (Hempty : empty M = false).
  { unfold empty, len, M. cbn [index columns]. rewrite RangeIndex_length.
    destruct ra; [contradiction|]. cbn [length Nat.eqb orb].
    destruct cols; [discriminate Hry | reflexivity]. }
  rewrite Hempty.
  rewrite (merge_left_joined M ra ka (m ++ "_AUS") ca); try assumption;
    [| apply AUS_name_not_key | now apply has_column_false].
  cbn [bind]. rewrite joined_unique_keys by assumption.
  cbn [columns]. fold colA.
  set (M1 := mkDataFrame (RangeIndex (length ra)) None
                         (cols ++ [((m ++ "_AUS")%string, colA)])).
  assert (Hry1 : find_columns M1 "Relative Year" = [IntCol ra]).
  { unfold M1. rewrite find_columns_app, find_columns_single_other.
    - rewrite app_nil_r. exact Hry.
    - apply AUS_name_not_key. }
  rewrite (merge_left_joined M1 ra kc (m ++ "_CHI") cc); try assumption;
    [| apply CHI_name_not_key |].
  - rewrite joined_unique_keys; try assumption.
    + unfold M1. cbn [columns]. fold colC. now rewrite <- app_assoc.
    + unfold M1. cbn [columns]. apply Forall_app. split; [assumption|].
      constructor; [|constructor]. cbn [snd]. unfold colA.
      now rewrite col_len_take_opt, length_map.
  - apply has_column_false. unfold column_names, M1. cbn [columns].
    rewrite map_app. intros Hin. apply in_app_or in Hin.
    destruct Hin as [Hin|[Hin|[]]]; [now apply HabsC|].
    now apply AUS_name_not_CHI_name in Hin.
Qed.

Lemma merge_metrics_unique_keys (ra : list Z)
      (rest : list (string * country_data)) :
  forall (cols : list (string * column)) (done : list (string * country_data)),
    ra <> [] ->
    find_columns (mkDataFrame (RangeIndex (length ra)) None cols)
                 "Relative Year" = [IntCol ra] ->
    Forall (fun kc => col_len (snd kc) = length ra) cols ->
    map fst cols = "Relative Year" :: flat_map metric_columns done ->
    NoDup (map fst (done ++ rest)) ->
    (forall item, In item rest ->
       normalized (fst item) (AUS (snd item)) /\
       normalized (fst item) (CHI (snd item)) /\
       NoDup (relative_years (AUS (snd item))) /\
       NoDup (relative_years (CHI (snd item)))) ->
    fold_left (fun acc item => merged_data <- acc ;; merge_metric merged_data item)
              rest (Ok (mkDataFrame (RangeIndex (length ra)) None cols))
    = Ok (mkDataFrame (RangeIndex (length ra)) None
            (cols ++ flat_map
                       (fun item =>
                          [looked_up ra (AUS (snd item)) (fst item) "_AUS";
                           looked_up ra (CHI (snd item)) (fst item) "_CHI"])
                       rest)).
Proof.
  induction rest as [|item rest IH]; intros cols done Hne Hry Hlen Hnames Hnd Hall.
  - cbn [fold_left flat_map]. now rewrite app_nil_r.
  - destruct (Hall item (or_introl eq_refl)) as (HnA & HnC & HdA & HdC).
    assert (Hfresh : ~ In (fst item) (map fst done)).
    { rewrite map_app in Hnd. apply NoDup_remove_2 in Hnd.
      intros Hin. apply Hnd. apply in_or_app. now left. }
    cbn [fold_left bind flat_map].
    rewrite merge_metric_unique_keys; try assumption.
    + rewrite (IH _ (done ++ [item])); try assumption.
      * now rewrite <- app_assoc.
      * rewrite find_columns_app.
        unfold find_columns at 2. cbn [columns filter fst looked_up].
        destruct (String.eqb_spec (fst item ++ "_AUS") "Relative Year") as [E|_];
          [now apply AUS_name_not_key in E|].
        destruct (String.eqb_spec (fst item ++ "_CHI") "Relative Year") as [E|_];
          [now apply CHI_name_not_key in E|].
        cbn [map]. rewrite app_nil_r. exact Hry.
      * apply Forall_app. split; [assumption|].
        unfold looked_up. constructor; [|constructor; [|constructor]];
          cbn [snd]; now rewrite col_len_take_opt, length_map.
      * rewrite map_app, Hnames, flat_map_app. reflexivity.
      * now rewrite <- app_assoc.
      * intros item' Hin. apply Hall. now right.
    + rewrite Hnames. apply metric_name_fresh; [now left | assumption].
    + rewrite Hnames. apply metric_name_fresh; [now right | assumption].
Qed.

(** X7. When the first metric's AUS table is well formed and no other
    table repeats a Relative Year, the merged table is the first AUS table
    row for row, in its order and with its repeated years if it has any,
    and every other table gives one column that holds, under each of those
    years, the value the table has for that year, or NaN when it has
    none. *)
Theorem load_and_merge_data_unique_keys
        (first : string * country_data)
        (rest : list (string * country_data)) :
  NoDup (map fst (first :: rest)) ->
  (forall item, In item (first :: rest) ->
                normalized (fst item) (AUS (snd item)) /\
                normalized (fst item) (CHI (snd item))) ->
  wf (AUS (snd first)) ->
  NoDup (relative_years (CHI (snd first))) ->
  (forall item, In item rest ->
                NoDup (relative_years (AUS (snd item))) /\
                NoDup (relative_years (CHI (snd item)))) ->
  load_and_merge_data (first :: rest) = Ok (merged_by_lookup first rest).
Proof.
  intros Hnd Hnorm Hwf HndC Hrest.
  destruct (Hnorm first (or_introl eq_refl))
    as (((ra & Hra & Hra_ne) & (ca & Hca) & Hne)
        & ((rc & Hrc & _) & (cc & Hcc) & _)).
  destruct (merge_metric_first first ra rc ca cc Hra Hra_ne Hca Hrc Hcc Hne)
    as (_ & Hfirst & _).
  assert (Hlen : col_len ca = length ra).
  { rewrite (wf_get_column _ _ _ Hwf Hca).
    now rewrite <- (wf_get_column _ _ _ Hwf Hra). }
  unfold load_and_merge_data. cbn [fold_left bind]. rewrite Hfirst.
  assert (HrcE : relative_years (CHI (snd first)) = rc)
    by (unfold relative_years; now rewrite Hrc).
  rewrite joined_unique_keys;
    [| now rewrite <- HrcE
     | cbn [columns]; constructor; [reflexivity | constructor; [exact Hlen | constructor]]].
  cbn [columns app].
  rewrite (merge_metrics_unique_keys ra rest _ [first]); try assumption.
  - unfold merged_by_lookup, looked_up, relative_years, the_column.
    rewrite Hra, Hca, Hrc, Hcc. reflexivity.
  - unfold find_columns. cbn [columns filter fst].
    rewrite String.eqb_refl.
    destruct (String.eqb_spec (fst first ++ "_AUS") "Relative Year") as [E|_];
      [now apply AUS_name_not_key in E|].
    destruct (String.eqb_spec (fst first ++ "_CHI") "Relative Year") as [E|_];
      [now apply CHI_name_not_key in E | reflexivity].
  - constructor; [reflexivity|]. constructor; [exact Hlen|].
    constructor; [|constructor]. cbn [snd].
    now rewrite col_len_take_opt, length_map.
  - cbn [map fst flat_map metric_columns app]. reflexivity.
  - intros item Hin.
    destruct (Hnorm item (or_intror Hin)) as [HA HC].
    destruct (Hrest item Hin) as [HdA HdC]. tauto.
Qed.

(** On the sample dictionary: GDP of CHI lacks the year -1, FDI of AUS
    covers only the year 0, FDI of CHI the years -1 and 0. *)
Lemma load_and_merge_data_unique_keys_witness :
  load_and_merge_data cleaned_example
  = Ok (mkDataFrame [0; 1; 2] None
          [("Relative Year", IntCol [-1; 0; 1]);
           ("GDP_AUS", FloatCol [1; 2; 3]%float);
           ("GDP_CHI", FloatCol [nan; 10; 20]%float);
           ("FDI_AUS", FloatCol [nan; 7; nan]%float);
           ("FDI_CHI", FloatCol [4; 5; nan]%float)]).
Proof.
  apply (load_and_merge_data_unique_keys
           ("GDP", mkCountryData (metric_table "GDP" [-1; 0; 1] [1; 2; 3]%float)
                                 (metric_table "GDP" [0; 1; 2] [10; 20; 30]%float))
           [("FDI", mkCountryData (metric_table "FDI" [0; 5] [7; 8]%float)
                                  (metric_table "FDI" [-1; 0] [4; 5]%float))]).
  - distinct_strings.
  - intros item [<-|[<-|[]]];
      (split;
       (split; [ eexists; split; [reflexivity | discriminate]
               | split; [eexists; reflexivity | discriminate] ])).
  - repeat constructor.
  - vm_compute. repeat constructor; simpl; intuition discriminate.
  - intros item [<-|[]]; split; vm_compute;
      repeat constructor; simpl; intuition discriminate.
Defined.

(** ** Loops that stop at the first exception *)

Lemma fold_bind_invariant {A B} (f : A -> B -> result A) (I : A -> Prop)
      (l : list B) :
  (forall a x a', In x l -> I a -> f a x = Ok a' -> I a') ->
  forall acc r,
    (forall a, acc = Ok a -> I a) ->
    fold_left (fun acc x => a <- acc ;; f a x) l acc = Ok r -> I r.
Proof.
  induction l as [|x l IH]; intros Hstep acc r Hacc Hr; cbn [fold_left] in Hr.
  - now apply Hacc.
  - apply (IH (fun a y a' H => Hstep a y a' (or_intror H)) _ r) in Hr;
      [exact Hr|].
    intros a' Ha'. destruct acc as [a|e]; [|discriminate Ha'].
    cbn [bind] in Ha'. apply (Hstep a x a'); [now left | now apply Hacc | exact Ha'].
Qed.

Lemma fold_bind_one_error {A B} (f : A -> B -> result A) (e : exn)
      (l : list B) :
  (forall a x, In x l -> (exists a', f a x = Ok a') \/ f a x = Raise e) ->
  forall acc,
    (exists a, acc = Ok a) \/ acc = Raise e ->
    (exists a, fold_left (fun acc x => a <- acc ;; f a x) l acc = Ok a) \/
    fold_left (fun acc x => a <- acc ;; f a x) l acc = Raise e.
Proof.
  induction l as [|x l IH]; intros Hstep acc Hacc; cbn [fold_left];
    [exact Hacc|].
  apply IH; [intros a y Hy; apply Hstep; now right|].
  destruct Hacc as [(a & ->)| ->]; cbn [bind]; [|now right].
  apply Hstep. now left.
Qed.

Lemma fold_bind_raises {A B} (f : A -> B -> result A) (e : exn)
      (l : list B) (x : B) :
  In x l ->
  (forall a, f a x = Raise e) ->
  (forall a y, In y l -> (exists a', f a y = Ok a') \/ f a y = Raise e) ->
  forall acc,
    (exists a, acc = Ok a) \/ acc = Raise e ->
    fold_left (fun acc x => a <- acc ;; f a x) l acc = Raise e.
Proof.
  induction l as [|y l IH]; intros Hin Hx Hstep acc Hacc; [contradiction|].
  cbn [fold_left]. destruct Hin as [->|Hin].
  - destruct Hacc as [(a & ->)| ->]; cbn [bind];
      [rewrite Hx|]; apply fold_bind_raise.
  - apply IH; try assumption; [intros a z Hz; apply Hstep; now right|].
    destruct Hacc as [(a & ->)| ->]; cbn [bind]; [|now right].
    apply Hstep. now left.
Qed.

(** ** The window and the stored matrices *)

Lemma keep_all {A} (mask : list bool) (l : list A) :
  Forall (fun b => b = true) mask -> length mask = length l ->
  keep mask l = l.
Proof.
  unfold keep. intros Hall. revert l.
  induction Hall as [|b mask Hb _ IH]; intros [|x l] Hlen; try discriminate;
    [reflexivity|].
  subst b. cbn [combine filter fst map snd]. f_equal. apply IH.
  simpl in Hlen. lia.
Qed.

Lemma col_keep_all (mask : list bool) (c : column) :
  Forall (fun b => b = true) mask -> length mask = col_len c ->
  col_keep mask c = c.
Proof.
  intros Hall Hlen. destruct c as [l|l]; cbn [col_keep col_len] in *;
    now rewrite keep_all.
Qed.

Lemma filter_rows_all (mask : list bool) (df : DataFrame) :
  wf df -> Forall (fun b => b = true) mask -> length mask = len df ->
  filter_rows mask df = df.
Proof.
  intros Hwf Hall Hlen. unfold filter_rows. destruct df as [idx iname cols].
  unfold wf, len in *. cbn [index index_name columns] in *.
  rewrite keep_all by assumption. f_equal.
  rewrite <- (map_id cols) at 2. apply map_ext_in. intros [k c] Hin.
  cbn [fst snd]. f_equal. rewrite Forall_forall in Hwf.
  apply col_keep_all; [assumption|]. rewrite Hlen. symmetry.
  exact (Hwf _ Hin).
Qed.

Lemma select_columns_shape (cols : list (string * column))
      (names : list string) (r : list (string * column)) :
  select_columns cols names = Ok r ->
  (length names <= length r)%nat /\
  Forall (fun kc => In (fst kc) names) r.
Proof.
  revert r. induction names as [|name names IH]; intros r H;
    cbn [select_columns] in H.
  - injection H as <-. split; [reflexivity | constructor].
  - destruct (filter (fun kc => String.eqb (fst kc) name) cols)
      as [|kc found] eqn:E; [discriminate H|].
    destruct (select_columns cols names) as [tl|e]; [|discriminate H].
    cbn [bind] in H. injection H as <-.
    destruct (IH tl eq_refl) as [Hlen Hall]. split.
    + cbn [app length]. rewrite length_app. lia.
    + change (Forall (fun kc0 => In (fst kc0) (name :: names))
                     ((kc :: found) ++ tl)).
      apply Forall_app. split.
      * apply Forall_forall. intros kc' Hin. left.
        rewrite <- E in Hin. apply filter_In in Hin.
        destruct Hin as [_ Hk]. apply String.eqb_eq in Hk. now symmetry.
      * eapply Forall_impl; [|exact Hall]. intros kc' Hin. now right.
Qed.

Lemma matrix_of_set_cases cm (country group c g : string) (M M' : Matrix) :
  matrix_of (set_matrix cm country group M) c g = Some M' ->
  (c = country /\ g = group /\ M' = M) \/ matrix_of cm c g = Some M'.
Proof.
  intros H.
  destruct (String.eqb_spec c country) as [->|Hc];
    [destruct (String.eqb_spec g group) as [->|Hg]|].
  - destruct (dict_get cm country) as [groups|] eqn:E.
    + rewrite matrix_of_set_same in H by congruence.
      injection H as <-. now left.
    + unfold set_matrix in H. rewrite E in H. now right.
  - rewrite matrix_of_set_other in H by (now right). now right.
  - rewrite matrix_of_set_other in H by (now left). now right.
Qed.

Section CorrelationEdges.

Variable pearson : list float -> list float -> float.
Variable repr_matrix : Matrix -> string.

Lemma corr_square (cols : list (string * column)) :
  length (mvalues (corr pearson cols)) = length (mlabels (corr pearson cols)) /\
  Forall (fun row => length row = length (mlabels (corr pearson cols)))
         (mvalues (corr pearson cols)).
Proof.
  unfold corr, corr_values. cbn [mlabels mvalues].
  rewrite !length_map, length_seq. split; [reflexivity|].
  apply Forall_forall. intros row Hin. apply in_map_iff in Hin.
  destruct Hin as (xi & <- & _). now rewrite length_map, length_seq.
Qed.

Lemma calculate_correlation_shape (df : DataFrame) (names : list string)
      (time_period : option (Z * Z)) (M : Matrix) :
  calculate_correlation pearson df names time_period = Ok M ->
  (length names <= length (mlabels M))%nat /\
  Forall (fun name => In name names) (mlabels M) /\
  length (mvalues M) = length (mlabels M) /\
  Forall (fun row => length row = length (mlabels M)) (mvalues M).
Proof.
  unfold calculate_correlation. intros H.
  destruct (match time_period with
            | Some (start, stop) =>
                relative_year <- get_column df "Relative Year" ;;
                Ok (filter_rows (between relative_year start stop) df)
            | None => Ok df
            end) as [df'|e]; [|discriminate H].
  cbn [bind] in H. unfold getitem_list in H.
  destruct (select_columns (columns df') names) as [r|e] eqn:E;
    [|discriminate H].
  cbn [bind columns] in H. injection H as <-.
  destruct (select_columns_shape _ _ _ E) as [Hlen Hall].
  destruct (corr_square r) as [Hsq Hrows].
  split; [|split; [|split; assumption]].
  - unfold corr. cbn [mlabels]. now rewrite length_map.
  - unfold corr. cbn [mlabels]. apply Forall_forall. intros name Hin.
    apply in_map_iff in Hin. destruct Hin as (kc & <- & Hin).
    rewrite Forall_forall in Hall. now apply Hall.
Qed.

(** X8. A window that every Relative Year of the table lies in changes
    nothing: [calculate_correlation] gives what it gives without a window,
    be it a matrix or an exception. *)
Theorem calculate_correlation_full_window
        (df : DataFrame) (metrics : list string) (ry : list Z)
        (lower upper : Z) :
  wf df ->
  get_column df "Relative Year" = Ok (IntCol ry) ->
  Forall (fun y => lower <= y <= upper) ry ->
  calculate_correlation pearson df metrics (Some (lower, upper))
  = calculate_correlation pearson df metrics None.
Proof.
  intros Hwf Hry Hall. unfold calculate_correlation.
  rewrite Hry. cbn [bind between].
  rewrite filter_rows_all; try assumption; [reflexivity| |].
  - apply Forall_forall. intros b Hin. apply in_map_iff in Hin.
    destruct Hin as (y & <- & Hy). rewrite Forall_forall in Hall.
    specialize (Hall y Hy). apply andb_true_intro. split; lia.
  - rewrite length_map.
    apply get_column_find in Hry.
    exact (wf_get_column df "Relative Year" (IntCol ry) Hwf Hry).
Qed.

(** X9. On a table without a "Relative Year" column the loops stop with
    [KeyError] as soon as one country has a group of which two metrics or
    more resolve: [compute_country_correlation_matrices] returns no
    dictionary, not even for the groups it had skipped before. *)
Theorem compute_country_correlation_matrices_missing_key
        (merged_data : DataFrame)
        (metric_groups : list (string * list string))
        (country_suffix : list (string * string)) (out : list string)
        (cs : string * string) (gm : string * list string) :
  has_column merged_data "Relative Year" = false ->
  In cs country_suffix ->
  In gm metric_groups ->
  (2 <= length (group_columns_of merged_data (snd gm) (snd cs)))%nat ->
  compute_country_correlation_matrices
    pearson repr_matrix merged_data metric_groups country_suffix out
  = Raise (KeyError "Relative Year").
Proof.
  intros Hkey Hcs Hgm Hlen.
  assert (Hget : get_column merged_data "Relative Year"
                 = Raise (KeyError "Relative Year")).
  { unfold get_column. now rewrite (find_columns_absent _ _ Hkey). }
  assert (Hgroup : forall country suffix st gm',
             (exists st',
                 correlate_group pearson repr_matrix merged_data country suffix
                                 st gm' = Ok st') \/
             correlate_group pearson repr_matrix merged_data country suffix
                             st gm' = Raise (KeyError "Relative Year")).
  { intros country suffix st gm'. unfold correlate_group.
    destruct (1 <? _)%nat; [right | left; now eexists].
    unfold calculate_correlation. now rewrite Hget. }
  assert (Hcountry : forall st cs',
             (exists st',
                 correlate_country pearson repr_matrix merged_data metric_groups
                                   st cs' = Ok st') \/
             correlate_country pearson repr_matrix merged_data metric_groups
                               st cs' = Raise (KeyError "Relative Year")).
  { intros st cs'. unfold correlate_country.
    apply (fold_bind_one_error
             (correlate_group pearson repr_matrix merged_data (fst cs') (snd cs'))).
    - intros a x _. apply Hgroup.
    - left. now eexists. }
  unfold compute_country_correlation_matrices.
  apply (fold_bind_raises
           (correlate_country pearson repr_matrix merged_data metric_groups)
           (KeyError "Relative Year") country_suffix cs Hcs).
  - intros st. unfold correlate_country.
    apply (fold_bind_raises
             (correlate_group pearson repr_matrix merged_data (fst cs) (snd cs))
             (KeyError "Relative Year") metric_groups gm Hgm).
    + intros st'. unfold correlate_group.
      destruct (Nat.ltb_spec 1 (length (group_columns_of merged_data (snd gm)
                                                         (snd cs)))) as [_|H];
        [|lia].
      unfold calculate_correlation. now rewrite Hget.
    + intros a y _. apply Hgroup.
    + left. now eexists.
  - intros a y _. apply Hcountry.
  - left. now eexists.
Qed.

(** X10. Whatever [compute_country_correlation_matrices] returns holds
    matrices only under the countries and groups it was given, and each
    matrix is square with at least two labels, every label a column
    [metric ++ suffix] of the merged table for a metric of that group. *)
Theorem stored_matrices_shape
        (merged_data : DataFrame)
        (metric_groups : list (string * list string))
        (country_suffix : list (string * string)) (out : list string)
        (st : matrices_state) (country group : string) (M : Matrix) :
  compute_country_correlation_matrices
    pearson repr_matrix merged_data metric_groups country_suffix out = Ok st ->
  matrix_of (fst st) country group = Some M ->
  exists suffix metrics,
    In (country, suffix) country_suffix /\
    In (group, metrics) metric_groups /\
    (2 <= length (mlabels M))%nat /\
    Forall (fun name => In name (group_columns_of merged_data metrics suffix))
           (mlabels M) /\
    length (mvalues M) = length (mlabels M) /\
    Forall (fun row => length row = length (mlabels M)) (mvalues M).
Proof.
  intros Hrun Hget.
  set (I := fun st : matrices_state =>
              forall c g M', matrix_of (fst st) c g = Some M' ->
                exists suffix metrics,
                  In (c, suffix) country_suffix /\
                  In (g, metrics) metric_groups /\
                  (2 <= length (mlabels M'))%nat /\
                  Forall (fun name =>
                            In name (group_columns_of merged_data metrics suffix))
                         (mlabels M') /\
                  length (mvalues M') = length (mlabels M') /\
                  Forall (fun row => length row = length (mlabels M'))
                         (mvalues M')).
  assert (HI : I st); [|exact (HI country group M Hget)].
  unfold compute_country_correlation_matrices in Hrun.
  apply (fold_bind_invariant
           (correlate_country pearson repr_matrix merged_data metric_groups)
           I country_suffix) in Hrun; [exact Hrun| |].
  - intros st0 cs st1 Hcs Hst0 Hstep. unfold correlate_country in Hstep.
    apply (fold_bind_invariant
             (correlate_group pearson repr_matrix merged_data (fst cs) (snd cs))
             I metric_groups) in Hstep; [exact Hstep| |].
    + intros a gm a' Hgm Ha Hgroup. unfold correlate_group in Hgroup.
      destruct (Nat.ltb_spec 1 (length (group_columns_of merged_data (snd gm)
                                                         (snd cs)))) as [Hlt|_].
      * destruct (calculate_correlation pearson merged_data _ _) as [C|e] eqn:EC;
          [|discriminate Hgroup].
        cbn [bind] in Hgroup. injection Hgroup as <-.
        intros c g M' HM'. cbn [fst] in HM'.
        apply matrix_of_set_cases in HM'.
        destruct HM' as [(-> & -> & ->)|HM']; [|now apply Ha].
        destruct (calculate_correlation_shape _ _ _ _ EC)
          as (Hlen & Hall & Hsq & Hrows).
        exists (snd cs), (snd gm).
        rewrite <- !surjective_pairing.
        repeat split; try assumption. lia.
      * injection Hgroup as <-. intros c g M' HM'. now apply Ha.
    + intros a [= <-]. intros c g M' HM'. now apply Hst0.
  - intros a [= <-]. intros c g M' HM'. cbn [fst] in HM'. exfalso.
    unfold matrix_of in HM'.
    destruct (initial_matrices_empty country_suffix [] (fun _ => or_introl eq_refl) c)
      as [E|E]; rewrite E in HM'; discriminate HM'.
Qed.

End CorrelationEdges.

Lemma calculate_correlation_full_window_witness :
  calculate_correlation (fun _ _ => 1%float) merged_example
                        ["GDP_per_capita_AUS"; "FDI_AUS"] (Some (-6, 6))
  = calculate_correlation (fun _ _ => 1%float) merged_example
                          ["GDP_per_capita_AUS"; "FDI_AUS"] None.
Proof.
  apply (calculate_correlation_full_window
           (fun _ _ => 1%float) merged_example
           ["GDP_per_capita_AUS"; "FDI_AUS"] [-6; -5; 0; 5; 6] (-6) 6).
  - repeat constructor.
  - reflexivity.
  - repeat constructor; lia.
Defined.

Lemma compute_country_correlation_matrices_missing_key_witness :
  compute_country_correlation_matrices
    (fun _ _ => 1%float) (fun _ => "matrix") merged_without_key
    metric_groups country_suffix []
  = Raise (KeyError "Relative Year").
Proof.
  apply (compute_country_correlation_matrices_missing_key
           (fun _ _ => 1%float) (fun _ => "matrix")
           merged_without_key metric_groups country_suffix []
           ("Australia", "_AUS")
           ("Economic", ["GDP_per_capita"; "FDI"; "Gov_Consumption"])).
  - reflexivity.
  - left. reflexivity.
  - left. reflexivity.
  - vm_compute. lia.
Defined.

Lemma stored_matrices_shape_witness :
  exists st M,
    compute_country_correlation_matrices
      (fun _ _ => 1%float) (fun _ => "matrix") merged_example
      metric_groups country_suffix [] = Ok st /\
    matrix_of (fst st) "Australia" "Economic" = Some M /\
    (2 <= length (mlabels M))%nat /\
    length (mvalues M) = length (mlabels M).
Proof.
  eexists. eexists. split; [reflexivity|]. split; [reflexivity|].
  destruct (stored_matrices_shape
              (fun _ _ => 1%float) (fun _ => "matrix")
              merged_example metric_groups country_suffix [] _
              "Australia" "Economic" _ eq_refl eq_refl)
    as (suffix & metrics & _ & _ & Hlen & _ & Hsq & _).
  split; [exact Hlen | exact Hsq].
Defined.

(** ** The interactive analysis on a valid selection *)

Lemma find_columns_present (df : DataFrame) (name : string) (c : column) :
  find_columns df name = [c] -> has_column df name = true.
Proof.
  intros H. destruct (has_column df name) eqn:E; [reflexivity|].
  rewrite (find_columns_absent df name E) in H. discriminate H.
Qed.

Lemma filter_name_nodup (cols : list (string * column)) (name : string) :
  NoDup (map fst cols) ->
  (length (filter (fun kc => String.eqb (fst kc) name) cols) <= 1)%nat.
Proof.
  induction cols as [|[k c] cols IH]; intros Hnd; cbn [filter fst];
    [simpl; lia|].
  cbn [map fst] in Hnd. inversion Hnd as [|? ? Hk Hnd']; subst.
  destruct (String.eqb_spec k name) as [->|_]; [|now apply IH].
  destruct (filter (fun kc => String.eqb (fst kc) name) cols)
    as [|kc l] eqn:E; [simpl; lia|].
  exfalso. apply Hk.
  assert (Hin : In kc (filter (fun kc => String.eqb (fst kc) name) cols))
    by (rewrite E; now left).
  apply filter_In in Hin. destruct Hin as [Hin Hkc].
  apply String.eqb_eq in Hkc. subst name. now apply in_map.
Qed.

Lemma find_columns_nodup (df : DataFrame) (name : string) :
  NoDup (column_names df) -> has_column df name = true ->
  exists c, find_columns df name = [c].
Proof.
  intros Hnd Hhas. pose proof (has_column_filter df name Hhas) as Hne.
  pose proof (filter_name_nodup (columns df) name Hnd) as Hle.
  unfold find_columns.
  destruct (filter (fun kc => String.eqb (fst kc) name) (columns df))
    as [|kc [|kc' l]]; [contradiction | | simpl in Hle; lia].
  now exists (snd kc).
Qed.

Section AnalysisProperties.

Variable pearson : list float -> list float -> float.
Variable format_2f : float -> string.

Lemma pair_correlation (df : DataFrame) (name1 name2 : string)
      (c1 c2 : column) :
  find_columns df name1 = [c1] ->
  find_columns df name2 = [c2] ->
  (selected <- getitem_list df [name1; name2] ;;
   iloc_0_1 (corr pearson (columns selected)))
  = Ok (pearson (col_floats c2) (col_floats c1)).
Proof.
  intros H1 H2. unfold getitem_list. cbn [select_columns].
  rewrite (filter_name_unique _ _ _ H1), (filter_name_unique _ _ _ H2).
  reflexivity.
Qed.

(** X11. After a valid key and a valid country tag the analysis prints the
    selection and the two column names it checks.  When the merged table
    lacks one of them it prints the "Missing" line and stops, without a
    figure.  When the table has one column under each name it prints the
    correlation, which is the entry (0, 1) of the matrix of the two columns
    (the kernel applied to the second and the first), shows one figure, and
    returns; the table is the same in both cases. *)
Theorem predefined_correlation_analysis_valid_selection
        (merged_data : DataFrame) (w : world)
        (key_line country_line : string) (rest : list string)
        (description metric1 metric2 : string) :
  stdin w = key_line :: country_line :: rest ->
  dict_get predefined_combinations (strip key_line)
  = Some (description, (metric1, metric2)) ->
  In (upper (strip country_line)) ["AUS"; "CHI"] ->
  let country := upper (strip country_line) in
  let metric1_col := (metric1 ++ "_" ++ country)%string in
  let metric2_col := (metric2 ++ "_" ++ country)%string in
  let asked :=
    stdout w ++ menu ++
    [(nl ++ "Choose a combination number (e.g., 1): ")%string;
     (nl ++ "Selected combination: " ++ description)%string;
     "Select a country suffix (AUS or CHI): ";
     (nl ++ "Selected country suffix: " ++ country)%string;
     ("Checking columns: " ++ metric1_col ++ " and " ++ metric2_col)%string] in
  (has_column merged_data metric1_col = false \/
   has_column merged_data metric2_col = false ->
   predefined_correlation_analysis pearson format_2f merged_data w
   = Ok (merged_data,
         mkWorld rest
                 (asked ++
                  [("Missing: " ++ metric1_col ++ " or " ++ metric2_col
                    ++ " in " ++ country
                    ++ ". Cannot calculate correlation.")%string])
                 (figures w)))
  /\
  (forall c1 c2 : column,
      find_columns merged_data metric1_col = [c1] ->
      find_columns merged_data metric2_col = [c2] ->
      predefined_correlation_analysis pearson format_2f merged_data w
      = Ok (merged_data,
            mkWorld rest
                    (asked ++
                     [(nl ++ "Correlation between " ++ metric1 ++ " and "
                       ++ metric2 ++ " in " ++ country ++ ": "
                       ++ format_2f (pearson (col_floats c2) (col_floats c1)))%string])
                    (figures w ++
                     [("Correlation between " ++ metric1 ++ " and " ++ metric2
                       ++ " in " ++ country)%string]))).
Proof.
  intros Hin Hget Hcountry country metric1_col metric2_col asked.
  assert (E : existsb (String.eqb country) ["AUS"; "CHI"] = true).
  { apply existsb_exists. exists country. split; [exact Hcountry|].
    apply String.eqb_refl. }
  split.
  - intros Hmiss.
    unfold predefined_correlation_analysis, input.
    cbn [fold_left predefined_combinations print stdin stdout figures fst snd].
    rewrite Hin. cbn [bind fst snd]. rewrite Hget.
    cbn [stdin stdout figures bind fst snd]. fold country. rewrite E.
    cbn [negb]. fold metric1_col metric2_col.
    assert (Hor : negb (has_column merged_data metric1_col)
                  || negb (has_column merged_data metric2_col) = true).
    { destruct Hmiss as [-> | ->]; [reflexivity | apply orb_true_r]. }
    rewrite Hor.
    unfold print, asked, menu.
    cbn [stdin stdout figures map fst snd predefined_combinations].
    repeat rewrite <- app_assoc. reflexivity.
  - intros c1 c2 H1 H2.
    pose proof (pair_correlation merged_data metric1_col metric2_col c1 c2 H1 H2)
      as Hcorr.
    unfold predefined_correlation_analysis, input.
    cbn [fold_left predefined_combinations print stdin stdout figures fst snd].
    rewrite Hin. cbn [bind fst snd]. rewrite Hget.
    cbn [stdin stdout figures bind fst snd]. fold country. rewrite E.
    cbn [negb]. fold metric1_col metric2_col.
    rewrite (find_columns_present _ _ _ H1), (find_columns_present _ _ _ H2).
    cbn [negb orb].
    destruct (getitem_list merged_data [metric1_col; metric2_col])
      as [selected|e]; [|discriminate Hcorr].
    cbn [bind] in Hcorr |- *. rewrite Hcorr. cbn [bind].
    unfold print, show, asked, menu.
    cbn [stdin stdout figures map fst snd predefined_combinations].
    repeat rewrite <- app_assoc. reflexivity.
Qed.

(** X12. The analysis raises only for want of input: when two lines can be
    read and the merged table has no repeated column name, it returns,
    whatever the lines and the table are; the table is unchanged, one or
    two lines are consumed and at most one figure is shown. *)
Theorem predefined_correlation_analysis_returns
        (merged_data : DataFrame) (w : world)
        (key_line country_line : string) (rest : list string) :
  stdin w = key_line :: country_line :: rest ->
  NoDup (column_names merged_data) ->
  exists w',
    predefined_correlation_analysis pearson format_2f merged_data w
    = Ok (merged_data, w') /\
    (stdin w' = country_line :: rest \/ stdin w' = rest) /\
    (figures w' = figures w \/ exists title, figures w' = figures w ++ [title]).
Proof.
  intros Hin Hnd.
  unfold predefined_correlation_analysis, input.
  cbn [fold_left predefined_combinations print stdin stdout figures fst snd].
  rewrite Hin. cbn [bind fst snd].
  destruct (dict_get predefined_combinations (strip key_line))
    as [[description [metric1 metric2]]|].
  - cbn [stdin stdout figures bind fst snd].
    destruct (existsb _ _); cbn [negb].
    + destruct (has_column merged_data
                  (metric1 ++ "_" ++ upper (strip country_line))) eqn:H1;
        [destruct (has_column merged_data
                     (metric2 ++ "_" ++ upper (strip country_line))) eqn:H2|];
        cbn [negb orb].
      * destruct (find_columns_nodup _ _ Hnd H1) as (c1 & Hc1).
        destruct (find_columns_nodup _ _ Hnd H2) as (c2 & Hc2).
        pose proof (pair_correlation _ _ _ c1 c2 Hc1 Hc2) as Hcorr.
        destruct (getitem_list merged_data _) as [selected|e];
          [|discriminate Hcorr].
        cbn [bind] in Hcorr |- *. rewrite Hcorr. cbn [bind].
        eexists. split; [reflexivity|]. cbn [show print stdin figures].
        split; [now right | right; now eexists].
      * eexists. split; [reflexivity|]. cbn [print stdin figures].
        split; [now right | now left].
      * eexists. split; [reflexivity|]. cbn [print stdin figures].
        split; [now right | now left].
    + eexists. split; [reflexivity|]. cbn [print stdin figures].
      split; [now right | now left].
  - eexists. split; [reflexivity|]. cbn [print stdin figures].
    split; [now left | now left].
Qed.

(** X13. With nothing left to read at the first prompt the analysis raises
    [EOFError]; with one line that is a valid key it raises [EOFError] at
    the second prompt. *)
Theorem predefined_correlation_analysis_end_of_input
        (merged_data : DataFrame) (w : world) :
  (stdin w = [] ->
   predefined_correlation_analysis pearson format_2f merged_data w
   = Raise EOFError) /\
  (forall key_line,
      stdin w = [key_line] ->
      In (strip key_line) (map fst predefined_combinations) ->
      predefined_correlation_analysis pearson format_2f merged_data w
      = Raise EOFError).
Proof.
  split.
  - intros Hin. unfold predefined_correlation_analysis, input.
    cbn [fold_left predefined_combinations print stdin stdout figures fst snd].
    now rewrite Hin.
  - intros key_line Hin Hkey.
    destruct (dict_get_In _ _ Hkey) as (combination & Hget).
    unfold predefined_correlation_analysis, input.
    cbn [fold_left predefined_combinations print stdin stdout figures fst snd].
    rewrite Hin. cbn [bind fst snd]. rewrite Hget.
    reflexivity.
Qed.

End AnalysisProperties.

Lemma predefined_correlation_analysis_valid_selection_witness :
  predefined_correlation_analysis
    (fun _ _ => 1%float) (fun _ => "1.00") merged_example
    (mkWorld ["2"; "AUS"] [] [])
  = Ok (merged_example,
        mkWorld []
          (([] ++ menu ++
            [(nl ++ "Choose a combination number (e.g., 1): ")%string;
             (nl ++ "Selected combination: "
              ++ "How does fiscal policy impact government consumption?")%string;
             "Select a country suffix (AUS or CHI): ";
             (nl ++ "Selected country suffix: AUS")%string;
             "Checking columns: GDP_per_capita_AUS and Gov_Consumption_AUS"])
           ++ ["Missing: GDP_per_capita_AUS or Gov_Consumption_AUS in AUS. Cannot calculate correlation."])
          [])
  /\
  predefined_correlation_analysis
    (fun _ _ => 1%float) (fun _ => "1.00") merged_example
    (mkWorld [" 1"; "aus "] [] [])
  = Ok (merged_example,
        mkWorld []
          (([] ++ menu ++
            [(nl ++ "Choose a combination number (e.g., 1): ")%string;
             (nl ++ "Selected combination: " ++ "Do GDP and FDI correlated?")%string;
             "Select a country suffix (AUS or CHI): ";
             (nl ++ "Selected country suffix: AUS")%string;
             "Checking columns: GDP_per_capita_AUS and FDI_AUS"])
           ++ [(nl ++ "Correlation between GDP_per_capita and FDI in AUS: 1.00")%string])
          ([] ++ ["Correlation between GDP_per_capita and FDI in AUS"])).
Proof.
  split.
  - apply (proj1 (predefined_correlation_analysis_valid_selection
                    (fun _ _ => 1%float) (fun _ => "1.00") merged_example
                    (mkWorld ["2"; "AUS"] [] []) "2" "AUS" []
                    "How does fiscal policy impact government consumption?"
                    "GDP_per_capita" "Gov_Consumption"
                    eq_refl eq_refl (or_introl eq_refl))).
    right. reflexivity.
  - apply (proj2 (predefined_correlation_analysis_valid_selection
                    (fun _ _ => 1%float) (fun _ => "1.00") merged_example
                    (mkWorld [" 1"; "aus "] [] []) " 1" "aus " []
                    "Do GDP and FDI correlated?" "GDP_per_capita" "FDI"
                    eq_refl eq_refl (or_introl eq_refl))
                 (FloatCol [1; 2; 3; 4; 5]%float)
                 (FloatCol [2; 4; 5; 4; 2]%float));
      reflexivity.
Defined.

Lemma predefined_correlation_analysis_returns_witness :
  exists w',
    predefined_correlation_analysis
      (fun _ _ => 1%float) (fun _ => "1.00") merged_example
      (mkWorld ["1"; "chi"; "later"] [] [])
    = Ok (merged_example, w') /\
    (stdin w' = ["chi"; "later"] \/ stdin w' = ["later"]) /\
    (figures w' = [] \/ exists title, figures w' = [] ++ [title]).
Proof.
  apply (predefined_correlation_analysis_returns
           (fun _ _ => 1%float) (fun _ => "1.00") merged_example
           (mkWorld ["1"; "chi"; "later"] [] []) "1" "chi" ["later"]).
  - reflexivity.
  - distinct_strings.
Defined.

Lemma predefined_correlation_analysis_end_of_input_witness :
  predefined_correlation_analysis
    (fun _ _ => 1%float) (fun _ => "1.00") merged_example
    (mkWorld [] [] []) = Raise EOFError /\
  predefined_correlation_analysis
    (fun _ _ => 1%float) (fun _ => "1.00") merged_example
    (mkWorld ["7 "] [] []) = Raise EOFError.
Proof.
  split.
  - apply (proj1 (predefined_correlation_analysis_end_of_input
                    (fun _ _ => 1%float) (fun _ => "1.00") merged_example
                    (mkWorld [] [] []))).
    reflexivity.
  - apply (proj2 (predefined_correlation_analysis_end_of_input
                    (fun _ _ => 1%float) (fun _ => "1.00") merged_example
                    (mkWorld ["7 "] [] [])) "7 ").
    + reflexivity.
    + vm_compute. do 6 right. left. reflexivity.
Defined.

(** ** Heat maps of the computed matrices *)

Lemma dict_set_Forall {V} (P : string * V -> Prop) (d : list (string * V))
      (k : string) (v : V) :
  Forall P d -> (forall k', P (k', v)) -> Forall P (dict_set d k v).
Proof.
  intros Hd Hv. induction Hd as [|[k0 w0] d H0 Hd IH]; cbn [dict_set].
  - constructor; [apply Hv | constructor].
  - destruct (String.eqb k0 k); constructor;
      [apply Hv | exact Hd | exact H0 | exact IH].
Qed.

Lemma dict_get_Forall {V} (P : string * V -> Prop) (d : list (string * V))
      (k : string) (v : V) :
  Forall P d -> dict_get d k = Some v -> exists k', P (k', v).
Proof.
  intros Hd. induction Hd as [|[k0 w0] d H0 _ IH]; cbn [dict_get];
    [discriminate|].
  destruct (String.eqb k0 k); [|exact IH].
  intros [= <-]. now exists k0.
Qed.

Lemma initial_matrices_Forall {V} (P : string * list (string * V) -> Prop)
      (cl : list (string * string)) (d : list (string * list (string * V))) :
  Forall P d -> (forall k, P (k, [])) ->
  Forall P (fold_left (fun d cs => dict_set d (fst cs) []) cl d).
Proof.
  intros Hd Hnil. revert d Hd.
  induction cl as [|cs cl IH]; intros d Hd; cbn [fold_left]; [exact Hd|].
  apply IH. now apply dict_set_Forall.
Qed.

Lemma plot_group_heatmaps (country : string) (groups : list (string * Matrix))
      (w : world) :
  Forall (fun gc => mlabels (snd gc) <> []) groups ->
  fold_left
    (fun w (gc : string * option Matrix) =>
       match snd gc with
       | Some group_corr =>
           plot_correlation_heatmap
             (Some group_corr)
             (fst gc ++ " Metric Correlation (" ++ country ++ ")")%string w
       | None =>
           print w ("Not enough data for " ++ fst gc ++ " metrics in "
                    ++ country ++ ".")%string
       end)
    (map (fun gc => (fst gc, Some (snd gc))) groups) w
  = mkWorld (stdin w) (stdout w)
            (figures w
             ++ map (fun gc => (fst gc ++ " Metric Correlation (" ++ country
                                ++ ")")%string) groups).
Proof.
  intros Hall. revert w.
  induction Hall as [|[g M] groups HM _ IH]; intros w; cbn [map fold_left].
  - rewrite app_nil_r. now destruct w.
  - cbn [fst snd] in *. rewrite IH.
    unfold plot_correlation_heatmap, matrix_empty.
    destruct (mlabels M); [contradiction|].
    cbn [negb show stdin stdout figures]. now rewrite <- app_assoc.
Qed.

Lemma plot_all_heatmaps_nonempty
      (correlation_matrices : list (string * list (string * Matrix)))
      (w : world) :
  Forall (fun cg => Forall (fun gc => mlabels (snd gc) <> []) (snd cg))
         correlation_matrices ->
  plot_all_heatmaps (as_heatmap_input correlation_matrices) w
  = mkWorld (stdin w)
            (stdout w
             ++ map (fun cg => ("Generating heatmaps for " ++ fst cg ++ ":")%string)
                    correlation_matrices)
            (figures w ++ heatmap_titles correlation_matrices).
Proof.
  unfold plot_all_heatmaps, as_heatmap_input, heatmap_titles.
  intros Hall. revert w.
  induction Hall as [|[c groups] cm Hg _ IH]; intros w;
    cbn [map fold_left flat_map].
  - rewrite !app_nil_r. now destruct w.
  - cbn [fst snd] in *. rewrite plot_group_heatmaps by assumption.
    rewrite IH. cbn [print stdin stdout figures].
    now rewrite <- !app_assoc.
Qed.

Section HeatmapProperties.

Variable pearson : list float -> list float -> float.
Variable repr_matrix : Matrix -> string.

Lemma correlate_group_nonempty (merged_data : DataFrame)
      (country suffix : string) (st st' : matrices_state)
      (gm : string * list string) :
  Forall (fun cg => Forall (fun gc => mlabels (snd gc) <> []) (snd cg))
         (fst st) ->
  correlate_group pearson repr_matrix merged_data country suffix st gm = Ok st' ->
  Forall (fun cg => Forall (fun gc => mlabels (snd gc) <> []) (snd cg))
         (fst st').
Proof.
  intros Hst Hrun. unfold correlate_group in Hrun.
  destruct (Nat.ltb_spec 1 (length (group_columns_of merged_data (snd gm) suffix)))
    as [Hlt|_]; [|now injection Hrun as <-].
  destruct (calculate_correlation pearson merged_data _ _) as [C|e] eqn:EC;
    [|discriminate Hrun].
  cbn [bind] in Hrun. injection Hrun as <-. cbn [fst].
  destruct (calculate_correlation_shape _ _ _ _ _ EC) as (Hlen & _).
  assert (HC : mlabels C <> []).
  { intros E. rewrite E in Hlen. simpl in Hlen. lia. }
  unfold set_matrix.
  destruct (dict_get (fst st) country) as [groups|] eqn:E; [|assumption].
  destruct (dict_get_Forall _ _ _ _ Hst E) as (k' & Hgroups).
  cbn [snd] in Hgroups.
  apply dict_set_Forall; [assumption|]. intros k. cbn [snd].
  apply dict_set_Forall; [assumption|]. intros g. exact HC.
Qed.

(** X14. For the dictionary [compute_country_correlation_matrices]
    returns, [plot_all_heatmaps] prints one "Generating heatmaps" line per
    country and shows one heat map per stored matrix, in the order of the
    dictionary; it prints no "Not enough data" and no "No data available"
    line, since no stored matrix is missing or empty. *)
Theorem plot_all_heatmaps_of_computed
        (merged_data : DataFrame)
        (metric_groups : list (string * list string))
        (country_suffix : list (string * string)) (out : list string)
        (st : matrices_state) (w : world) :
  compute_country_correlation_matrices
    pearson repr_matrix merged_data metric_groups country_suffix out = Ok st ->
  plot_all_heatmaps (as_heatmap_input (fst st)) w
  = mkWorld (stdin w)
            (stdout w
             ++ map (fun cg => ("Generating heatmaps for " ++ fst cg ++ ":")%string)
                    (fst st))
            (figures w ++ heatmap_titles (fst st)).
Proof.
  intros Hrun. apply plot_all_heatmaps_nonempty.
  unfold compute_country_correlation_matrices in Hrun.
  apply (fold_bind_invariant
           (correlate_country pearson repr_matrix merged_data metric_groups)
           (fun st => Forall (fun cg => Forall (fun gc => mlabels (snd gc) <> [])
                                               (snd cg)) (fst st))
           country_suffix) in Hrun; [exact Hrun| |].
  - intros st0 cs st1 _ Hst0 Hstep. unfold correlate_country in Hstep.
    apply (fold_bind_invariant
             (correlate_group pearson repr_matrix merged_data (fst cs) (snd cs))
             (fun st => Forall (fun cg => Forall (fun gc => mlabels (snd gc) <> [])
                                                 (snd cg)) (fst st))
             metric_groups) in Hstep; [exact Hstep| |].
    + intros a gm a' _ Ha Hgroup.
      exact (correlate_group_nonempty _ _ _ _ _ _ Ha Hgroup).
    + intros a [= <-]. exact Hst0.
  - intros a [= <-]. cbn [fst].
    apply initial_matrices_Forall; [constructor|]. intros k. constructor.
Qed.

End HeatmapProperties.

Lemma plot_all_heatmaps_of_computed_witness :
  exists st,
    compute_country_correlation_matrices
      (fun _ _ => 1%float) (fun _ => "matrix") merged_example
      metric_groups country_suffix [] = Ok st /\
    plot_all_heatmaps (as_heatmap_input (fst st)) (mkWorld [] [] [])
    = mkWorld []
              ["Generating heatmaps for Australia:";
               "Generating heatmaps for China:"]
              ["Economic Metric Correlation (Australia)"].
Proof.
  eexists. split; [reflexivity|].
  apply (plot_all_heatmaps_of_computed
           (fun _ _ => 1%float) (fun _ => "matrix") merged_example
           metric_groups country_suffix [] _ (mkWorld [] [] []) eq_refl).
Defined.

(** ** The records of the bar chart *)

Lemma the_column_unique (df : DataFrame) (name : string) (c : column) :
  find_columns df name = [c] -> the_column df name = c.
Proof. intros H. unfold the_column. now rewrite H. Qed.

Section BarChartProperties.

Variable pearson : list float -> list float -> float.

Lemma correlate_pair_outcome (merged_data : DataFrame)
      (metric1 metric2 : string) (st : bar_state) (country_suffix : string) :
  NoDup (column_names merged_data) ->
  correlate_pair pearson merged_data metric1 metric2 st country_suffix
  = Ok (fst st ++ fst (pair_outcome pearson merged_data metric1 metric2
                                    country_suffix),
        snd st ++ snd (pair_outcome pearson merged_data metric1 metric2
                                    country_suffix)).
Proof.
  intros Hnd. unfold correlate_pair, pair_outcome.
  destruct (has_column merged_data (metric1 ++ country_suffix)) eqn:H1;
    [destruct (has_column merged_data (metric2 ++ country_suffix)) eqn:H2|];
    cbn [andb fst snd]; try (now rewrite app_nil_r).
  destruct (find_columns_nodup _ _ Hnd H1) as (c1 & Hc1).
  destruct (find_columns_nodup _ _ Hnd H2) as (c2 & Hc2).
  pose proof (pair_correlation pearson _ _ _ c1 c2 Hc1 Hc2) as Hcorr.
  destruct (getitem_list merged_data _) as [selected|e]; [|discriminate Hcorr].
  cbn [bind] in Hcorr |- *. rewrite Hcorr. cbn [bind].
  unfold pair_entry.
  rewrite (the_column_unique _ _ _ Hc1), (the_column_unique _ _ _ Hc2).
  now rewrite app_nil_r.
Qed.

(** X15. On a merged table without a repeated column name the loops of
    [plot_predefined_combinations_bar] never raise, and every combination
    gives, for "_AUS" and then for "_CHI", either one record or one
    "Missing" line: a record when both columns are in the table, holding
    the entry (0, 1) of their matrix (the value
    [predefined_correlation_analysis] prints for the same pair), else the
    line. *)
Theorem correlations_of_outcomes
        (combinations : list (string * (string * (string * string))))
        (merged_data : DataFrame) (out : list string) :
  NoDup (column_names merged_data) ->
  correlations_of pearson combinations merged_data out
  = Ok (flat_map fst (pair_outcomes pearson merged_data combinations),
        out ++ flat_map snd (pair_outcomes pearson merged_data combinations)).
Proof.
  intros Hnd. unfold correlations_of.
  assert (H : forall st,
             fold_left
               (fun acc kc =>
                  st <- acc ;;
                  fold_left
                    (fun acc country_suffix =>
                       st <- acc ;;
                       correlate_pair pearson merged_data (fst (snd (snd kc)))
                                      (snd (snd (snd kc))) st country_suffix)
                    ["_AUS"; "_CHI"] (Ok st))
               combinations (Ok st)
             = Ok (fst st ++ flat_map fst (pair_outcomes pearson merged_data
                                                         combinations),
                   snd st ++ flat_map snd (pair_outcomes pearson merged_data
                                                         combinations))).
  { induction combinations as [|kc l IH]; intros st.
    - cbn [fold_left pair_outcomes flat_map]. rewrite !app_nil_r.
      now destruct st.
    - cbn [fold_left bind]. rewrite correlate_pair_outcome by assumption.
      cbn [bind]. rewrite correlate_pair_outcome by assumption.
      rewrite IH. cbn [fst snd pair_outcomes flat_map map].
      now rewrite <- !app_assoc. }
  exact (H ([], out)).
Qed.

End BarChartProperties.

Lemma correlations_of_outcomes_witness :
  correlations_of (fun _ _ => 1%float) predefined_combinations merged_example []
  = Ok ([mkBarEntry "GDP_per_capita vs FDI" "Australia" 1%float;
         mkBarEntry "GDP_per_capita vs MtCO2e" "Australia" 1%float],
        ["Missing: GDP_per_capita_CHI or FDI_CHI in CHI";
         "Missing: GDP_per_capita_AUS or Gov_Consumption_AUS in AUS";
         "Missing: GDP_per_capita_CHI or Gov_Consumption_CHI in CHI";
         "Missing: Num_Arrivals_AUS or GDP_per_capita_AUS in AUS";
         "Missing: Num_Arrivals_CHI or GDP_per_capita_CHI in CHI";
         "Missing: Obesity_rate_AUS or Underweight_rate_AUS in AUS";
         "Missing: Obesity_rate_CHI or Underweight_rate_CHI in CHI";
         "Missing: GDP_per_capita_CHI or MtCO2e_CHI in CHI";
         "Missing: Num_Arrivals_AUS or MtCO2e_AUS in AUS";
         "Missing: Num_Arrivals_CHI or MtCO2e_CHI in CHI";
         "Missing: Unemployment_Rate(%)_AUS or GDP_per_capita_AUS in AUS";
         "Missing: Unemployment_Rate(%)_CHI or GDP_per_capita_CHI in CHI"]).
Proof.
  apply (correlations_of_outcomes
           (fun _ _ => 1%float) predefined_combinations merged_example []).
  distinct_strings.
Defined.

(** ** The shape of the merged table *)

Lemma flat_map_length_ge {A B} (f : A -> list B) (l : list A) :
  (forall x, (1 <= length (f x))%nat) ->
  (length l <= length (flat_map f l))%nat.
Proof.
  intros Hf. induction l as [|x l IH]; cbn [flat_map length]; [lia|].
  rewrite length_app. specialize (Hf x). lia.
Qed.

(** A left join has a row for every left row at least. *)
Lemma join_rows_length (lk rk : list scalar) :
  (length lk <= length (join_rows lk rk))%nat.
Proof.
  unfold join_rows.
  assert (H : length (combine (seq 0 (length lk)) lk) = length lk)
    by (rewrite length_combine, length_seq; apply Nat.min_id).
  rewrite <- H at 1. apply flat_map_length_ge. intros ik.
  destruct (matches (snd ik) rk); cbn [length map]; lia.
Qed.

Lemma col_cells_length (c : column) : length (col_cells c) = col_len c.
Proof. destruct c; apply length_map. Qed.

Lemma merge_left_shape (L R M : DataFrame) (on : string) :
  merge_left L R on = Ok M ->
  exists lk,
    get_column L on = Ok lk /\
    wf M /\
    index M = RangeIndex (len M) /\
    columns M <> [] /\
    (col_len lk <= len M)%nat.
Proof.
  unfold merge_left. intros H.
  destruct (get_column L on) as [lk|e] eqn:El; [|discriminate H].
  destruct (get_column R on) as [rk|e] eqn:Er; [|discriminate H].
  cbn [bind] in H. injection H as <-. exists lk.
  split; [reflexivity|].
  unfold wf, len. cbn [index columns]. rewrite RangeIndex_length.
  split; [|split; [reflexivity|split]].
  - apply Forall_app. split; apply Forall_forall; intros kc Hin;
      apply in_map_iff in Hin; destruct Hin as (kc0 & <- & _); cbn [snd].
    + now rewrite col_len_take, length_map.
    + now rewrite col_len_take_opt, length_map.
  - apply get_column_find in El. unfold find_columns in El.
    destruct (columns L); [discriminate El | discriminate].
  - rewrite <- col_cells_length. apply join_rows_length.
Qed.

Lemma merge_metric_shape (n0 : nat) (M M' : DataFrame)
      (item : string * country_data) :
  (1 <= n0)%nat ->
  wf M /\ index M = RangeIndex (len M) /\ columns M <> [] /\ (n0 <= len M)%nat ->
  merge_metric M item = Ok M' ->
  wf M' /\ index M' = RangeIndex (len M') /\ columns M' <> [] /\
  (n0 <= len M')%nat.
Proof.
  intros Hn0 (Hwf & Hidx & Hcols & Hlen) Hrun. unfold merge_metric in Hrun.
  destruct (select_and_rename (AUS (snd item)) (fst item) "_AUS") as [aus|e];
    [|discriminate Hrun].
  destruct (select_and_rename (CHI (snd item)) (fst item) "_CHI") as [chi|e];
    [|discriminate Hrun].
  cbn [bind] in Hrun.
  assert (Hempty : empty M = false).
  { unfold empty. destruct (Nat.eqb_spec (len M) 0); [lia|].
    destruct (columns M); [contradiction | reflexivity]. }
  rewrite Hempty in Hrun.
  destruct (merge_left M aus "Relative Year") as [M1|e] eqn:E1;
    [|discriminate Hrun].
  cbn [bind] in Hrun.
  destruct (merge_left_shape _ _ _ _ E1) as (lk & Hlk & Hwf1 & _ & _ & Hlen1).
  destruct (merge_left_shape _ _ _ _ Hrun) as (lk1 & Hlk1 & Hwf' & Hidx' & Hcols' & Hlen').
  apply get_column_find in Hlk, Hlk1.
  rewrite (wf_get_column _ _ _ Hwf Hlk) in Hlen1.
  rewrite (wf_get_column _ _ _ Hwf1 Hlk1) in Hlen'.
  repeat split; try assumption. lia.
Qed.

Lemma in_metric_columns (dict : list (string * country_data))
      (m tag : string) :
  tag = "_AUS" \/ tag = "_CHI" ->
  In (m ++ tag)%string ("Relative Year" :: flat_map metric_columns dict)
  <-> In m (map fst dict).
Proof.
  intros Htag. split.
  - intros Hin.
    destruct (in_dec string_dec m (map fst dict)) as [H|H]; [exact H|].
    exfalso. exact (metric_name_fresh dict m tag Htag H Hin).
  - intros Hin. apply in_map_iff in Hin. destruct Hin as (item & <- & Hin).
    right. apply in_flat_map. exists item. split; [exact Hin|].
    unfold metric_columns. destruct Htag as [-> | ->];
      [now left | right; now left].
Qed.

Lemma metric_columns_nodup (dict : list (string * country_data)) :
  NoDup (map fst dict) ->
  NoDup ("Relative Year" :: flat_map metric_columns dict).
Proof.
  induction dict as [|item dict IH]; intros Hnd; cbn [map flat_map] in *.
  - constructor; [intros [] | constructor].
  - inversion Hnd as [|? ? Hfresh Hnd']; subst.
    specialize (IH Hnd'). inversion IH as [|? ? Hkey Hrest]; subst.
    pose proof (metric_name_fresh dict (fst item) "_AUS" (or_introl eq_refl) Hfresh)
      as HA.
    pose proof (metric_name_fresh dict (fst item) "_CHI" (or_intror eq_refl) Hfresh)
      as HC.
    unfold metric_columns at 1. cbn [app].
    constructor; [|constructor; [|constructor; [|exact Hrest]]].
    + intros [H|[H|H]].
      * now apply AUS_name_not_key in H.
      * now apply CHI_name_not_key in H.
      * now apply Hkey.
    + intros [H|H].
      * symmetry in H. now apply AUS_name_not_CHI_name in H.
      * apply HA. now right.
    + intros H. apply HC. now right.
Qed.

(** X16. For a non-empty dictionary of normalised tables with distinct
    metric names the merged table is well formed with the default index,
    its columns are "Relative Year" followed by [metric_AUS], [metric_CHI]
    for every metric in the order of the dictionary, all distinct, and it
    has at least as many rows as the first metric's AUS table has years: a
    left join drops no row. *)
Theorem load_and_merge_data_shape
        (first : string * country_data)
        (rest : list (string * country_data)) :
  NoDup (map fst (first :: rest)) ->
  (forall item, In item (first :: rest) ->
                normalized (fst item) (AUS (snd item)) /\
                normalized (fst item) (CHI (snd item))) ->
  exists merged_data,
    load_and_merge_data (first :: rest) = Ok merged_data /\
    wf merged_data /\
    index merged_data = RangeIndex (len merged_data) /\
    column_names merged_data
    = "Relative Year" :: flat_map metric_columns (first :: rest) /\
    NoDup (column_names merged_data) /\
    (length (relative_years (AUS (snd first))) <= len merged_data)%nat.
Proof.
  intros Hnd Hnorm.
  destruct (Hnorm first (or_introl eq_refl))
    as (((ra & Hra & Hra_ne) & (ca & Hca) & Hne) & ((rc & Hrc & _) & (cc & Hcc) & _)).
  destruct (merge_metric_first first ra rc ca cc Hra Hra_ne Hca Hrc Hcc Hne)
    as (Hmerge & Hfirst & Hya & Hya_ne & Hinv).
  set (ya := map (fun p => nth p ra 0)
                 (map fst (join_rows (map SInt ra) (map SInt rc)))) in *.
  destruct (merge_metrics_spec ya Hya_ne rest _ [first] [] Hinv Hnd)
    as (M & HM & _ & _ & Hnames & _).
  { intros item Hin. apply Hnorm. now right. }
  assert (Hn0 : (1 <= length ra)%nat)
    by (destruct ra; [contradiction | simpl; lia]).
  assert (Hshape : wf M /\ index M = RangeIndex (len M) /\ columns M <> [] /\
                   (length ra <= len M)%nat).
  { apply (fold_bind_invariant merge_metric
             (fun M => wf M /\ index M = RangeIndex (len M) /\ columns M <> [] /\
                       (length ra <= len M)%nat) rest) in HM; [exact HM| |].
    - intros a x a' _ Ha Hstep. exact (merge_metric_shape _ _ _ _ Hn0 Ha Hstep).
    - intros a [= <-].
      destruct (merge_left_shape _ _ _ _ Hmerge)
        as (lk & Hlk & Hwf & Hidx & Hcols & Hlen).
      unfold get_column, find_columns in Hlk. cbn [columns filter fst] in Hlk.
      rewrite String.eqb_refl in Hlk.
      destruct (String.eqb_spec (fst first ++ "_AUS") "Relative Year") as [E|_];
        [now apply AUS_name_not_key in E|].
      cbn [map snd] in Hlk. injection Hlk as <-. cbn [col_len] in Hlen.
      repeat split; assumption. }
  destruct Hshape as (Hwf & Hidx & _ & Hlen).
  exists M. split; [|split; [exact Hwf|split; [exact Hidx|split; [exact Hnames|split]]]].
  - unfold load_and_merge_data. cbn [fold_left bind]. now rewrite Hfirst.
  - rewrite Hnames. now apply metric_columns_nodup.
  - unfold relative_years. now rewrite Hra.
Qed.

Lemma load_and_merge_data_shape_witness :
  exists merged_data,
    load_and_merge_data cleaned_example = Ok merged_data /\
    wf merged_data /\
    index merged_data = RangeIndex (len merged_data) /\
    column_names merged_data
    = ["Relative Year"; "GDP_AUS"; "GDP_CHI"; "FDI_AUS"; "FDI_CHI"] /\
    NoDup (column_names merged_data) /\
    (3 <= len merged_data)%nat.
Proof.
  apply (load_and_merge_data_shape
           ("GDP", mkCountryData (metric_table "GDP" [-1; 0; 1] [1; 2; 3]%float)
                                 (metric_table "GDP" [0; 1; 2] [10; 20; 30]%float))
           [("FDI", mkCountryData (metric_table "FDI" [0; 5] [7; 8]%float)
                                  (metric_table "FDI" [-1; 0] [4; 5]%float))]).
  - distinct_strings.
  - intros item [<-|[<-|[]]];
      (split;
       (split; [ eexists; split; [reflexivity | discriminate]
               | split; [eexists; reflexivity | discriminate] ])).
Defined.

(** ** From the cleaned tables to the matrices *)

Lemma filter_map_commute {A B} (f : A -> B) (p : B -> bool) (l : list A) :
  filter p (map f l) = map f (filter (fun x => p (f x)) l).
Proof.
  induction l as [|x l IH]; cbn [map filter]; [reflexivity|].
  destruct (p (f x)); cbn [map]; now rewrite IH.
Qed.

Lemma group_columns_of_merged (merged_data : DataFrame)
      (dict : list (string * country_data)) (metrics : list string)
      (suffix : string) :
  column_names merged_data = "Relative Year" :: flat_map metric_columns dict ->
  suffix = "_AUS" \/ suffix = "_CHI" ->
  group_columns_of merged_data metrics suffix
  = map (fun metric => (metric ++ suffix)%string)
        (filter (fun metric => existsb (String.eqb metric) (map fst dict))
                metrics).
Proof.
  intros Hnames Hsuffix. unfold group_columns_of.
  rewrite filter_map_commute. f_equal. apply filter_ext. intros metric.
  destruct (existsb (String.eqb metric) (map fst dict)) eqn:E.
  - apply has_column_present. rewrite Hnames.
    apply in_metric_columns; [exact Hsuffix|].
    apply existsb_exists in E. destruct E as (k & Hin & Hk).
    apply String.eqb_eq in Hk. now subst.
  - apply has_column_false. rewrite Hnames. intros Hin.
    apply in_metric_columns in Hin; [|exact Hsuffix].
    assert (E' : existsb (String.eqb metric) (map fst dict) = true).
    { apply existsb_exists. exists metric. split; [exact Hin|].
      apply String.eqb_refl. }
    congruence.
Qed.

(** X17. The two stages compose: for a non-empty dictionary of normalised
    tables with distinct metric names, [load_and_merge_data] returns a
    table on which [compute_country_correlation_matrices] returns as well,
    and for a country with the suffix "_AUS" or "_CHI" a group gets a
    matrix exactly when two or more of its metrics are keys of the
    dictionary. *)
Theorem merged_table_correlation_matrices
        (pearson : list float -> list float -> float)
        (repr_matrix : Matrix -> string)
        (first : string * country_data)
        (rest : list (string * country_data))
        (metric_groups : list (string * list string))
        (country_suffix : list (string * string)) (out : list string) :
  NoDup (map fst (first :: rest)) ->
  (forall item, In item (first :: rest) ->
                normalized (fst item) (AUS (snd item)) /\
                normalized (fst item) (CHI (snd item))) ->
  NoDup (map fst metric_groups) ->
  NoDup (map fst country_suffix) ->
  exists merged_data st,
    load_and_merge_data (first :: rest) = Ok merged_data /\
    compute_country_correlation_matrices
      pearson repr_matrix merged_data metric_groups country_suffix out = Ok st /\
    forall country suffix group metrics,
      In (country, suffix) country_suffix ->
      suffix = "_AUS" \/ suffix = "_CHI" ->
      In (group, metrics) metric_groups ->
      let known :=
        filter (fun metric =>
                  existsb (String.eqb metric) (map fst (first :: rest)))
               metrics in
      ((2 <= length known)%nat ->
       exists M, matrix_of (fst st) country group = Some M) /\
      ((length known < 2)%nat -> matrix_of (fst st) country group = None).
Proof.
  intros Hnd Hnorm Hg Hc.
  destruct (Hnorm first (or_introl eq_refl))
    as (((ra & Hra & Hra_ne) & (ca & Hca) & Hne) & ((rc & Hrc & _) & (cc & Hcc) & _)).
  destruct (merge_metric_first first ra rc ca cc Hra Hra_ne Hca Hrc Hcc Hne)
    as (_ & Hfirst & _ & Hya_ne & Hinv).
  set (ya := map (fun p => nth p ra 0)
                 (map fst (join_rows (map SInt ra) (map SInt rc)))) in *.
  destruct (merge_metrics_spec ya Hya_ne rest _ [first] [] Hinv Hnd)
    as (M & HM & (ym & Hym & _) & _ & Hnames & _).
  { intros item Hin. apply Hnorm. now right. }
  destruct (compute_country_correlation_matrices_spec
              pearson repr_matrix M (IntCol ym) (get_column_unique _ _ _ Hym)
              metric_groups country_suffix out Hg Hc) as (st & Hst & _ & G).
  exists M, st. split; [|split; [exact Hst|]].
  - unfold load_and_merge_data. cbn [fold_left bind]. now rewrite Hfirst.
  - intros country suffix group metrics Hcs Hsuffix Hgm known.
    specialize (G country suffix group metrics Hcs Hgm).
    rewrite (group_columns_of_merged M (first :: rest) metrics suffix Hnames Hsuffix)
      in G.
    rewrite length_map in G. fold known in G.
    destruct (Nat.ltb_spec 1 (length known)) as [Hlt|Hge].
    + split; [|lia]. intros _. destruct G as (C & _ & HC). now exists C.
    + split; [lia|]. intros _. now destruct G.
Qed.

Lemma merged_table_correlation_matrices_witness :
  exists merged_data st,
    load_and_merge_data cleaned_example = Ok merged_data /\
    compute_country_correlation_matrices
      (fun _ _ => 1%float) (fun _ => "matrix") merged_data
      [("Economic", ["GDP"; "FDI"; "Gov_Consumption"]); ("Social", ["Num_Arrivals"])]
      country_suffix [] = Ok st /\
    (exists M, matrix_of (fst st) "China" "Economic" = Some M) /\
    matrix_of (fst st) "China" "Social" = None.
Proof.
  destruct (merged_table_correlation_matrices
              (fun _ _ => 1%float) (fun _ => "matrix")
              ("GDP", mkCountryData (metric_table "GDP" [-1; 0; 1] [1; 2; 3]%float)
                                    (metric_table "GDP" [0; 1; 2] [10; 20; 30]%float))
              [("FDI", mkCountryData (metric_table "FDI" [0; 5] [7; 8]%float)
                                     (metric_table "FDI" [-1; 0] [4; 5]%float))]
              [("Economic", ["GDP"; "FDI"; "Gov_Consumption"]);
               ("Social", ["Num_Arrivals"])]
              country_suffix [])
    as (merged_data & st & Hload & Hrun & G).
  - distinct_strings.
  - intros item [<-|[<-|[]]];
      (split;
       (split; [ eexists; split; [reflexivity | discriminate]
               | split; [eexists; reflexivity | discriminate] ])).
  - distinct_strings.
  - distinct_strings.
  - exists merged_data, st. split; [exact Hload|]. split; [exact Hrun|]. split.
    + apply (G "China" "_CHI" "Economic" ["GDP"; "FDI"; "Gov_Consumption"]).
      * right. left. reflexivity.
      * now right.
      * left. reflexivity.
      * vm_compute. lia.
    + apply (G "China" "_CHI" "Social" ["Num_Arrivals"]).
      * right. left. reflexivity.
      * now right.
      * right. left. reflexivity.
      * vm_compute. lia.
Defined.

(** ** Tables the growth loop accepts *)

Lemma fold_bind_all_ok {A B} (f : A -> B -> result A) (l : list B) :
  forall a0 r,
    fold_left (fun acc x => a <- acc ;; f a x) l (Ok a0) = Ok r ->
    forall x, In x l -> exists a a', f a x = Ok a'.
Proof.
  induction l as [|y l IH]; intros a0 r Hr x Hin; [contradiction|].
  cbn [fold_left bind] in Hr.
  destruct (f a0 y) as [a1|e] eqn:E.
  - destruct Hin as [->|Hin]; [now exists a0, a1|].
    exact (IH a1 r Hr x Hin).
  - rewrite fold_bind_raise in Hr. discriminate Hr.
Qed.

Lemma positions_in (lbl : Z) (idx : list Z) (p : nat) (ps : list nat) :
  positions lbl idx = p :: ps -> In lbl idx.
Proof.
  unfold positions. intros H.
  destruct (filter (fun pl : nat * Z => snd pl =? lbl)
                   (combine (seq 0 (length idx)) idx)) as [|[q v] l] eqn:E;
    [discriminate H|].
  assert (Hin : In (q, v) (filter (fun pl : nat * Z => snd pl =? lbl)
                                  (combine (seq 0 (length idx)) idx)))
    by (rewrite E; now left).
  apply filter_In in Hin. destruct Hin as [Hin Hv]. cbn [snd] in Hv.
  apply Z.eqb_eq in Hv. subst v. apply in_combine_r in Hin. exact Hin.
Qed.

Lemma loc_label (df : DataFrame) (lbl : Z) (name : string) (s : scalar) :
  loc df lbl name = Ok s -> In lbl (index df).
Proof.
  unfold loc. intros H.
  destruct (get_column df name) as [c|e]; [|discriminate H].
  cbn [bind] in H.
  destruct (positions lbl (index df)) as [|p ps] eqn:E; [discriminate H|].
  exact (positions_in _ _ _ _ E).
Qed.

Lemma RangeIndex_NoDup (n : nat) : NoDup (RangeIndex n).
Proof.
  unfold RangeIndex. generalize (seq_NoDup n 0).
  induction (seq 0 n) as [|x l IH]; intros Hnd; cbn [map]; [constructor|].
  inversion Hnd as [|? ? Hx Hl]; subst. constructor; [|now apply IH].
  intros Hin. apply in_map_iff in Hin. destruct Hin as (y & Hy & Hin).
  apply Nat2Z.inj in Hy. now subst.
Qed.

Lemma growth_rates_of_labels (df : DataFrame) (m : string) (g : list scalar)
      (k : nat) :
  growth_rates_of df m = Ok g -> (2 <= len df)%nat -> (k < len df)%nat ->
  In (Z.of_nat k) (index df).
Proof.
  intros Hg Hlen Hk. unfold growth_rates_of in Hg.
  pose proof (fold_bind_all_ok
                (fun growth_rates i =>
                   previous_year <- loc df (Z.of_nat i - 1) m ;;
                   current_year <- loc df (Z.of_nat i) m ;;
                   Ok (growth_rates ++ [growth_step previous_year current_year]))
                _ _ _ Hg) as Hall.
  destruct k as [|k].
  - destruct (Hall 1%nat) as (a & a' & H).
    { unfold py_range. apply in_seq. lia. }
    destruct (loc df (Z.of_nat 1 - 1) m) as [s|e] eqn:E; [|discriminate H].
    exact (loc_label _ _ _ _ E).
  - destruct (Hall (S k)) as (a & a' & H).
    { unfold py_range. apply in_seq. lia. }
    destruct (loc df (Z.of_nat (S k) - 1) m) as [s|e]; [|discriminate H].
    cbn [bind] in H.
    destruct (loc df (Z.of_nat (S k)) m) as [s'|e] eqn:E; [|discriminate H].
    exact (loc_label _ _ _ _ E).
Qed.

(** X18. [calculate_growth_rate] returns on a table of two rows or more
    only when the row labels are the numbers 0 .. n-1 in some order: the
    loop looks every one of them up by label, so a table indexed by years
    or left with gaps by a filter makes it raise. *)
Theorem calculate_growth_rate_row_labels
        (df df' : DataFrame) (metric_column : string) :
  (2 <= len df)%nat ->
  calculate_growth_rate df metric_column = Ok df' ->
  Permutation (RangeIndex (len df)) (index df).
Proof.
  intros Hlen Hrun. unfold calculate_growth_rate in Hrun.
  destruct (growth_rates_of df metric_column) as [g|e] eqn:Eg;
    [|discriminate Hrun].
  apply NoDup_Permutation_bis.
  - apply RangeIndex_NoDup.
  - rewrite RangeIndex_length. reflexivity.
  - intros lbl Hin. unfold RangeIndex in Hin. apply in_map_iff in Hin.
    destruct Hin as (k & <- & Hk). apply in_seq in Hk.
    apply (growth_rates_of_labels df metric_column g); [exact Eg | exact Hlen | lia].
Qed.

Lemma calculate_growth_rate_row_labels_witness :
  Permutation (RangeIndex (len relabelled_example)) (index relabelled_example).
Proof.
  apply (calculate_growth_rate_row_labels
           relabelled_example
           (mkDataFrame [1; 0] None
              [("Year", IntCol [2000; 2001]);
               ("GDP", FloatCol [100; 200]%float);
               ("Growth Rate (%)", FloatCol [0; -50]%float)])
           "GDP").
  - vm_compute. lia.
  - reflexivity.
Defined.

(** ** Tables the normaliser rejects *)

(** X19. After the index is reset and the names are stripped and renamed,
    [index_rename_and_calculate_growth_rate] needs a column "Year" with a
    first cell: without such a column it raises [KeyError] for "Year",
    and on a table without rows it raises [IndexError], before any growth
    rate is computed. *)
Theorem index_rename_and_calculate_growth_rate_rejects
        (df d0 : DataFrame) (rename_dict : option (list (string * string)))
        (host_year : Z) (metric_column : string) :
  wf df ->
  reset_index df = Ok d0 ->
  (find_columns (renamed rename_dict d0) "Year" = [] ->
   index_rename_and_calculate_growth_rate df rename_dict host_year metric_column
   = Raise (KeyError "Year")) /\
  (forall year,
      find_columns (renamed rename_dict d0) "Year" = [year] ->
      len df = 0%nat ->
      index_rename_and_calculate_growth_rate df rename_dict host_year
                                             metric_column
      = Raise (IndexError "single positional indexer is out-of-bounds")).
Proof.
  intros Hwf E0.
  destruct (wf_reset_index df d0 Hwf E0) as (Hwf0 & Hlen0 & _ & _).
  assert (Hwf2 : wf (renamed rename_dict d0))
    by (unfold renamed; now repeat apply wf_map_columns).
  split.
  - intros Hyear. unfold index_rename_and_calculate_growth_rate.
    rewrite E0. cbn [bind]. fold (renamed rename_dict d0).
    unfold get_column. now rewrite Hyear.
  - intros year Hyear Hlen. unfold index_rename_and_calculate_growth_rate.
    rewrite E0. cbn [bind]. fold (renamed rename_dict d0).
    rewrite (get_column_unique _ _ _ Hyear). cbn [bind].
    pose proof (wf_get_column _ _ _ Hwf2 Hyear) as Hly.
    assert (Hz : col_len year = 0%nat).
    { rewrite Hly. unfold renamed, map_columns, len. cbn [index].
      unfold len in Hlen0. rewrite Hlen0. exact Hlen. }
    unfold iloc_first.
    destruct year as [l|l]; cbn [col_len] in Hz;
      apply length_zero_iff_nil in Hz; subst l; reflexivity.
Qed.

Lemma index_rename_and_calculate_growth_rate_rejects_witness :
  index_rename_and_calculate_growth_rate merged_without_key None 2000 "FDI_AUS"
  = Raise (KeyError "Year") /\
  index_rename_and_calculate_growth_rate empty_example None 2000 "GDP"
  = Raise (IndexError "single positional indexer is out-of-bounds").
Proof.
  split.
  - apply (proj1 (index_rename_and_calculate_growth_rate_rejects
                    merged_without_key _ None 2000 "FDI_AUS"
                    ltac:(repeat constructor) eq_refl)).
    reflexivity.
  - apply (proj2 (index_rename_and_calculate_growth_rate_rejects
                    empty_example _ None 2000 "GDP"
                    ltac:(repeat constructor) eq_refl)
                 (IntCol [])); reflexivity.
Defined.

(** ** Running the growth loop again *)

Lemma set_column_idempotent (name : string) (c : column)
      (cols : list (string * column)) :
  set_column name c (set_column name c cols) = set_column name c cols.
Proof.
  assert (Hhas : existsb (fun kc => String.eqb (fst kc) name)
                         (set_column name c cols) = true).
  { pose proof (set_column_has name c cols) as Hin.
    apply in_map_iff in Hin. destruct Hin as (kc & Hk & Hin).
    apply existsb_exists. exists kc. split; [exact Hin|].
    now apply String.eqb_eq. }
  unfold set_column at 1. rewrite Hhas. unfold set_column.
  destruct (existsb (fun kc => String.eqb (fst kc) name) cols) eqn:E.
  - rewrite map_map. apply map_ext. intros kc.
    destruct (String.eqb (fst kc) name) eqn:Ek; cbn [fst]; now rewrite Ek.
  - rewrite map_app. cbn [map fst]. rewrite String.eqb_refl. f_equal.
    rewrite <- (map_id cols) at 2. apply map_ext_in. intros kc Hin.
    destruct (String.eqb (fst kc) name) eqn:Ek; [|reflexivity].
    assert (Ht : existsb (fun kc => String.eqb (fst kc) name) cols = true)
      by (apply existsb_exists; now exists kc).
    congruence.
Qed.

Lemma growth_rates_of_set_column (idx : list Z) (iname : option string)
      (cols : list (string * column)) (name m : string) (c : column) :
  m <> name ->
  growth_rates_of (mkDataFrame idx iname (set_column name c cols)) m
  = growth_rates_of (mkDataFrame idx iname cols) m.
Proof.
  intros Hne. unfold growth_rates_of.
  change (len (mkDataFrame idx iname (set_column name c cols)))
    with (len (mkDataFrame idx iname cols)).
  apply fold_left_ext_in. intros i acc _.
  unfold loc, get_column. rewrite find_columns_set_other by assumption.
  reflexivity.
Qed.

(** X20. [calculate_growth_rate] can be run again on its own result: as
    long as the metric column is not "Growth Rate (%)" itself, the second
    run returns the table the first run returned, the growth column being
    replaced by an equal one and never added a second time. *)
Theorem calculate_growth_rate_idempotent
        (df df' : DataFrame) (metric_column : string) :
  metric_column <> "Growth Rate (%)" ->
  calculate_growth_rate df metric_column = Ok df' ->
  calculate_growth_rate df' metric_column = Ok df'.
Proof.
  intros Hne Hrun. destruct (Nat.eq_dec (len df) 0) as [Hz|Hnz].
  - unfold calculate_growth_rate in Hrun.
    rewrite growth_rates_of_empty in Hrun by lia. cbn [bind] in Hrun.
    unfold setitem_list in Hrun. rewrite Hz in Hrun.
    cbn [length Nat.eqb Nat.ltb Nat.leb andb] in Hrun. injection Hrun as <-.
    unfold calculate_growth_rate.
    rewrite growth_rates_of_empty by (unfold len; cbn [index]; rewrite RangeIndex_length; lia).
    cbn [bind]. unfold setitem_list, len. cbn [index index_name columns length].
    rewrite RangeIndex_length. cbn [Nat.eqb andb].
    now rewrite set_column_idempotent.
  - destruct (calculate_growth_rate_rows df df' metric_column) as (g & Hg & Hlen & ->);
      [lia | exact Hrun |].
    destruct df as [idx iname cols]. cbn [index index_name columns] in *.
    unfold calculate_growth_rate.
    rewrite growth_rates_of_set_column, Hg by assumption. cbn [bind].
    unfold setitem_list.
    change (len (mkDataFrame idx iname
                   (set_column "Growth Rate (%)" (column_of_list g) cols)))
      with (len (mkDataFrame idx iname cols)).
    destruct (Nat.eqb_spec (len (mkDataFrame idx iname cols)) 0) as [E|_];
      [contradiction|].
    cbn [andb]. rewrite Hlen, Nat.eqb_refl. cbn [index index_name columns].
    now rewrite set_column_idempotent.
Qed.

Lemma calculate_growth_rate_idempotent_witness :
  calculate_growth_rate
    (mkDataFrame [1; 0] None
       [("Year", IntCol [2000; 2001]);
        ("GDP", FloatCol [100; 200]%float);
        ("Growth Rate (%)", FloatCol [0; -50]%float)])
    "GDP"
  = Ok (mkDataFrame [1; 0] None
          [("Year", IntCol [2000; 2001]);
           ("GDP", FloatCol [100; 200]%float);
           ("Growth Rate (%)", FloatCol [0; -50]%float)]).
Proof.
  apply (calculate_growth_rate_idempotent relabelled_example _ "GDP").
  - discriminate.
  - reflexivity.
Defined.
